(** * juna_geotagger: the GPS interpolation and photo/track matching core

    A shallow embedding of [geo_core.py]: the track loader
    ([parse_gpx_files], [get_gpx_track_geojson]), the timestamp normalizer
    ([_parse_exiftool_datetime]), the interpolation engine
    ([interpolate_gps], with the standard library's [bisect_left]) and the
    matching loop of [async_scan_photos].

    Conventions of the embedding.
    - A timezone-aware [datetime] is the instant it denotes: an integer
      number of microseconds since the epoch ([instant]); a [timedelta] is a
      number of microseconds.  Comparison of aware datetimes is comparison
      of instants.
    - A Python [float] is read as the exact rational it denotes ([Q]);
      rounding, infinities and NaN are outside the model.
    - A Python exception is a value: functions that can raise return an
      [outcome], either [Return v] or [Raise e].
    - Python dicts with a fixed set of keys are records whose fields are the
      keys; the [info] dict of exiftool is a finite map from tag names to
      JSON values. *)

From Stdlib Require Import ZArith QArith Qabs Lqa Lia Ascii String.
From Stdlib Require Import DecimalString.
From stdpp Require Import base list strings gmap sorting.
From Equations Require Import Equations.

Set Default Proof Using "Type".

(** ** Exceptions *)

Inductive exn : Set :=
  | ZeroDivisionError
  | IndexError
  | ValueError
  | OverflowError
  | AttributeError.

Inductive outcome (A : Type) : Type :=
  | Return (a : A)
  | Raise (e : exn).
Arguments Return {A} a.
Arguments Raise {A} e.

#[global] Instance outcome_ret : MRet outcome := fun A a => Return a.
#[global] Instance outcome_bind : MBind outcome := fun A B f m =>
  match m with
  | Return a => f a
  | Raise e => Raise e
  end.

#[global] Instance outcome_fmap : FMap outcome := fun A B f m =>
  match m with
  | Return a => Return (f a)
  | Raise e => Raise e
  end.

Definition raises {A} (m : outcome A) : Prop :=
  match m with Return _ => False | Raise _ => True end.

(** ** Python lists *)

(** [l[i]]: a negative index counts from the end, an index out of range
    raises [IndexError]. *)
Definition getitem {A} (l : list A) (i : Z) : outcome A :=
  let j := if (i <? 0)%Z then (i + Z.of_nat (length l))%Z else i in
  if (j <? 0)%Z then Raise IndexError
  else match l !! Z.to_nat j with
       | Some v => Return v
       | None => Raise IndexError
       end.

(** ** Time *)

Abbreviation instant := Z (only parsing).
Abbreviation timedelta := Z (only parsing).

(** [timedelta.total_seconds()] *)
Definition total_seconds (d : timedelta) : Q := d # 1000000.

(** [a / b] on floats *)
Definition truediv (a b : Q) : outcome Q :=
  if Qeq_bool b 0 then Raise ZeroDivisionError else Return (a / b)%Q.

(** [a > b] on floats *)
Definition Qgt_bool (a b : Q) : bool := negb (Qle_bool a b).

(** ** The track timeline *)

(** A trackpoint dict [{"time": ..., "lat": ..., "lon": ..., "ele": ...}]. *)
Record trackpoint : Type := Trackpoint {
  time : instant;
  lat : Q;
  lon : Q;
  ele : Q;
}.

(** The dict [{"lat": ..., "lon": ..., "ele": ...}] returned by
    [interpolate_gps]. *)
Record gps : Type := Gps {
  gps_lat : Q;
  gps_lon : Q;
  gps_ele : Q;
}.

(** [{"lat": p["lat"], "lon": p["lon"], "ele": p["ele"]}] *)
Definition position (p : trackpoint) : gps :=
  {| gps_lat := lat p; gps_lon := lon p; gps_ele := ele p |}.

(** ** [bisect.bisect_left]

    The loop of the standard library:
<<
    lo, hi = 0, len(a)
    while lo < hi:
        mid = (lo + hi) // 2
        if a[mid] < x: lo = mid + 1
        else: hi = mid
    return lo
>> *)

Equations? bisect_loop (a : list instant) (x : instant) (lo hi : nat)
    : outcome nat by wf (hi - lo) lt :=
  bisect_loop a x lo hi with lt_dec lo hi => {
    | right _ := Return lo
    | left _ with getitem a (Z.of_nat ((lo + hi) / 2)) => {
        | Raise e := Raise e
        | Return v with Z_lt_dec v x => {
            | left _ := bisect_loop a x ((lo + hi) / 2 + 1) hi
            | right _ := bisect_loop a x lo ((lo + hi) / 2) } } }.
Proof.
  all: change (Nat.divmod (lo + hi) 1 0 1).1 with ((lo + hi) / 2);
    pose proof (Nat.div_mod_eq (lo + hi) 2);
    pose proof (Nat.mod_upper_bound (lo + hi) 2); lia.
Qed.

Definition bisect_left (a : list instant) (x : instant) : outcome nat :=
  bisect_loop a x 0 (length a).

(** ** [interpolate_gps] *)

(** Lines 275-289: the two bracketing points are known. *)
Definition interpolate_between (before after : trackpoint)
    (photo_time : instant) (max_gap_seconds : Q) : outcome (option gps) :=
  let total_gap := total_seconds (time after - time before)%Z in
  if Qgt_bool total_gap max_gap_seconds then Return None
  else if Qeq_bool total_gap 0 then Return (Some (position before))
  else
    let elapsed := total_seconds (photo_time - time before)%Z in
    ratio ← truediv elapsed total_gap;
    let lat := (lat before + (lat after - lat before) * ratio)%Q in
    let lon := (lon before + (lon after - lon before) * ratio)%Q in
    let ele := (ele before + (ele after - ele before) * ratio)%Q in
    Return (Some {| gps_lat := lat; gps_lon := lon; gps_ele := ele |}).

Definition interpolate_gps (trackpoints : list trackpoint)
    (photo_time : instant) (max_gap_seconds : Q) : outcome (option gps) :=
  match trackpoints with
  | [] => Return None
  | _ :: _ =>
    let times := time <$> trackpoints in
    idx ← bisect_left times photo_time;
    exact ← (if idx <? length trackpoints
             then p ← getitem trackpoints (Z.of_nat idx);
                  Return (time p =? photo_time)%Z
             else Return false);
    if exact : bool then
      p ← getitem trackpoints (Z.of_nat idx);
      Return (Some (position p))
    else if idx =? 0 then
      p0 ← getitem trackpoints 0%Z;
      let gap := total_seconds (time p0 - photo_time)%Z in
      if Qle_bool gap max_gap_seconds then
        p ← getitem trackpoints 0%Z;
        Return (Some (position p))
      else Return None
    else if length trackpoints <=? idx then
      pl ← getitem trackpoints (-1)%Z;
      let gap := total_seconds (photo_time - time pl)%Z in
      if Qle_bool gap max_gap_seconds then
        p ← getitem trackpoints (-1)%Z;
        Return (Some (position p))
      else Return None
    else
      before ← getitem trackpoints (Z.of_nat idx - 1)%Z;
      after ← getitem trackpoints (Z.of_nat idx);
      interpolate_between before after photo_time max_gap_seconds
  end.

(** ** Sorted timelines *)

(** Adjacent elements are in non-decreasing order. *)
Fixpoint nondecreasing (ts : list instant) : bool :=
  match ts with
  | [] => true
  | t :: rest =>
    match rest with
    | [] => true
    | u :: _ => (t <=? u)%Z && nondecreasing rest
    end
  end.

Definition sorted_timeline (trackpoints : list trackpoint) : Prop :=
  nondecreasing (time <$> trackpoints) = true.

(** ** Python's stable sorts

    [sorted(l)] and [l.sort(key=...)] are stable: elements that compare
    equal keep their order.  Here a stable insertion sort over the order
    [le]; an element goes in front of the first element it is not above. *)

Section StableSort.
Context {A : Type} (le : A -> A -> bool).

Fixpoint insert_sorted (x : A) (l : list A) : list A :=
  match l with
  | [] => [x]
  | y :: rest => if le x y then x :: l else y :: insert_sorted x rest
  end.

Definition stable_sort (l : list A) : list A := foldr insert_sorted [] l.
End StableSort.

(** [sorted(paths)] on strings *)
Definition sorted (paths : list string) : list string :=
  stable_sort String.leb paths.

(** The order of the key [lambda p: p["time"]] *)
Definition le_time (p r : trackpoint) : bool := (time p <=? time r)%Z.

(** [trackpoints.sort(key=lambda p: p["time"])] *)
Definition sort_by_time (trackpoints : list trackpoint) : list trackpoint :=
  stable_sort le_time trackpoints.

(** ** What gpxpy yields *)

(** A [datetime] as a parser yields it: the wall-clock reading in
    microseconds, and the UTC offset when the value is timezone-aware. *)
Record datetime : Type := Datetime {
  wall : Z;
  tzinfo : option timedelta;
}.

(** [t.replace(tzinfo=timezone.utc)] for a naive [t],
    [t.astimezone(timezone.utc)] for an aware one. *)
Definition to_utc (t : datetime) : instant :=
  match tzinfo t with
  | None => wall t
  | Some offset => (wall t - offset)%Z
  end.

Module gpxpy.
Record point : Type := Point {
  time : option datetime;
  latitude : Q;
  longitude : Q;
  elevation : option Q;
}.
Record segment : Type := Segment { points : list point }.
Record track : Type := Track {
  name : option string;
  segments : list segment;
}.
Record gpx : Type := Gpx {
  tracks : list track;
  waypoints : list point;
}.
End gpxpy.

(** The directory as the loader sees it: [glob.glob(gpx_dir/*.gpx)] in the
    order the file system gives, and for each path what opening and parsing
    it yields ([None]: an exception was raised). *)
Record gpx_directory : Type := GpxDirectory {
  glob : list string;
  parse : string -> option gpxpy.gpx;
}.

(** ** [parse_gpx_files] *)

(** The body of both point loops: skip a point without a time, else append
    its trackpoint dict. *)
Definition append_point (trackpoints : list trackpoint) (point : gpxpy.point)
    : list trackpoint :=
  match gpxpy.time point with
  | None => trackpoints
  | Some pt_time =>
    trackpoints ++
      [{| time := to_utc pt_time;
          lat := gpxpy.latitude point;
          lon := gpxpy.longitude point;
          ele := match gpxpy.elevation point with
                 | Some e => e
                 | None => 0
                 end |}]
  end.

(** The list [trackpoints] as it stands before the final sort. *)
Definition collect_trackpoints (gpx_dir : gpx_directory) : list trackpoint :=
  let gpx_files := sorted (glob gpx_dir) in
  fold_left (fun trackpoints gpx_file =>
    match parse gpx_dir gpx_file with
    | None => trackpoints
    | Some gpx =>
      let trackpoints :=
        fold_left (fun trackpoints track =>
          fold_left (fun trackpoints segment =>
            fold_left append_point (gpxpy.points segment) trackpoints)
          (gpxpy.segments track) trackpoints)
        (gpxpy.tracks gpx) trackpoints in
      fold_left append_point (gpxpy.waypoints gpx) trackpoints
    end) gpx_files [].

Definition parse_gpx_files (gpx_dir : gpx_directory) : list trackpoint :=
  let gpx_files := sorted (glob gpx_dir) in
  match gpx_files with
  | [] => []
  | _ :: _ => sort_by_time (collect_trackpoints gpx_dir)
  end.

(** ** [get_gpx_track_geojson] *)

Record geometry : Type := Geometry {
  geometry_type : string;
  coordinates : list (list Q);
}.

Record properties : Type := Properties { name : string }.

Record feature : Type := Feature {
  feature_type : string;
  feature_properties : properties;
  feature_geometry : geometry;
}.

Record feature_collection : Type := FeatureCollection {
  collection_type : string;
  features : list feature;
}.

Fixpoint has_slash (path : string) : bool :=
  match path with
  | EmptyString => false
  | String c rest => Ascii.eqb c "/"%char || has_slash rest
  end.

(** [os.path.basename]: what follows the last slash. *)
Fixpoint basename (path : string) : string :=
  match path with
  | EmptyString => EmptyString
  | String c rest =>
    if Ascii.eqb c "/"%char || has_slash rest then basename rest else path
  end.

(** [track.name or os.path.basename(gpx_file)] *)
Definition feature_name (track : gpxpy.track) (gpx_file : string) : string :=
  match gpxpy.name track with
  | Some EmptyString | None => basename gpx_file
  | Some declared => declared
  end.

Definition segment_coords (segment : gpxpy.segment) : list (list Q) :=
  fold_left (fun coords point =>
    coords ++ [[gpxpy.longitude point; gpxpy.latitude point]])
  (gpxpy.points segment) [].

Definition line_feature (track_name : string) (coords : list (list Q))
    : feature :=
  {| feature_type := "Feature";
     feature_properties := {| name := track_name |};
     feature_geometry :=
       {| geometry_type := "LineString"; coordinates := coords |} |}.

Definition get_gpx_track_geojson (gpx_dir : gpx_directory)
    : feature_collection :=
  let gpx_files := sorted (glob gpx_dir) in
  let features :=
    fold_left (fun features gpx_file =>
      match parse gpx_dir gpx_file with
      | None => features
      | Some gpx =>
        fold_left (fun features track =>
          fold_left (fun features segment =>
            let coords := segment_coords segment in
            match coords with
            | [] => features
            | _ :: _ =>
              features ++ [line_feature (feature_name track gpx_file) coords]
            end)
          (gpxpy.segments track) features)
        (gpxpy.tracks gpx) features
      end) gpx_files [] in
  {| collection_type := "FeatureCollection"; features := features |}.

(** ** String helpers of the normalizer *)

(** ASCII white space, as [str.strip()] removes it. *)
Definition isspace (c : ascii) : bool :=
  let n := nat_of_ascii c in
  (9 <=? n) && (n <=? 13) || (28 <=? n) && (n <=? 32).

Fixpoint lstrip (s : string) : string :=
  match s with
  | EmptyString => EmptyString
  | String c rest => if isspace c then lstrip rest else s
  end.

Fixpoint rstrip (s : string) : string :=
  match s with
  | EmptyString => EmptyString
  | String c rest =>
    match rstrip rest with
    | EmptyString => if isspace c then EmptyString else String c EmptyString
    | kept => String c kept
    end
  end.

(** [s.strip()] *)
Definition strip (s : string) : string := rstrip (lstrip s).

(** [s.split(sep)] for a one-character separator; never the empty list. *)
Fixpoint split (sep : ascii) (s : string) : list string :=
  match s with
  | EmptyString => [EmptyString]
  | String c rest =>
    if Ascii.eqb c sep then EmptyString :: split sep rest
    else match split sep rest with
         | [] => [String c EmptyString]
         | field :: fields => String c field :: fields
         end
  end.

(** [s[0]] *)
Definition first_char (s : string) : outcome ascii :=
  match s with
  | EmptyString => Raise IndexError
  | String c _ => Return c
  end.

(** [s[1:]] *)
Definition from_second (s : string) : string :=
  match s with
  | EmptyString => EmptyString
  | String _ rest => rest
  end.

(** [timezone(timedelta(hours=h, minutes=m))], in microseconds: a
    [timedelta] holds at most 999999999 days either way, and a [timezone]
    takes an offset strictly between minus and plus 24 hours. *)
Definition timezone_of (hours minutes : Z) : outcome timedelta :=
  let offset := ((hours * 3600 + minutes * 60) * 1000000)%Z in
  let days := (offset / 86400000000)%Z in
  if ((days <? -999999999) || (999999999 <? days))%Z then Raise OverflowError
  else if ((-86400000000 <? offset) && (offset <? 86400000000))%Z
       then Return offset
       else Raise ValueError.

(** The formats tried in turn. *)
Definition FORMATS : list string :=
  ["%Y:%m:%d %H:%M:%S"; "%Y-%m-%d %H:%M:%S"; "%Y:%m:%d %H:%M:%S%z"]%string.

Definition ZERO_DATE : string := "0000:00:00 00:00:00".

(** ** The [info] dict

    What [json.loads] makes of a tag's value in exiftool's output: a string,
    or a number when the text looks like one. *)
Inductive json : Type :=
  | JString (s : string)
  | JNumber (n : Q).

(** Truth value of [v] in [not v] and [v or w]. *)
Definition truthy (v : json) : bool :=
  match v with
  | JString EmptyString => false
  | JString _ => true
  | JNumber n => negb (Qeq_bool n 0)
  end.

(** [a or b], for [a] and [b] the results of [info.get]. *)
Definition or_else (a b : option json) : option json :=
  match a with
  | Some v => if truthy v then a else b
  | None => b
  end.

(** [v == s] for a string literal [s] *)
Definition equals_str (v : json) (s : string) : bool :=
  match v with
  | JString s' => String.eqb s' s
  | JNumber _ => false
  end.

(** [v.strip()]: a number has no such method. *)
Definition strip_of (v : json) : outcome string :=
  match v with
  | JString s => Return (strip s)
  | JNumber _ => Raise AttributeError
  end.

(** ** [_parse_exiftool_datetime]

    Three library functions are taken as they are, for every behaviour they
    may have:
    - [strptime s fmt], [datetime.strptime]: the datetime read (aware when
      the format reads an offset) or the exception raised;
    - [int_of s], [int(s)]: the integer or the exception raised;
    - [local_offset w]: the UTC offset the host's time zone gives the naive
      wall-clock reading [w] ([datetime.astimezone()] without argument). *)

Section Normalizer.
Variable strptime : string -> string -> outcome datetime.
Variable int_of : string -> outcome Z.
Variable local_offset : Z -> timedelta.

(** The [for fmt in [...]] loop: the first format that parses wins, a
    [ValueError] moves on to the next one. *)
Fixpoint try_formats (date_str : string) (formats : list string)
    : outcome (option datetime) :=
  match formats with
  | [] => Return None
  | fmt :: rest =>
    match strptime date_str fmt with
    | Return photo_time => Return (Some photo_time)
    | Raise ValueError => try_formats date_str rest
    | Raise e => Raise e
    end
  end.

(** The body of the [try] that reads the offset string. *)
Definition offset_of (offset_str : json) : outcome timedelta :=
  offset_str ← strip_of offset_str;
  c ← first_char offset_str;
  let sign := if Ascii.eqb c "+"%char then 1%Z else (-1)%Z in
  let parts := split ":"%char (from_second offset_str) in
  part0 ← getitem parts 0%Z;
  hours ← int_of part0;
  minutes ← (if 1 <? length parts
             then part1 ← getitem parts 1%Z; int_of part1
             else Return 0%Z);
  timezone_of (sign * hours) (sign * minutes).

(** Lines 167-184: from the parsed datetime to the UTC instant. *)
Definition localize (photo_time : datetime) (offset_str : option json)
    : outcome instant :=
  photo_time ←
    match tzinfo photo_time with
    | Some _ => Return photo_time
    | None =>
      photo_time ←
        match offset_str with
        | None => Return photo_time
        | Some offset_str =>
          if truthy offset_str then
            match offset_of offset_str with
            | Return offset =>
              Return {| wall := wall photo_time; tzinfo := Some offset |}
            | Raise ValueError | Raise IndexError => Return photo_time
            | Raise e => Raise e
            end
          else Return photo_time
        end;
      match tzinfo photo_time with
      | Some _ => Return photo_time
      | None =>
        Return {| wall := wall photo_time;
                  tzinfo := Some (local_offset (wall photo_time)) |}
      end
    end;
  Return (to_utc photo_time).

Definition _parse_exiftool_datetime (info : gmap string json)
    : outcome (option instant) :=
  let date_str :=
    or_else (info !! "DateTimeOriginal"%string) (info !! "CreateDate"%string) in
  match date_str with
  | None => Return None
  | Some date_str =>
    if negb (truthy date_str) || equals_str date_str ZERO_DATE
    then Return None
    else
      let offset_str :=
        or_else (info !! "OffsetTimeOriginal"%string)
                (info !! "OffsetTime"%string) in
      stripped ← strip_of date_str;
      photo_time ← try_formats stripped FORMATS;
      match photo_time with
      | Some photo_time => Some <$> localize photo_time offset_str
      | None =>
        stripped ← strip_of date_str;
        whole ← getitem (split "."%char stripped) 0%Z;
        match strptime whole "%Y:%m:%d %H:%M:%S"%string with
        | Return photo_time => Some <$> localize photo_time offset_str
        | Raise ValueError => Return None
        | Raise e => Raise e
        end
      end
  end.
End Normalizer.

(** ** The matching loop of [async_scan_photos] *)

(** The dict [async_get_photo_metadata] returns.  Its ["time"] is the ISO
    text of a UTC instant, which [datetime.fromisoformat] reads back; the
    field holds that instant. *)
Record photo_metadata : Type := PhotoMetadata {
  filename : string;
  filepath : string;
  photo_time : option instant;
  has_gps : bool;
  photo_lat : option Q;
  photo_lon : option Q;
}.

(** The same dict after the loop: ["status"] is set, and the three
    ["matched_*"] keys exist when the field is [Some]. *)
Record scanned_photo : Type := ScannedPhoto {
  metadata : photo_metadata;
  status : string;
  matched_lat : option Q;
  matched_lon : option Q;
  matched_ele : option Q;
}.

Definition with_status (photo : photo_metadata) (s : string) : scanned_photo :=
  {| metadata := photo; status := s;
     matched_lat := None; matched_lon := None; matched_ele := None |}.

(** The loop body, with the interpolation call as a parameter [engine]. *)
Definition match_photo_with (engine : instant -> outcome (option gps))
    (photo : photo_metadata) : outcome scanned_photo :=
  if has_gps photo then Return (with_status photo "has_gps")
  else match photo_time photo with
       | None => Return (with_status photo "no_time")
       | Some photo_time =>
         gps ← engine photo_time;
         match gps with
         | Some gps =>
           Return {| metadata := photo; status := "matched";
                     matched_lat := Some (gps_lat gps);
                     matched_lon := Some (gps_lon gps);
                     matched_ele := Some (gps_ele gps) |}
         | None => Return (with_status photo "no_match")
         end
       end.

(** The loop body as the source has it. *)
Definition match_photo (trackpoints : list trackpoint) (max_gap : Q)
    (photo : photo_metadata) : outcome scanned_photo :=
  match_photo_with
    (fun photo_time => interpolate_gps trackpoints photo_time max_gap) photo.

(** [for photo in photos: ...] *)
Fixpoint match_photos (trackpoints : list trackpoint) (max_gap : Q)
    (photos : list photo_metadata) : outcome (list scanned_photo) :=
  match photos with
  | [] => Return []
  | photo :: rest =>
    scanned ← match_photo trackpoints max_gap photo;
    others ← match_photos trackpoints max_gap rest;
    Return (scanned :: others)
  end.

(** The dict [async_scan_photos] returns. *)
Record scan_result : Type := ScanResult {
  photos : list scanned_photo;
  gpx_geojson : feature_collection;
  trackpoint_count : nat;
  gpx_available : bool;
}.

(** [async_scan_photos], from what the file system and exiftool give: the
    metadata dicts of the image files ([photos], what [asyncio.gather]
    returns) and the [gpx] sub-directory when there is one. *)
Definition async_scan_photos (photos : list photo_metadata)
    (gpx_dir : option gpx_directory) (max_gap : Q) : outcome scan_result :=
  let trackpoints :=
    match gpx_dir with
    | Some gpx_dir => parse_gpx_files gpx_dir
    | None => []
    end in
  let gpx_geojson :=
    match gpx_dir with
    | Some gpx_dir => get_gpx_track_geojson gpx_dir
    | None => {| collection_type := "FeatureCollection"; features := [] |}
    end in
  photos ← match_photos trackpoints max_gap photos;
  Return {| photos := photos;
            gpx_geojson := gpx_geojson;
            trackpoint_count := length trackpoints;
            gpx_available := match gpx_dir with Some _ => true | None => false end |}.

(** ** Sample data

    The scenario of the specification: two points 1000 seconds apart, and
    variations on it, for the examples below. *)

Definition T0 : instant := 1700000000000000.

Definition seconds (n : Z) : timedelta := (n * 1000000)%Z.

Definition sample_before : trackpoint :=
  {| time := T0; lat := 10; lon := 20; ele := 0 |}.

Definition sample_after : trackpoint :=
  {| time := T0 + seconds 1000; lat := 1001 # 100; lon := 2002 # 100;
     ele := 5 |}.

Definition sample_timeline : list trackpoint := [sample_before; sample_after].

(** Two points 5000 seconds apart. *)
Definition sample_far : trackpoint :=
  {| time := T0 + seconds 5000; lat := 11; lon := 21; ele := 7 |}.

Definition sparse_timeline : list trackpoint := [sample_before; sample_far].

(** Two points recorded at the same instant, at different places. *)
Definition sample_twin : trackpoint :=
  {| time := T0; lat := 12; lon := 22; ele := 9 |}.

Definition twin_timeline : list trackpoint :=
  [sample_before; sample_twin; sample_after].

(** ** The loader, said in one piece

    What the loops of [parse_gpx_files] find, in the order they find it:
    files in name order; in a file the points of its tracks, segment by
    segment, then its waypoints; points without a time left out. *)

Definition point_trackpoints (point : gpxpy.point) : list trackpoint :=
  append_point [] point.

Definition file_trackpoints (gpx : gpxpy.gpx) : list trackpoint :=
  flat_map (fun track =>
    flat_map (fun segment => flat_map point_trackpoints (gpxpy.points segment))
             (gpxpy.segments track))
    (gpxpy.tracks gpx)
  ++ flat_map point_trackpoints (gpxpy.waypoints gpx).

Definition found_trackpoints (gpx_dir : gpx_directory) : list trackpoint :=
  flat_map (fun gpx_file =>
    match parse gpx_dir gpx_file with
    | None => []
    | Some gpx => file_trackpoints gpx
    end) (sorted (glob gpx_dir)).

(** The trackpoints of a list that carry the timestamp [t], in order. *)
Definition at_time (t : instant) (trackpoints : list trackpoint)
    : list trackpoint :=
  filter (fun p => time p = t) trackpoints.

(** ** The GeoJSON export, said in one piece *)

(** [[longitude, latitude]] for each point, in segment order. *)
Definition lon_lat_pairs (segment : gpxpy.segment) : list (list Q) :=
  map (fun point => [gpxpy.longitude point; gpxpy.latitude point])
      (gpxpy.points segment).

Definition segment_feature (gpx_file : string) (track : gpxpy.track)
    (segment : gpxpy.segment) : feature :=
  line_feature (feature_name track gpx_file) (lon_lat_pairs segment).

(** One feature for each of the [segments], for every track of every file
    that parses, files in name order. *)
Definition features_of_segments
    (segments : gpxpy.track -> list gpxpy.segment)
    (gpx_dir : gpx_directory) : list feature :=
  flat_map (fun gpx_file =>
    match parse gpx_dir gpx_file with
    | None => []
    | Some gpx =>
      flat_map (fun track => map (segment_feature gpx_file track)
                                 (segments track))
               (gpxpy.tracks gpx)
    end) (sorted (glob gpx_dir)).

(** As the specification words it: one feature per track segment. *)
Definition features_per_segment (gpx_dir : gpx_directory) : list feature :=
  features_of_segments gpxpy.segments gpx_dir.

Definition has_points (segment : gpxpy.segment) : bool :=
  match gpxpy.points segment with
  | [] => false
  | _ :: _ => true
  end.

(** One feature per track segment that has a point. *)
Definition features_per_nonempty_segment (gpx_dir : gpx_directory)
    : list feature :=
  features_of_segments
    (fun track => List.filter has_points (gpxpy.segments track)) gpx_dir.

(** A directory with one file: a track with a named, two-point segment and
    an empty segment, and a waypoint. *)
Definition sample_point (t : Z) (la lo : Q) : gpxpy.point :=
  {| gpxpy.time := Some {| wall := t; tzinfo := None |};
     gpxpy.latitude := la; gpxpy.longitude := lo;
     gpxpy.elevation := None |}.

Definition sample_gpx : gpxpy.gpx :=
  {| gpxpy.tracks :=
       [{| gpxpy.name := None;
           gpxpy.segments :=
             [{| gpxpy.points :=
                   [sample_point (T0 + seconds 60) 10 20; sample_point T0 11 21] |};
              {| gpxpy.points := [] |}] |}];
     gpxpy.waypoints := [sample_point (T0 + seconds 60) 12 22] |}.

Definition sample_directory : gpx_directory :=
  {| glob := ["/photos/gpx/walk.gpx"; "/photos/gpx/broken.gpx"]%string;
     parse := fun gpx_file =>
       if String.eqb gpx_file "/photos/gpx/walk.gpx" then Some sample_gpx
       else None |}.

(** ** Timestamps that match no pattern *)

(** The raw timestamp the normalizer works on. *)
Definition raw_timestamp (info : gmap string json) : option json :=
  or_else (info !! "DateTimeOriginal"%string) (info !! "CreateDate"%string).

(** [date_str] matches none of the patterns: [strptime] rejects it, stripped,
    under each of the three formats, and rejects what precedes its first dot
    under the first format. *)
Definition unrecognized (strptime : string -> string -> outcome datetime)
    (date_str : string) : Prop :=
  Forall (fun fmt => strptime (strip date_str) fmt = Raise ValueError) FORMATS
  /\ forall whole,
       head (split "."%char (strip date_str)) = Some whole ->
       strptime whole "%Y:%m:%d %H:%M:%S"%string = Raise ValueError.

(** A stand-in for [strptime] that knows one timestamp only (noon on
    2024-05-06, as a wall-clock reading), for the examples. *)
Definition sample_strptime (date_str fmt : string) : outcome datetime :=
  if String.eqb date_str "2024:05:06 12:00:00"
     && String.eqb fmt "%Y:%m:%d %H:%M:%S"
  then Return {| wall := 1714996800000000; tzinfo := None |}
  else Raise ValueError.

(** A stand-in for [int] that knows the hours and minutes of one offset. *)
Definition sample_int (s : string) : outcome Z :=
  if String.eqb s "09" then Return 9%Z
  else if String.eqb s "00" then Return 0%Z
  else Raise ValueError.

Definition sample_info : gmap string json :=
  {[ "DateTimeOriginal"%string := JString "2024:05:06 12:00:00";
     "OffsetTimeOriginal"%string := JString "+09:00" ]}.

Definition garbled_info : gmap string json :=
  {[ "DateTimeOriginal"%string := JString "yesterday at noon" ]}.

(** ** Sample photos *)

Definition photo_with_gps : photo_metadata :=
  {| filename := "a.jpg"; filepath := "/photos/a.jpg";
     photo_time := Some (T0 + seconds 500)%Z; has_gps := true;
     photo_lat := Some 1%Q; photo_lon := Some 2%Q |}.

Definition photo_without_time : photo_metadata :=
  {| filename := "b.jpg"; filepath := "/photos/b.jpg";
     photo_time := None; has_gps := false;
     photo_lat := None; photo_lon := None |}.

Definition photo_on_track : photo_metadata :=
  {| filename := "c.jpg"; filepath := "/photos/c.jpg";
     photo_time := Some (T0 + seconds 500)%Z; has_gps := false;
     photo_lat := None; photo_lon := None |}.

Definition photo_off_track : photo_metadata :=
  {| filename := "d.jpg"; filepath := "/photos/d.jpg";
     photo_time := Some (T0 + seconds 5000)%Z; has_gps := false;
     photo_lat := None; photo_lon := None |}.

(** ** The decision chain *)

(** What the decision chain promises about one photo and its result. *)
Definition classified (trackpoints : list trackpoint) (max_gap : Q)
    (photo : photo_metadata) (r : scanned_photo) : Prop :=
  metadata r = photo
  /\ (has_gps photo = true ->
      status r = "has_gps"%string /\
      forall engine, match_photo_with engine photo = Return r)
  /\ (has_gps photo = false -> photo_time photo = None ->
      status r = "no_time"%string)
  /\ (forall t, has_gps photo = false -> photo_time photo = Some t ->
      (forall found,
         interpolate_gps trackpoints t max_gap = Return (Some found) ->
         status r = "matched"%string /\
         matched_lat r = Some (gps_lat found) /\
         matched_lon r = Some (gps_lon found) /\
         matched_ele r = Some (gps_ele found)) /\
      (interpolate_gps trackpoints t max_gap = Return None ->
       status r = "no_match"%string))
  /\ (status r = "matched"%string <->
      is_Some (matched_lat r) /\ is_Some (matched_lon r)
      /\ is_Some (matched_ele r))
  /\ (status r <> "matched"%string <->
      matched_lat r = None /\ matched_lon r = None /\ matched_ele r = None).

(** ** Where a result lies *)

(** [x] lies between [a] and [b], whichever is larger. *)
Definition between (a x b : Q) : Prop :=
  (a <= x <= b)%Q \/ (b <= x <= a)%Q.

(** Each coordinate of [found] lies between those of [p] and [r]. *)
Definition within_box (p r : trackpoint) (found : gps) : Prop :=
  between (lat p) (gps_lat found) (lat r)
  /\ between (lon p) (gps_lon found) (lon r)
  /\ between (ele p) (gps_ele found) (ele r).

(** ** Paths and names *)

Fixpoint ends_with_slash (path : string) : bool :=
  match path with
  | EmptyString => false
  | String c EmptyString => Ascii.eqb c "/"%char
  | String _ rest => ends_with_slash rest
  end.

(** [os.path.join(a, b)] *)
Definition join (a b : string) : string :=
  match b with
  | String "/"%char _ => b
  | _ =>
    match a with
    | EmptyString => b
    | _ => if ends_with_slash a then a ++ b else a ++ "/" ++ b
    end
  end%string.

(** [c.lower()] for one ASCII character; other bytes are left alone. *)
Definition lower_char (c : ascii) : ascii :=
  let n := nat_of_ascii c in
  if (65 <=? n) && (n <=? 90) then ascii_of_nat (n + 32) else c.

(** [s.lower()] *)
Fixpoint lower (s : string) : string :=
  match s with
  | EmptyString => EmptyString
  | String c rest => String (lower_char c) (lower rest)
  end.

Fixpoint rfind_from (c : ascii) (s : string) (i last : Z) : Z :=
  match s with
  | EmptyString => last
  | String d rest =>
    rfind_from c rest (i + 1) (if Ascii.eqb d c then i else last)
  end.

(** [s.rfind(c)]: the last index of [c], or -1. *)
Definition rfind (c : ascii) (s : string) : Z := rfind_from c s 0 (-1).

(** [s[i:]] *)
Fixpoint slice_from (i : nat) (s : string) : string :=
  match i, s with
  | O, _ => s
  | S i', String _ rest => slice_from i' rest
  | S _, EmptyString => EmptyString
  end.

(** [s[:i]] *)
Fixpoint slice_to (i : nat) (s : string) : string :=
  match i, s with
  | O, _ => EmptyString
  | S i', String c rest => String c (slice_to i' rest)
  | S _, EmptyString => EmptyString
  end.

(** The loop of [genericpath._splitext]: leading dots of the file name do
    not start an extension.
<<
    while filenameIndex < dotIndex:
        if p[filenameIndex:filenameIndex+1] != extsep:
            return p[:dotIndex], p[dotIndex:]
        filenameIndex += 1
>> *)
Fixpoint splitext_loop (p : string) (fuel : nat) (filenameIndex dotIndex : Z)
    : string * string :=
  match fuel with
  | O => (p, EmptyString)
  | S fuel' =>
    if (filenameIndex <? dotIndex)%Z then
      if negb (String.eqb
                 (slice_to 1 (slice_from (Z.to_nat filenameIndex) p)) ".")
      then (slice_to (Z.to_nat dotIndex) p, slice_from (Z.to_nat dotIndex) p)
      else splitext_loop p fuel' (filenameIndex + 1) dotIndex
    else (p, EmptyString)
  end.

(** [os.path.splitext(p)] *)
Definition splitext (p : string) : string * string :=
  let sepIndex := rfind "/" p in
  let dotIndex := rfind "." p in
  if (sepIndex <? dotIndex)%Z then
    splitext_loop p (String.length p) (sepIndex + 1) dotIndex
  else (p, EmptyString).

(** ** [find_image_files] *)

Definition IMAGE_EXTENSIONS : gset string :=
  {[ ".jpg"; ".jpeg"; ".heic"; ".heif"; ".png";
     ".tiff"; ".tif"; ".dng"; ".arw"; ".cr2"; ".nef" ]}%string.

(** The names the loop passes over. *)
Definition SKIPPED_NAMES : list string :=
  ["gpx"; "no_gps"; ".venv"; "__pycache__";
   "static"; "templates"; "node_modules"]%string.

(** The directory as [find_image_files] sees it: what [os.listdir] gives,
    in the order the file system gives it, and [os.path.isfile]. *)
Record photo_directory : Type := PhotoDirectory {
  listdir : list string;
  isfile : string -> bool;
}.

Definition find_image_files (photo_dir : string) (fs : photo_directory)
    : list string :=
  fold_left (fun image_files entry =>
    if bool_decide (lower entry ∈ SKIPPED_NAMES) then image_files
    else
      let filepath := join photo_dir entry in
      if negb (isfile fs filepath) then image_files
      else
        let ext := lower (splitext entry).2 in
        if bool_decide (ext ∈ IMAGE_EXTENSIONS)
        then image_files ++ [filepath]
        else image_files)
  (sorted (listdir fs)) [].

(** The test on the extension alone. *)
Definition has_image_extension (entry : string) : bool :=
  bool_decide (lower (splitext entry).2 ∈ IMAGE_EXTENSIONS).

Definition sample_photo_directory : photo_directory :=
  {| listdir := ["notes.txt"; "b.HEIC"; "gpx"; ".jpg"; "a.jpg"; "album.png"]%string;
     isfile := fun path => negb (String.eqb path "/photos/album.png"
                                 || String.eqb path "/photos/gpx") |}.

(** ** Running exiftool

    A function that runs exiftool gives its result together with the command
    lines it has issued, oldest first. *)

Definition io (A : Type) : Type := outcome A * list (list string).

#[global] Instance io_ret : MRet io := fun A a => (Return a, []).

#[global] Instance io_bind : MBind io := fun A B f m =>
  match m.1 with
  | Return a => ((f a).1, m.2 ++ (f a).2)
  | Raise e => (Raise e, m.2)
  end.

(** A computation that runs nothing. *)
Definition pure_step {A} (m : outcome A) : io A := (m, []).

(** [for x in l: state = body(state, x)] *)
Fixpoint for_each {A S} (body : S -> A -> io S) (l : list A) (state : S)
    : io S :=
  match l with
  | [] => mret state
  | x :: rest => state ← body state x; for_each body rest state
  end.

(** [results = [f(x) for x in l]], the calls made one after the other. *)
Fixpoint for_all {A B} (f : A -> io B) (l : list A) : io (list B) :=
  match l with
  | [] => mret []
  | x :: rest => y ← f x; ys ← for_all f rest; mret (y :: ys)
  end.

(** [str(n)] for an integer *)
Definition str_of_int (n : Z) : string := NilZero.string_of_int (Z.to_int n).

(** [float(v)] for a JSON number; for a string it is the library's parser
    [float_of_str]. *)
Definition float_of (float_of_str : string -> outcome Q) (v : json)
    : outcome Q :=
  match v with
  | JNumber n => Return n
  | JString s => float_of_str s
  end.

(** A JSON response: the body, or an error status with its message. *)
Inductive response (A : Type) : Type :=
  | Ok (body : A)
  | Error (status_code : Z) (message : string).
Arguments Ok {A} body.
Arguments Error {A} status_code message.

(** The requests of the web service. *)
Module web.
Record ManualGeotagRequest : Type := {
  filename : string;
  lat : Q;
  lon : Q;
  ele : Q;
}.
End web.

(** ** The metadata gateway

    Taken as they are, for every behaviour they may have:
    - [exiftool args]: the exit status and the standard output of the
      process, or the exception raised when it cannot be started;
    - [json_loads], [json.loads] on that output;
    - [float_of_str], [float] on a string;
    - [format_float x], the text of [x] in an f-string;
    - [strptime], [int_of], [local_offset], as for the normalizer. *)

Section Exiftool.
Variable exiftool : list string -> outcome (Z * string).
Variable json_loads : string -> outcome (list (gmap string json)).
Variable float_of_str : string -> outcome Q.
Variable format_float : Q -> string.
Variable strptime : string -> string -> outcome datetime.
Variable int_of : string -> outcome Z.
Variable local_offset : Z -> timedelta.

(** Start the process and wait for it. *)
Definition run (args : list string) : io (Z * string) := (exiftool args, [args]).

(** *** [write_gps_with_exiftool] and [async_write_gps] *)

(** The list [args] of [write_gps_with_exiftool]. *)
Definition write_gps_args (filepath : string) (lat lon ele : Q)
    : list string :=
  let lat_ref := if Qle_bool 0 lat then "N" else "S" in
  let lon_ref := if Qle_bool 0 lon then "E" else "W" in
  let ele_ref := if Qle_bool 0 ele then 0%Z else 1%Z in
  [ "exiftool";
    "-overwrite_original";
    "-GPSLatitude=" ++ format_float (Qabs lat);
    "-GPSLatitudeRef=" ++ lat_ref;
    "-GPSLongitude=" ++ format_float (Qabs lon);
    "-GPSLongitudeRef=" ++ lon_ref;
    "-GPSAltitude=" ++ format_float (Qabs ele);
    "-GPSAltitudeRef=" ++ str_of_int ele_ref;
    filepath ]%string.

(** [subprocess.run(args, check=True)] raises [CalledProcessError], caught
    here, when the exit status is not 0. *)
Definition write_gps_with_exiftool (filepath : string) (lat lon ele : Q)
    : io bool :=
  completed ← run (write_gps_args filepath lat lon ele);
  mret (completed.1 =? 0)%Z.

(** The command line of [async_write_gps]; its [ele_ref] is a string. *)
Definition async_write_gps_args (filepath : string) (lat lon ele : Q)
    : list string :=
  let lat_ref := if Qle_bool 0 lat then "N" else "S" in
  let lon_ref := if Qle_bool 0 lon then "E" else "W" in
  let ele_ref := if Qle_bool 0 ele then "0" else "1" in
  [ "exiftool";
    "-overwrite_original";
    "-GPSLatitude=" ++ format_float (Qabs lat);
    "-GPSLatitudeRef=" ++ lat_ref;
    "-GPSLongitude=" ++ format_float (Qabs lon);
    "-GPSLongitudeRef=" ++ lon_ref;
    "-GPSAltitude=" ++ format_float (Qabs ele);
    "-GPSAltitudeRef=" ++ ele_ref;
    filepath ]%string.

Definition async_write_gps (filepath : string) (lat lon ele : Q) : io bool :=
  proc ← run (async_write_gps_args filepath lat lon ele);
  mret (proc.1 =? 0)%Z.

(** *** [get_photo_metadata] and [async_get_photo_metadata] *)

Definition metadata_args (filepath : string) : list string :=
  [ "exiftool"; "-j"; "-n";
    "-DateTimeOriginal"; "-CreateDate";
    "-OffsetTimeOriginal"; "-OffsetTime";
    "-GPSLatitude"; "-GPSLongitude";
    filepath ]%string.

(** [result_dict] as it is created. *)
Definition empty_metadata (filepath : string) : photo_metadata :=
  {| filename := basename filepath; filepath := filepath;
     photo_time := None; has_gps := false;
     photo_lat := None; photo_lon := None |}.

(** [result_dict[key] = value] *)
Definition set_has_gps (r : photo_metadata) (v : bool) : photo_metadata :=
  {| filename := filename r; filepath := filepath r;
     photo_time := photo_time r; has_gps := v;
     photo_lat := photo_lat r; photo_lon := photo_lon r |}.

Definition set_lat (r : photo_metadata) (v : Q) : photo_metadata :=
  {| filename := filename r; filepath := filepath r;
     photo_time := photo_time r; has_gps := has_gps r;
     photo_lat := Some v; photo_lon := photo_lon r |}.

Definition set_lon (r : photo_metadata) (v : Q) : photo_metadata :=
  {| filename := filename r; filepath := filepath r;
     photo_time := photo_time r; has_gps := has_gps r;
     photo_lat := photo_lat r; photo_lon := Some v |}.

Definition set_time (r : photo_metadata) (v : instant) : photo_metadata :=
  {| filename := filename r; filepath := filepath r;
     photo_time := Some v; has_gps := has_gps r;
     photo_lat := photo_lat r; photo_lon := photo_lon r |}.

(** The last step of the [try] body: the capture time.  An exception
    leaves the dict as it is. *)
Definition fill_time (result_dict : photo_metadata) (info : gmap string json)
    : photo_metadata :=
  match _parse_exiftool_datetime strptime int_of local_offset info with
  | Return (Some photo_time) => set_time result_dict photo_time
  | Return None => result_dict
  | Raise _ => result_dict
  end.

(** The [try] body from [info = data[0]] on.  The dict is updated key by
    key, and an exception returns it as it stands. *)
Definition fill_metadata (result_dict : photo_metadata)
    (info : gmap string json) : photo_metadata :=
  let gps_lat := info !! "GPSLatitude"%string in
  let gps_lon := info !! "GPSLongitude"%string in
  match gps_lat, gps_lon with
  | Some gps_lat, Some gps_lon =>
    let result_dict := set_has_gps result_dict true in
    match float_of float_of_str gps_lat with
    | Raise _ => result_dict
    | Return lat =>
      let result_dict := set_lat result_dict lat in
      match float_of float_of_str gps_lon with
      | Raise _ => result_dict
      | Return lon => fill_time (set_lon result_dict lon) info
      end
    end
  | _, _ => fill_time (set_has_gps result_dict false) info
  end.

(** [subprocess.run(..., check=True)] raises when the process cannot be
    started or exits with a status other than 0; every exception returns
    [result_dict]. *)
Definition get_photo_metadata (filepath : string) : io photo_metadata :=
  let result_dict := empty_metadata filepath in
  (Return
     match exiftool (metadata_args filepath) with
     | Raise _ => result_dict
     | Return (returncode, stdout) =>
       if negb (returncode =? 0)%Z then result_dict
       else match json_loads stdout with
            | Raise _ => result_dict
            | Return [] => result_dict
            | Return (info :: _) => fill_metadata result_dict info
            end
     end,
   [metadata_args filepath]).

(** The same, with [proc.returncode != 0] tested by hand; [json_loads]
    stands here for decoding and [json.loads]. *)
Definition async_get_photo_metadata (filepath : string) : io photo_metadata :=
  let result_dict := empty_metadata filepath in
  (Return
     match exiftool (metadata_args filepath) with
     | Raise _ => result_dict
     | Return (returncode, stdout) =>
       if negb (returncode =? 0)%Z then result_dict
       else match json_loads stdout with
            | Raise _ => result_dict
            | Return [] => result_dict
            | Return (info :: _) => fill_metadata result_dict info
            end
     end,
   [metadata_args filepath]).

(** The record the gateway returns for [filepath]. *)
Definition metadata_of (filepath : string) : photo_metadata :=
  match (get_photo_metadata filepath).1 with
  | Return r => r
  | Raise _ => empty_metadata filepath
  end.

(** The position [filepath] is to be given, if any: it has none yet, it has
    a capture time, and a position is found on the track. *)
Definition to_write (trackpoints : list trackpoint) (max_gap : Z)
    (filepath : string) : option gps :=
  if has_gps (metadata_of filepath) then None
  else match photo_time (metadata_of filepath) with
       | None => None
       | Some t =>
         match interpolate_gps trackpoints t (inject_Z max_gap) with
         | Return found => found
         | Raise _ => None
         end
       end.

(** *** The command line tool: [main], step 4 and the move *)

(** The dict [stats]. *)
Record stats : Type := Stats {
  total : nat;
  already_gps : nat;
  tagged : nat;
  no_datetime : nat;
  no_match : nat;
  errors : nat;
}.

(** [stats] and [no_gps_files], the two variables the loop updates. *)
Record tagging : Type := Tagging {
  counts : stats;
  no_gps_files : list (string * string);
}.

Definition count_already_gps (t : tagging) : tagging :=
  {| counts :=
       {| total := total (counts t);
          already_gps := S (already_gps (counts t));
          tagged := tagged (counts t);
          no_datetime := no_datetime (counts t);
          no_match := no_match (counts t);
          errors := errors (counts t) |};
     no_gps_files := no_gps_files t |}.

Definition count_tagged (t : tagging) : tagging :=
  {| counts :=
       {| total := total (counts t);
          already_gps := already_gps (counts t);
          tagged := S (tagged (counts t));
          no_datetime := no_datetime (counts t);
          no_match := no_match (counts t);
          errors := errors (counts t) |};
     no_gps_files := no_gps_files t |}.

Definition count_errors (t : tagging) : tagging :=
  {| counts :=
       {| total := total (counts t);
          already_gps := already_gps (counts t);
          tagged := tagged (counts t);
          no_datetime := no_datetime (counts t);
          no_match := no_match (counts t);
          errors := S (errors (counts t)) |};
     no_gps_files := no_gps_files t |}.

Definition count_no_datetime (t : tagging) (filepath : string) : tagging :=
  {| counts :=
       {| total := total (counts t);
          already_gps := already_gps (counts t);
          tagged := tagged (counts t);
          no_datetime := S (no_datetime (counts t));
          no_match := no_match (counts t);
          errors := errors (counts t) |};
     no_gps_files := no_gps_files t ++ [(filepath, "촬영 시각 없음"%string)] |}.

Definition count_no_match (t : tagging) (filepath : string) : tagging :=
  {| counts :=
       {| total := total (counts t);
          already_gps := already_gps (counts t);
          tagged := tagged (counts t);
          no_datetime := no_datetime (counts t);
          no_match := S (no_match (counts t));
          errors := errors (counts t) |};
     no_gps_files := no_gps_files t ++ [(filepath, "GPX 시간 범위 밖"%string)] |}.

(** The body of [for i, filepath in enumerate(image_files, 1)]. *)
Definition tag_one (trackpoints : list trackpoint) (max_gap : Z)
    (dry_run : bool) (t : tagging) (filepath : string) : io tagging :=
  meta ← get_photo_metadata filepath;
  if has_gps meta then mret (count_already_gps t)
  else match photo_time meta with
       | None => mret (count_no_datetime t filepath)
       | Some photo_time =>
         gps ← pure_step
                 (interpolate_gps trackpoints photo_time (inject_Z max_gap));
         match gps with
         | None => mret (count_no_match t filepath)
         | Some gps =>
           if dry_run then mret (count_tagged t)
           else
             success ← write_gps_with_exiftool filepath
                         (gps_lat gps) (gps_lon gps) (gps_ele gps);
             if success : bool then mret (count_tagged t)
             else mret (count_errors t)
         end
       end.

(** What [main] has done once the loop and the move are over: the tally,
    the photos left without position, and the [shutil.move] calls made. *)
Record report : Type := Report {
  final : tagging;
  moves : list (string * string);
}.

(** [main] from the creation of [stats] on. *)
Definition main_tag_photos (photo_dir : string) (image_files : list string)
    (trackpoints : list trackpoint) (max_gap : Z) (dry_run : bool)
    : io report :=
  let no_gps_dir := join photo_dir "no_gps" in
  let start :=
    {| counts := {| total := length image_files; already_gps := 0;
                    tagged := 0; no_datetime := 0; no_match := 0;
                    errors := 0 |};
       no_gps_files := [] |} in
  t ← for_each (tag_one trackpoints max_gap dry_run) image_files start;
  mret {| final := t;
          moves := if dry_run then []
                   else map (fun item : string * string =>
                               (item.1, join no_gps_dir (basename item.1)))
                            (no_gps_files t) |}.

(** The commands of the loop: reads of the images, and writes of the
    position that is planned for an image. *)
Definition loop_command (trackpoints : list trackpoint) (max_gap : Z)
    (dry_run : bool) (image_files : list string) (cmd : list string)
    : Prop :=
  exists fp,
    fp ∈ image_files
    /\ (cmd = metadata_args fp
        \/ (dry_run = false /\ has_gps (metadata_of fp) = false /\
            exists t found,
              photo_time (metadata_of fp) = Some t
              /\ interpolate_gps trackpoints t (inject_Z max_gap)
                 = Return (Some found)
              /\ cmd = write_gps_args fp (gps_lat found)
                         (gps_lon found) (gps_ele found))).

(** *** The web service: [api_auto_geotag] and [api_manual_geotag] *)

(** The dicts [process_one] returns, one constructor for each. *)
Inductive auto_result : Type :=
  | FileMissing (filename : string)
  | AlreadyTagged (filename : string) (lat lon : option Q)
  | NoTime (filename : string)
  | NoMatch (filename : string)
  | Written (filename : string) (ok : bool) (lat lon ele : Q).

(** Their ["filename"], ["success"] and ["reason"]. *)
Definition result_filename (r : auto_result) : string :=
  match r with
  | FileMissing f | AlreadyTagged f _ _ | NoTime f | NoMatch f
  | Written f _ _ _ _ => f
  end.

Definition success (r : auto_result) : bool :=
  match r with
  | Written _ ok _ _ _ => ok
  | _ => false
  end.

Definition reason (r : auto_result) : string :=
  match r with
  | FileMissing _ => "파일 없음"
  | AlreadyTagged _ _ _ => "GPS 이미 존재"
  | NoTime _ => "촬영 시각 없음"
  | NoMatch _ => "GPX 매칭 실패"
  | Written _ true _ _ _ => "GPS 기록 완료"
  | Written _ false _ _ _ => "GPS 기록 실패"
  end.

(** [process_one] of [api_auto_geotag]. *)
Definition process_one (PHOTO_DIR : string) (isfile : string -> bool)
    (trackpoints : list trackpoint) (max_gap : Z) (filename : string)
    : io auto_result :=
  let filepath := join PHOTO_DIR filename in
  if negb (isfile filepath) then mret (FileMissing filename)
  else
    meta ← async_get_photo_metadata filepath;
    if has_gps meta
    then mret (AlreadyTagged filename (photo_lat meta) (photo_lon meta))
    else match photo_time meta with
         | None => mret (NoTime filename)
         | Some photo_time =>
           gps ← pure_step
                   (interpolate_gps trackpoints photo_time (inject_Z max_gap));
           match gps with
           | None => mret (NoMatch filename)
           | Some gps =>
             ok ← async_write_gps filepath
                    (gps_lat gps) (gps_lon gps) (gps_ele gps);
             mret (Written filename ok (gps_lat gps) (gps_lon gps)
                           (gps_ele gps))
           end
         end.

(** [api_auto_geotag]; [gpx_dir] is [None] when [GPX_DIR] is no directory.
    The tasks of [asyncio.gather] are run here one after the other. *)
Definition api_auto_geotag (PHOTO_DIR : string) (isfile : string -> bool)
    (gpx_dir : option gpx_directory) (filenames : list string) (max_gap : Z)
    : io (response (list auto_result)) :=
  match gpx_dir with
  | None => mret (Error 400 "GPX 폴더가 없습니다")
  | Some gpx_dir =>
    let trackpoints := parse_gpx_files gpx_dir in
    match trackpoints with
    | [] => mret (Error 400 "유효한 트랙포인트가 없습니다")
    | _ :: _ =>
      results ← for_all (process_one PHOTO_DIR isfile trackpoints max_gap)
                        filenames;
      mret (Ok results)
    end
  end.

(** [api_manual_geotag]: the body of the success response is the filename
    and the two coordinates. *)
Definition api_manual_geotag (PHOTO_DIR : string) (isfile : string -> bool)
    (filename : string) (lat lon ele : Q) : io (response (string * Q * Q)) :=
  let filepath := join PHOTO_DIR filename in
  if negb (isfile filepath) then mret (Error 404 "파일 없음")
  else
    ok ← async_write_gps filepath lat lon ele;
    if ok : bool then mret (Ok (filename, lat, lon))
    else mret (Error 500 "GPS 기록 실패").

(** [api_batch_manual_geotag]: the dicts its [process_one] returns, *)
Inductive manual_result : Type :=
  | ItemMissing (filename : string)
  | ItemWritten (filename : string) (ok : bool) (lat lon : Q).

Definition manual_filename (r : manual_result) : string :=
  match r with
  | ItemMissing f | ItemWritten f _ _ _ => f
  end.

Definition manual_success (r : manual_result) : bool :=
  match r with
  | ItemMissing _ => false
  | ItemWritten _ ok _ _ => ok
  end.

(** the [process_one] of [api_batch_manual_geotag], *)
Definition batch_process_one (PHOTO_DIR : string) (isfile : string -> bool)
    (item : web.ManualGeotagRequest) : io manual_result :=
  let filepath := join PHOTO_DIR (web.filename item) in
  if negb (isfile filepath) then mret (ItemMissing (web.filename item))
  else
    ok ← async_write_gps filepath (web.lat item) (web.lon item)
           (web.ele item);
    mret (ItemWritten (web.filename item) ok (web.lat item) (web.lon item)).

(** and the list of its results.  The tasks of [asyncio.gather] are run
    here one after the other. *)
Definition api_batch_manual_geotag (PHOTO_DIR : string)
    (isfile : string -> bool) (items : list web.ManualGeotagRequest)
    : io (list manual_result) :=
  for_all (batch_process_one PHOTO_DIR isfile) items.

(** The images [main] sets aside: no position yet, and none to write. *)
Definition set_aside (trackpoints : list trackpoint) (max_gap : Z)
    (filepath : string) : bool :=
  negb (has_gps (metadata_of filepath))
  && match to_write trackpoints max_gap filepath with
     | None => true
     | Some _ => false
     end.

End Exiftool.

(** The photos a tally accounts for. *)
Definition handled (c : stats) : nat :=
  already_gps c + tagged c + no_datetime c + no_match c + errors c.

(** What a dry run and a real run of the loop share. *)
Definition foretold (dry real : tagging) : Prop :=
  total (counts dry) = total (counts real)
  /\ already_gps (counts dry) = already_gps (counts real)
  /\ no_datetime (counts dry) = no_datetime (counts real)
  /\ no_match (counts dry) = no_match (counts real)
  /\ no_gps_files dry = no_gps_files real
  /\ tagged (counts dry) + errors (counts dry)
     = tagged (counts real) + errors (counts real).

(** ** A sample installation

    Stand-ins for the examples: an exiftool that succeeds and prints the
    path it was given, and a JSON reader that knows three photos by that
    path: one with a position, one without any tag, one taken at the instant
    [sample_strptime] knows, nine hours east of Greenwich. *)

Definition sample_exiftool (args : list string) : outcome (Z * string) :=
  Return (0%Z, match last args with Some a => a | None => EmptyString end).

Definition sample_json_loads (stdout : string)
    : outcome (list (gmap string json)) :=
  if String.eqb stdout "/photos/a.jpg" then
    Return [ {[ "GPSLatitude"%string := JNumber 35.5;
                "GPSLongitude"%string := JNumber 139.5 ]} ]
  else if String.eqb stdout "/photos/b.jpg" then Return [ ∅ ]
  else if String.eqb stdout "/photos/c.jpg" then Return [ sample_info ]
  else Raise ValueError.

Definition sample_float_of_str (s : string) : outcome Q := Raise ValueError.

Definition sample_format_float (x : Q) : string :=
  (str_of_int (Qnum x) ++ "/" ++ str_of_int (Z.pos (Qden x)))%string.

(** The instant of photo c, and a track around it. *)
Definition T1 : instant := 1714964400000000.

Definition may_timeline : list trackpoint :=
  [ {| time := T1 - seconds 100; lat := 35; lon := 139; ele := 10 |};
    {| time := T1 + seconds 100; lat := 36; lon := 140; ele := 20 |} ].

Definition sample_images : list string :=
  ["/photos/a.jpg"; "/photos/b.jpg"; "/photos/c.jpg"]%string.

(** A batch of two manual requests, and a directory that holds the file of
    the first one only. *)
Definition sample_items : list web.ManualGeotagRequest :=
  [ {| web.filename := "c.jpg"; web.lat := 35; web.lon := 139;
       web.ele := 0 |};
    {| web.filename := "z.jpg"; web.lat := 1; web.lon := 2;
       web.ele := 3 |} ].

Definition only_c (path : string) : bool := String.eqb path "/photos/c.jpg".

(** ** Records of the gateway *)

(** What a record returned by the gateway promises: its names are those of
    the path; a longitude comes with a latitude, a latitude with [has_gps];
    and once the time is set, [has_gps] comes with both coordinates. *)
Definition coherent_metadata (fp : string) (r : photo_metadata) : Prop :=
  filename r = basename fp /\ filepath r = fp
  /\ (is_Some (photo_lon r) -> is_Some (photo_lat r))
  /\ (is_Some (photo_lat r) -> has_gps r = true)
  /\ (is_Some (photo_time r) -> has_gps r = true ->
      is_Some (photo_lat r) /\ is_Some (photo_lon r)).

(** ** Offsets *)

(** The offset tag the normalizer works with. *)
Definition offset_tag (info : gmap string json) : option json :=
  or_else (info !! "OffsetTimeOriginal"%string) (info !! "OffsetTime"%string).

(** [info] without its two offset tags. *)
Definition without_offset (info : gmap string json) : gmap string json :=
  delete "OffsetTimeOriginal"%string (delete "OffsetTime"%string info).

(** The sample photo with an offset tag that is no offset. *)
Definition junk_offset_info : gmap string json :=
  {[ "DateTimeOriginal"%string := JString "2024:05:06 12:00:00";
     "OffsetTimeOriginal"%string := JString "junk" ]}.

(** Every character of [s] passes the test [ok]. *)
Fixpoint all_chars (ok : ascii -> bool) (s : string) : bool :=
  match s with
  | EmptyString => true
  | String c rest => ok c && all_chars ok rest
  end.

(** A field of an offset: no white space and no colon in it. *)
Definition plain_field (s : string) : bool :=
  all_chars (fun c => negb (isspace c) && negb (Ascii.eqb c ":"%char)) s.

(** The sign the normalizer reads off the first character of an offset. *)
Definition sign_of (c : ascii) : Z :=
  if Ascii.eqb c "+"%char then 1%Z else (-1)%Z.

(** * Properties *)

(** ** Indexing *)

Lemma getitem_nat {A} (l : list A) (i : nat) :
  getitem l (Z.of_nat i) =
  match l !! i with Some v => Return v | None => Raise IndexError end.
Proof.
  unfold getitem. cbv zeta.
  assert ((Z.of_nat i <? 0)%Z = false) as Hge by (apply Z.ltb_ge; lia).
  rewrite Hge; cbv iota; rewrite Hge.
  by rewrite Nat2Z.id.
Qed.

Lemma getitem_lookup {A} (l : list A) (i : nat) (v : A) :
  l !! i = Some v -> getitem l (Z.of_nat i) = Return v.
Proof. intros Hv. by rewrite getitem_nat, Hv. Qed.

Lemma getitem_pred {A} (l : list A) (i : nat) (v : A) :
  l !! i = Some v -> getitem l (Z.of_nat (S i) - 1)%Z = Return v.
Proof.
  intros Hv. replace (Z.of_nat (S i) - 1)%Z with (Z.of_nat i) by lia.
  by apply getitem_lookup.
Qed.

Lemma getitem_last {A} (l : list A) (v : A) :
  last l = Some v -> getitem l (-1)%Z = Return v.
Proof.
  intros Hv. unfold getitem. cbv zeta. simpl.
  assert (0 < length l) as Hlen by (destruct l; [done | simpl; lia]).
  assert ((-1 + Z.of_nat (length l) <? 0)%Z = false) as -> by (apply Z.ltb_ge; lia).
  replace (Z.to_nat (-1 + Z.of_nat (length l))) with (pred (length l)) by lia.
  by rewrite <- last_lookup, Hv.
Qed.

(** ** Binary search *)

Lemma midpoint_bounds (lo hi : nat) :
  lo < hi -> lo <= (lo + hi) / 2 < hi.
Proof.
  intros Hlt. pose proof (Nat.div_mod_eq (lo + hi) 2).
  pose proof (Nat.mod_upper_bound (lo + hi) 2). lia.
Qed.

(** The loop returns, whatever the list holds, and the two comparisons that
    fixed the final [lo] and [hi] are known: the element just left of the
    result is below [x] (unless [lo] never moved) and the element at the
    result is not below [x] (unless [hi] never moved). *)
Lemma bisect_loop_spec (a : list instant) (x : instant) (lo hi : nat) :
  lo <= hi <= length a ->
  exists idx,
    bisect_loop a x lo hi = Return idx /\
    lo <= idx <= hi /\
    (idx = lo \/ exists v, a !! (idx - 1) = Some v /\ (v < x)%Z) /\
    (idx = hi \/ exists v, a !! idx = Some v /\ (x <= v)%Z).
Proof.
  funelim (bisect_loop a x lo hi); intros Hrange.
  all: try match goal with Hlt : ?l < ?h |- _ =>
         pose proof (midpoint_bounds l h Hlt) as Hmid end.
  all: try match goal with Hget : getitem ?l (Z.of_nat ?m) = _ |- _ =>
         rewrite getitem_nat in Hget;
         assert (is_Some (l !! m)) as [w Hw] by (apply lookup_lt_is_Some_2; lia);
         rewrite Hw in Hget;
         first [discriminate Hget | injection Hget as ->] end.
  - exists lo. split; [done|]. split; [lia|]. split; [by left|]. left. lia.
  - match goal with IH : _ -> exists _, _ |- _ =>
      destruct IH as (idx & Hret & Hidx & Hleft & Hright); [lia|] end.
    exists idx. split; [done|]. split; [lia|]. split; [|done].
    destruct Hleft as [->|Hleft]; [|by right].
    right. exists v. split; [|done].
    by replace ((lo + hi) / 2 + 1 - 1) with ((lo + hi) / 2) by lia.
  - match goal with IH : _ -> exists _, _ |- _ =>
      destruct IH as (idx & Hret & Hidx & Hleft & Hright); [lia|] end.
    exists idx. split; [done|]. split; [lia|]. split; [done|].
    destruct Hright as [->|Hright]; [|by right].
    right. exists v. split; [done|lia].
Qed.

Lemma bisect_left_returns (a : list instant) (x : instant) :
  exists idx,
    bisect_left a x = Return idx /\
    idx <= length a /\
    (idx = 0 \/ exists v, a !! (idx - 1) = Some v /\ (v < x)%Z) /\
    (idx = length a \/ exists v, a !! idx = Some v /\ (x <= v)%Z).
Proof.
  destruct (bisect_loop_spec a x 0 (length a)) as (idx & ? & ? & ? & ?); [lia|].
  exists idx. unfold bisect_left. repeat split; [done | lia | done | done].
Qed.

(** ** Sorted lists *)

Lemma nondecreasing_cons (t : instant) (ts : list instant) :
  nondecreasing (t :: ts) = true ->
  nondecreasing ts = true /\ forall i v, ts !! i = Some v -> (t <= v)%Z.
Proof.
  revert t. induction ts as [|u ts IH]; intros t Hs.
  - split; [done|]. intros i v Hv. by rewrite lookup_nil in Hv.
  - cbn [nondecreasing] in Hs. apply andb_true_iff in Hs as [Htu Hrest].
    apply Z.leb_le in Htu. split; [done|].
    intros [|i] v Hv; simpl in Hv.
    + injection Hv as <-. done.
    + destruct (IH u Hrest) as [_ Hall]. specialize (Hall i v Hv). lia.
Qed.

Lemma nondecreasing_lookup (ts : list instant) (i j : nat) (a b : instant) :
  nondecreasing ts = true -> i <= j ->
  ts !! i = Some a -> ts !! j = Some b -> (a <= b)%Z.
Proof.
  revert i j. induction ts as [|t ts IH]; intros i j Hs Hij Ha Hb.
  - by rewrite lookup_nil in Ha.
  - destruct (nondecreasing_cons t ts Hs) as [Hs' Hall].
    destruct i as [|i], j as [|j]; simpl in Ha, Hb.
    + injection Ha as <-. injection Hb as <-. lia.
    + injection Ha as <-. by eapply Hall.
    + lia.
    + eapply (IH i j); [done | lia | done | done].
Qed.

(** On a sorted list the result is the leftmost insertion point: everything
    left of it is below [x], everything from it on is not. *)
Lemma bisect_left_sorted (a : list instant) (x : instant) :
  nondecreasing a = true ->
  exists idx,
    bisect_left a x = Return idx /\
    idx <= length a /\
    (forall i v, i < idx -> a !! i = Some v -> (v < x)%Z) /\
    (forall i v, idx <= i -> a !! i = Some v -> (x <= v)%Z).
Proof.
  intros Hs.
  destruct (bisect_left_returns a x) as (idx & Hret & Hlen & Hleft & Hright).
  exists idx. split; [done|]. split; [done|]. split.
  - intros i v Hi Hv. destruct Hleft as [->|(w & Hw & Hwx)]; [lia|].
    pose proof (nondecreasing_lookup a i (idx - 1) v w Hs) as Hle.
    specialize (Hle ltac:(lia) Hv Hw). lia.
  - intros i v Hi Hv. destruct Hright as [->|(w & Hw & Hwx)].
    + apply lookup_lt_Some in Hv. lia.
    + pose proof (nondecreasing_lookup a idx i w v Hs Hi Hw Hv). lia.
Qed.

(** The insertion point is determined by the two properties. *)
Lemma bisect_left_unique (a : list instant) (x : instant) (k : nat) :
  nondecreasing a = true ->
  k <= length a ->
  (forall i v, i < k -> a !! i = Some v -> (v < x)%Z) ->
  (forall i v, k <= i -> a !! i = Some v -> (x <= v)%Z) ->
  bisect_left a x = Return k.
Proof.
  intros Hs Hk Hlt Hge.
  destruct (bisect_left_sorted a x Hs) as (idx & Hret & Hlen & Hlt' & Hge').
  rewrite Hret. f_equal.
  destruct (Nat.lt_trichotomy idx k) as [Hc|[Hc|Hc]]; [exfalso | done | exfalso].
  - assert (is_Some (a !! idx)) as [v Hv] by (apply lookup_lt_is_Some_2; lia).
    pose proof (Hlt idx v Hc Hv). pose proof (Hge' idx v ltac:(lia) Hv). lia.
  - assert (is_Some (a !! k)) as [v Hv] by (apply lookup_lt_is_Some_2; lia).
    pose proof (Hlt' k v Hc Hv). pose proof (Hge k v ltac:(lia) Hv). lia.
Qed.

(** ** [interpolate_gps], case by case *)

Lemma lookup_times (trackpoints : list trackpoint) (i : nat) :
  (time <$> trackpoints) !! i = time <$> (trackpoints !! i).
Proof. apply list_lookup_fmap. Qed.

Lemma sorted_timeline_lookup (trackpoints : list trackpoint) (i j : nat)
    (p r : trackpoint) :
  sorted_timeline trackpoints -> i <= j ->
  trackpoints !! i = Some p -> trackpoints !! j = Some r ->
  (time p <= time r)%Z.
Proof.
  intros Hs Hij Hp Hr.
  apply (nondecreasing_lookup (time <$> trackpoints) i j); [done | done | |].
  - by rewrite lookup_times, Hp.
  - by rewrite lookup_times, Hr.
Qed.

(** The exact-match branch: the insertion point holds the query instant. *)
Lemma interpolate_gps_exact (trackpoints : list trackpoint)
    (photo_time : instant) (max_gap_seconds : Q) (idx : nat) (p : trackpoint) :
  bisect_left (time <$> trackpoints) photo_time = Return idx ->
  trackpoints !! idx = Some p ->
  time p = photo_time ->
  interpolate_gps trackpoints photo_time max_gap_seconds
  = Return (Some (position p)).
Proof.
  intros Hidx Hp Ht. unfold interpolate_gps.
  destruct trackpoints as [|p0 rest]; [by rewrite lookup_nil in Hp|].
  cbv zeta. rewrite Hidx. cbn [mbind outcome_bind].
  assert ((idx <? length (p0 :: rest)) = true) as ->
    by (apply Nat.ltb_lt; by eapply lookup_lt_Some).
  rewrite (getitem_lookup _ _ _ Hp). cbn [mbind outcome_bind].
  by assert ((time p =? photo_time)%Z = true) as -> by (by apply Z.eqb_eq).
Qed.

(** The branch before the first point. *)
Lemma interpolate_gps_before_first (p0 : trackpoint) (rest : list trackpoint)
    (photo_time : instant) (max_gap_seconds : Q) :
  bisect_left (time <$> p0 :: rest) photo_time = Return 0 ->
  time p0 <> photo_time ->
  interpolate_gps (p0 :: rest) photo_time max_gap_seconds
  = if Qle_bool (total_seconds (time p0 - photo_time)) max_gap_seconds
    then Return (Some (position p0)) else Return None.
Proof.
  intros Hidx Hne. unfold interpolate_gps. cbv zeta. rewrite Hidx.
  cbn [mbind outcome_bind length Nat.ltb Nat.leb].
  rewrite (getitem_lookup (p0 :: rest) 0 p0 eq_refl). cbn [mbind outcome_bind].
  assert ((time p0 =? photo_time)%Z = false) as -> by (by apply Z.eqb_neq).
  cbn [Nat.eqb]. change 0%Z with (Z.of_nat 0).
  rewrite (getitem_lookup (p0 :: rest) 0 p0 eq_refl). cbn [mbind outcome_bind].
  by destruct (Qle_bool _ _).
Qed.

(** The branch after the last point. *)
Lemma interpolate_gps_after_last (trackpoints : list trackpoint)
    (pl : trackpoint) (photo_time : instant) (max_gap_seconds : Q) :
  bisect_left (time <$> trackpoints) photo_time
  = Return (length trackpoints) ->
  last trackpoints = Some pl ->
  interpolate_gps trackpoints photo_time max_gap_seconds
  = if Qle_bool (total_seconds (photo_time - time pl)) max_gap_seconds
    then Return (Some (position pl)) else Return None.
Proof.
  intros Hidx Hl. unfold interpolate_gps.
  destruct trackpoints as [|p0 rest]; [done|].
  cbv zeta. rewrite Hidx. cbn [mbind outcome_bind].
  rewrite Nat.ltb_irrefl.
  assert ((length (p0 :: rest) =? 0) = false) as -> by done.
  rewrite Nat.leb_refl.
  rewrite (getitem_last _ _ Hl). cbn [mbind outcome_bind].
  by destruct (Qle_bool _ _).
Qed.

(** The interior branch. *)
Lemma interpolate_gps_interior (trackpoints : list trackpoint)
    (photo_time : instant) (max_gap_seconds : Q) (i : nat)
    (before after : trackpoint) :
  bisect_left (time <$> trackpoints) photo_time = Return (S i) ->
  trackpoints !! i = Some before ->
  trackpoints !! S i = Some after ->
  time after <> photo_time ->
  interpolate_gps trackpoints photo_time max_gap_seconds
  = interpolate_between before after photo_time max_gap_seconds.
Proof.
  intros Hidx Hb Ha Hne. unfold interpolate_gps.
  destruct trackpoints as [|p0 rest]; [by rewrite lookup_nil in Hb|].
  cbv zeta. rewrite Hidx. cbn [mbind outcome_bind].
  pose proof (lookup_lt_Some _ _ _ Ha) as Hlen.
  assert ((S i <? length (p0 :: rest)) = true) as -> by (by apply Nat.ltb_lt).
  rewrite (getitem_lookup _ _ _ Ha). cbn [mbind outcome_bind].
  assert ((time after =? photo_time)%Z = false) as -> by (by apply Z.eqb_neq).
  assert ((S i =? 0) = false) as -> by done.
  assert ((length (p0 :: rest) <=? S i) = false) as -> by (apply Nat.leb_gt; lia).
  rewrite (getitem_pred _ _ _ Hb). done.
Qed.

(** The insertion point on a sorted timeline, from its two neighbours. *)
Lemma bisect_left_at (trackpoints : list trackpoint) (photo_time : instant)
    (k : nat) :
  sorted_timeline trackpoints ->
  k <= length trackpoints ->
  (forall i p, S i = k -> trackpoints !! i = Some p -> (time p < photo_time)%Z) ->
  (forall p, trackpoints !! k = Some p -> (photo_time <= time p)%Z) ->
  bisect_left (time <$> trackpoints) photo_time = Return k.
Proof.
  intros Hs Hk Hleft Hright.
  apply bisect_left_unique; [done | by rewrite length_fmap | |].
  - intros i v Hi Hv. rewrite lookup_times in Hv.
    destruct (trackpoints !! i) as [p|] eqn:Hp; [|done].
    injection Hv as <-.
    destruct k as [|k]; [lia|].
    assert (is_Some (trackpoints !! k)) as [r Hr]
      by (apply lookup_lt_is_Some_2; lia).
    pose proof (sorted_timeline_lookup _ i k p r Hs ltac:(lia) Hp Hr).
    pose proof (Hleft k r eq_refl Hr). lia.
  - intros i v Hi Hv. rewrite lookup_times in Hv.
    destruct (trackpoints !! i) as [p|] eqn:Hp; [|done].
    injection Hv as <-.
    assert (is_Some (trackpoints !! k)) as [r Hr].
    { apply lookup_lt_is_Some_2. apply lookup_lt_Some in Hp. lia. }
    pose proof (sorted_timeline_lookup _ k i r p Hs Hi Hr Hp).
    pose proof (Hright r Hr). lia.
Qed.

(** ** Seconds as rationals *)

Lemma total_seconds_pos (d : Z) : (0 < d)%Z -> (0 < total_seconds d)%Q.
Proof. intros Hd. unfold total_seconds, Qlt. simpl. lia. Qed.

Lemma total_seconds_le (d e : Z) :
  (d <= e)%Z -> (total_seconds d <= total_seconds e)%Q.
Proof. intros Hd. unfold total_seconds, Qle. simpl. lia. Qed.

Lemma Qgt_bool_false (a b : Q) : Qgt_bool a b = false <-> (a <= b)%Q.
Proof.
  unfold Qgt_bool. rewrite negb_false_iff. apply Qle_bool_iff.
Qed.

Lemma Qgt_bool_true (a b : Q) : Qgt_bool a b = true <-> (b < a)%Q.
Proof.
  unfold Qgt_bool. rewrite negb_true_iff. split.
  - intros Hf. apply Qnot_le_lt. intros Hle.
    apply Qle_bool_iff in Hle. congruence.
  - intros Hlt. destruct (Qle_bool a b) eqn:Hle; [|done].
    apply Qle_bool_iff in Hle. exfalso. by eapply Qlt_not_le.
Qed.

Lemma Qle_bool_false (a b : Q) : Qle_bool a b = false <-> (b < a)%Q.
Proof.
  rewrite <- Qgt_bool_true. unfold Qgt_bool. by rewrite negb_true_iff.
Qed.

Lemma Qeq_bool_pos (a : Q) : (0 < a)%Q -> Qeq_bool a 0 = false.
Proof.
  intros Ha. destruct (Qeq_bool a 0) eqn:He; [|done].
  apply Qeq_bool_eq in He. rewrite He in Ha. by apply Qlt_irrefl in Ha.
Qed.

(** The ratio of two durations does not depend on the unit. *)
Lemma ratio_of_seconds (d e : Z) :
  (0 < e)%Z ->
  (total_seconds d / total_seconds e == inject_Z d / inject_Z e)%Q.
Proof.
  intros He. unfold total_seconds.
  destruct e as [|e|e]; [lia | | lia].
  unfold Qeq, Qdiv, Qmult, Qinv, inject_Z. simpl. lia.
Qed.

Lemma ratio_bounds (d e : Z) :
  (0 <= d <= e)%Z -> (0 < e)%Z ->
  (0 <= total_seconds d / total_seconds e <= 1)%Q.
Proof.
  intros Hd He. pose proof (total_seconds_pos e He) as Hpos. split.
  - apply Qle_shift_div_l; [done|]. rewrite Qmult_0_l.
    unfold total_seconds, Qle. simpl. lia.
  - apply Qle_shift_div_r; [done|]. rewrite Qmult_1_l.
    apply total_seconds_le. lia.
Qed.

(** ** The interpolation engine: brackets *)

Lemma interpolate_gps_in_bracket (trackpoints : list trackpoint)
    (photo_time : instant) (max_gap_seconds : Q) (i : nat)
    (before after : trackpoint) :
  sorted_timeline trackpoints ->
  trackpoints !! i = Some before ->
  trackpoints !! S i = Some after ->
  (time before < photo_time < time after)%Z ->
  interpolate_gps trackpoints photo_time max_gap_seconds
  = interpolate_between before after photo_time max_gap_seconds.
Proof.
  intros Hs Hb Ha [Hlo Hhi].
  apply (interpolate_gps_interior _ _ _ i); [|done|done|lia].
  apply bisect_left_at; [done| | |].
  - apply lookup_lt_Some in Ha. lia.
  - intros j p [= ->] Hp. rewrite Hb in Hp. injection Hp as <-. done.
  - intros p Hp. rewrite Ha in Hp. injection Hp as <-. lia.
Qed.

(** C1. On a sorted timeline, a query strictly between two adjacent points
    whose timestamps are at most [max_gap_seconds] apart gets the position
    on the straight line between them: each of latitude, longitude and
    elevation is [before + (after - before) * ratio], where [ratio] is the
    elapsed time over the width of the bracket, and [ratio] lies in
    [[0,1]]. *)
Theorem interpolate_gps_linear (trackpoints : list trackpoint)
    (photo_time : instant) (max_gap_seconds : Q) (i : nat)
    (before after : trackpoint) :
  sorted_timeline trackpoints ->
  trackpoints !! i = Some before ->
  trackpoints !! S i = Some after ->
  (time before < photo_time < time after)%Z ->
  (total_seconds (time after - time before) <= max_gap_seconds)%Q ->
  let ratio :=
    (total_seconds (photo_time - time before)
     / total_seconds (time after - time before))%Q in
  interpolate_gps trackpoints photo_time max_gap_seconds
  = Return (Some
      {| gps_lat := lat before + (lat after - lat before) * ratio;
         gps_lon := lon before + (lon after - lon before) * ratio;
         gps_ele := ele before + (ele after - ele before) * ratio |})
  /\ (ratio == inject_Z (photo_time - time before)
               / inject_Z (time after - time before))%Q
  /\ (0 <= ratio <= 1)%Q.
Proof.
  intros Hs Hb Ha Hq Hgap ratio. split; [|split].
  - rewrite (interpolate_gps_in_bracket _ _ _ i before after) by done.
    unfold interpolate_between. cbv zeta.
    rewrite (proj2 (Qgt_bool_false _ _) Hgap).
    assert (0 < total_seconds (time after - time before))%Q as Hpos
      by (apply total_seconds_pos; lia).
    unfold truediv. rewrite !(Qeq_bool_pos _ Hpos). done.
  - apply ratio_of_seconds. lia.
  - apply ratio_bounds; lia.
Qed.

(** C2. On a sorted timeline, a query strictly inside a bracket of adjacent
    points whose timestamps are more than [max_gap_seconds] apart gets no
    position, wherever in the bracket it lies. *)
Theorem interpolate_gps_wide_bracket (trackpoints : list trackpoint)
    (photo_time : instant) (max_gap_seconds : Q) (i : nat)
    (before after : trackpoint) :
  sorted_timeline trackpoints ->
  trackpoints !! i = Some before ->
  trackpoints !! S i = Some after ->
  (time before < photo_time < time after)%Z ->
  (max_gap_seconds < total_seconds (time after - time before))%Q ->
  interpolate_gps trackpoints photo_time max_gap_seconds = Return None.
Proof.
  intros Hs Hb Ha Hq Hgap.
  rewrite (interpolate_gps_in_bracket _ _ _ i before after) by done.
  unfold interpolate_between. cbv zeta.
  by rewrite (proj2 (Qgt_bool_true _ _) Hgap).
Qed.

Lemma interpolate_gps_linear_witness :
  let ratio :=
    (total_seconds (T0 + seconds 500 - time sample_before)
     / total_seconds (time sample_after - time sample_before))%Q in
  interpolate_gps sample_timeline (T0 + seconds 500) 3600
  = Return (Some
      {| gps_lat := lat sample_before
                    + (lat sample_after - lat sample_before) * ratio;
         gps_lon := lon sample_before
                    + (lon sample_after - lon sample_before) * ratio;
         gps_ele := ele sample_before
                    + (ele sample_after - ele sample_before) * ratio |})
  /\ (ratio == inject_Z (T0 + seconds 500 - time sample_before)
               / inject_Z (time sample_after - time sample_before))%Q
  /\ (0 <= ratio <= 1)%Q.
Proof.
  apply (interpolate_gps_linear sample_timeline (T0 + seconds 500) 3600 0
           sample_before sample_after).
  - reflexivity.
  - reflexivity.
  - reflexivity.
  - vm_compute. split; reflexivity.
  - vm_compute. discriminate.
Defined.

Lemma interpolate_gps_wide_bracket_witness :
  interpolate_gps sparse_timeline (T0 + seconds 10) 3600 = Return None.
Proof.
  apply (interpolate_gps_wide_bracket sparse_timeline (T0 + seconds 10) 3600 0
           sample_before sample_far).
  - reflexivity.
  - reflexivity.
  - reflexivity.
  - vm_compute. split; reflexivity.
  - vm_compute. reflexivity.
Defined.

(** The scenario of the specification: halfway between the two points. *)
Example interpolate_gps_halfway :
  exists r,
    interpolate_gps sample_timeline (T0 + seconds 500) 3600 = Return (Some r)
    /\ (gps_lat r == 10.005 /\ gps_lon r == 20.01 /\ gps_ele r == 2.5)%Q.
Proof. eexists. split; [vm_compute; reflexivity|]. by vm_compute. Qed.

(** The scenario of the specification: 4000 seconds after the last point. *)
Example interpolate_gps_too_late :
  interpolate_gps sample_timeline (T0 + seconds 5000) 3600 = Return None.
Proof. reflexivity. Qed.

(** ** The interpolation engine: exact matches *)

(** Among the points that carry a given timestamp there is a first one. *)
Lemma first_with_time (trackpoints : list trackpoint) (photo_time : instant)
    (i : nat) (p : trackpoint) :
  trackpoints !! i = Some p -> time p = photo_time ->
  exists j first,
    j <= i /\ trackpoints !! j = Some first /\ time first = photo_time /\
    forall k pk, k < j -> trackpoints !! k = Some pk -> time pk <> photo_time.
Proof.
  revert i. induction trackpoints as [|p0 rest IH]; intros i Hp Ht.
  - by rewrite lookup_nil in Hp.
  - destruct (Z.eq_dec (time p0) photo_time) as [Heq|Hne].
    + exists 0, p0. split; [lia|]. split; [done|]. split; [done|]. intros; lia.
    + destruct i as [|i]; simpl in Hp.
      * injection Hp as ->. done.
      * destruct (IH i Hp Ht) as (j & first & Hj & Hfirst & Htime & Hmin).
        exists (S j), first. split; [lia|]. split; [done|]. split; [done|].
        intros [|k] pk Hk Hpk; simpl in Hpk.
        -- by injection Hpk as <-.
        -- apply (Hmin k); [lia | done].
Qed.

(** A query that hits the first point carrying its timestamp gets that
    point's position. *)
Lemma interpolate_gps_first_match (trackpoints : list trackpoint)
    (photo_time : instant) (max_gap_seconds : Q) (j : nat)
    (first : trackpoint) :
  sorted_timeline trackpoints ->
  trackpoints !! j = Some first ->
  time first = photo_time ->
  (forall k pk, k < j -> trackpoints !! k = Some pk -> time pk <> photo_time) ->
  interpolate_gps trackpoints photo_time max_gap_seconds
  = Return (Some (position first)).
Proof.
  intros Hs Hfirst Ht Hmin.
  apply (interpolate_gps_exact _ _ _ j); [|done|done].
  apply bisect_left_at; [done | | |].
  - apply lookup_lt_Some in Hfirst. lia.
  - intros k pk <- Hpk.
    pose proof (sorted_timeline_lookup _ k (S k) pk first Hs ltac:(lia) Hpk Hfirst).
    pose proof (Hmin k pk ltac:(lia) Hpk). lia.
  - intros p Hp. rewrite Hfirst in Hp. injection Hp as <-. lia.
Qed.

(** C3, as the code has it.  On a sorted timeline, a query equal to the
    timestamp of a point gets, unmodified, the position of the first point
    in timeline order that carries this timestamp; this is the given point's
    own position whenever no earlier point shares its timestamp. *)
Theorem interpolate_gps_exact_match (trackpoints : list trackpoint)
    (photo_time : instant) (max_gap_seconds : Q) (i : nat) (p : trackpoint) :
  sorted_timeline trackpoints ->
  trackpoints !! i = Some p ->
  time p = photo_time ->
  (exists j first,
     j <= i /\ trackpoints !! j = Some first /\ time first = photo_time /\
     (forall k pk,
        k < j -> trackpoints !! k = Some pk -> (time pk < photo_time)%Z) /\
     interpolate_gps trackpoints photo_time max_gap_seconds
     = Return (Some (position first)))
  /\ ((forall k pk, k < i -> trackpoints !! k = Some pk -> time pk <> time p) ->
      interpolate_gps trackpoints photo_time max_gap_seconds
      = Return (Some (position p))).
Proof.
  intros Hs Hp Ht. split.
  - destruct (first_with_time _ _ _ _ Hp Ht) as (j & first & Hj & Hf & Htf & Hmin).
    exists j, first. split; [done|]. split; [done|]. split; [done|]. split.
    + intros k pk Hk Hpk.
      pose proof (sorted_timeline_lookup _ k j pk first Hs ltac:(lia) Hpk Hf).
      pose proof (Hmin k pk Hk Hpk). lia.
    + by apply (interpolate_gps_first_match _ _ _ j).
  - intros Hmin. apply (interpolate_gps_first_match _ _ _ i); [done..|].
    intros k pk Hk Hpk. rewrite <- Ht. by apply (Hmin k).
Qed.

Lemma interpolate_gps_exact_match_witness :
  (exists j first,
     j <= 1 /\ sample_timeline !! j = Some first /\
     time first = (T0 + seconds 1000)%Z /\
     (forall k pk,
        k < j -> sample_timeline !! k = Some pk ->
        (time pk < T0 + seconds 1000)%Z) /\
     interpolate_gps sample_timeline (T0 + seconds 1000) 3600
     = Return (Some (position first)))
  /\ ((forall k pk,
         k < 1 -> sample_timeline !! k = Some pk ->
         time pk <> time sample_after) ->
      interpolate_gps sample_timeline (T0 + seconds 1000) 3600
      = Return (Some (position sample_after))).
Proof.
  apply (interpolate_gps_exact_match sample_timeline (T0 + seconds 1000) 3600 1
           sample_after).
  - reflexivity.
  - reflexivity.
  - reflexivity.
Defined.

(** C3, as the specification words it, fails when an earlier point shares
    the timestamp: the second of two twins is not the one returned. *)
Lemma interpolate_gps_exact_match_twin :
  ~ (forall (trackpoints : list trackpoint) (photo_time : instant)
            (max_gap_seconds : Q) (i : nat) (p : trackpoint),
       sorted_timeline trackpoints ->
       trackpoints !! i = Some p ->
       time p = photo_time ->
       interpolate_gps trackpoints photo_time max_gap_seconds
       = Return (Some (position p))).
Proof.
  intros Hclaim.
  specialize (Hclaim twin_timeline T0 3600%Q 1 sample_twin
                eq_refl eq_refl eq_refl).
  vm_compute in Hclaim. discriminate Hclaim.
Qed.

(** C10. On a sorted timeline where several points carry the query instant,
    the query gets the position of the first of them in timeline order, and
    of no later one that lies elsewhere. *)
Theorem interpolate_gps_leftmost_duplicate (trackpoints : list trackpoint)
    (photo_time : instant) (max_gap_seconds : Q) (j : nat)
    (first : trackpoint) :
  sorted_timeline trackpoints ->
  trackpoints !! j = Some first ->
  time first = photo_time ->
  (forall k pk, k < j -> trackpoints !! k = Some pk -> time pk <> photo_time) ->
  interpolate_gps trackpoints photo_time max_gap_seconds
  = Return (Some (position first))
  /\ forall j' later,
       j < j' -> trackpoints !! j' = Some later -> time later = photo_time ->
       position later <> position first ->
       interpolate_gps trackpoints photo_time max_gap_seconds
       <> Return (Some (position later)).
Proof.
  intros Hs Hfirst Ht Hmin.
  pose proof (interpolate_gps_first_match _ _ max_gap_seconds _ _
                Hs Hfirst Ht Hmin) as Hres.
  split; [done|].
  intros j' later _ _ _ Hpos. rewrite Hres. congruence.
Qed.

Lemma interpolate_gps_leftmost_duplicate_witness :
  interpolate_gps twin_timeline T0 3600 = Return (Some (position sample_before))
  /\ forall j' later,
       0 < j' -> twin_timeline !! j' = Some later -> time later = T0 ->
       position later <> position sample_before ->
       interpolate_gps twin_timeline T0 3600 <> Return (Some (position later)).
Proof.
  apply (interpolate_gps_leftmost_duplicate twin_timeline T0 3600 0
           sample_before).
  - reflexivity.
  - reflexivity.
  - reflexivity.
  - intros k pk Hk. lia.
Defined.

(** ** The interpolation engine: the two ends *)

(** C4. On a sorted timeline, a query strictly before the first point gets
    no position if and only if the first point is more than
    [max_gap_seconds] away, and otherwise exactly the first point's
    position; likewise, with the last point, for a query strictly after the
    last point. *)
Theorem interpolate_gps_boundary (trackpoints : list trackpoint)
    (photo_time : instant) (max_gap_seconds : Q) (first final : trackpoint) :
  sorted_timeline trackpoints ->
  head trackpoints = Some first ->
  last trackpoints = Some final ->
  ((photo_time < time first)%Z ->
   let gap := total_seconds (time first - photo_time) in
   (interpolate_gps trackpoints photo_time max_gap_seconds = Return None
    <-> (max_gap_seconds < gap)%Q) /\
   (~ (max_gap_seconds < gap)%Q ->
    interpolate_gps trackpoints photo_time max_gap_seconds
    = Return (Some (position first))))
  /\
  ((time final < photo_time)%Z ->
   let gap := total_seconds (photo_time - time final) in
   (interpolate_gps trackpoints photo_time max_gap_seconds = Return None
    <-> (max_gap_seconds < gap)%Q) /\
   (~ (max_gap_seconds < gap)%Q ->
    interpolate_gps trackpoints photo_time max_gap_seconds
    = Return (Some (position final)))).
Proof.
  intros Hs Hfirst Hfinal. split.
  - intros Hq gap.
    destruct trackpoints as [|p0 rest]; [done|]. injection Hfirst as ->.
    assert (interpolate_gps (first :: rest) photo_time max_gap_seconds
            = if Qle_bool gap max_gap_seconds
              then Return (Some (position first)) else Return None) as ->.
    { apply interpolate_gps_before_first; [|lia].
      apply (bisect_left_at (first :: rest)); [done | simpl; lia | lia |].
      intros p [= <-]. lia. }
    destruct (Qle_bool gap max_gap_seconds) eqn:Hle.
    + apply Qle_bool_iff in Hle. split; [|done].
      split; [done|]. intros Hlt. exfalso. by eapply Qlt_not_le.
    + apply Qle_bool_false in Hle. split; [done|]. intros Hn. by destruct Hn.
  - intros Hq gap.
    assert (interpolate_gps trackpoints photo_time max_gap_seconds
            = if Qle_bool gap max_gap_seconds
              then Return (Some (position final)) else Return None) as ->.
    { apply interpolate_gps_after_last; [|done].
      apply bisect_left_at; [done | lia | |].
      - intros i p Hi Hp. rewrite last_lookup, <- Hi in Hfinal.
        simpl in Hfinal. rewrite Hp in Hfinal. injection Hfinal as ->. done.
      - intros p Hp. apply lookup_lt_Some in Hp. lia. }
    destruct (Qle_bool gap max_gap_seconds) eqn:Hle.
    + apply Qle_bool_iff in Hle. split; [|done].
      split; [done|]. intros Hlt. exfalso. by eapply Qlt_not_le.
    + apply Qle_bool_false in Hle. split; [done|]. intros Hn. by destruct Hn.
Qed.

Lemma interpolate_gps_boundary_witness :
  let gap := total_seconds (time sample_before - (T0 - seconds 5)) in
  (interpolate_gps sample_timeline (T0 - seconds 5) 3600 = Return None
   <-> (3600 < gap)%Q) /\
  (~ (3600 < gap)%Q ->
   interpolate_gps sample_timeline (T0 - seconds 5) 3600
   = Return (Some (position sample_before))).
Proof.
  apply (interpolate_gps_boundary sample_timeline (T0 - seconds 5) 3600
           sample_before sample_after).
  - reflexivity.
  - reflexivity.
  - reflexivity.
  - reflexivity.
Defined.

(** Five seconds before the first point, and 4000 seconds before it. *)
Example interpolate_gps_just_before :
  interpolate_gps sample_timeline (T0 - seconds 5) 3600
  = Return (Some (position sample_before)).
Proof. reflexivity. Qed.

Example interpolate_gps_long_before :
  interpolate_gps sample_timeline (T0 - seconds 4000) 3600 = Return None.
Proof. reflexivity. Qed.

(** ** The interpolation engine: no fault *)

Lemma total_seconds_zero_le (g : Q) :
  Qgt_bool (total_seconds 0) g = negb (Qle_bool 0 g).
Proof.
  unfold Qgt_bool, total_seconds, Qle_bool. simpl.
  by destruct (Qnum g).
Qed.

(** Between two points in strictly increasing order the bracket stage
    returns: nothing, or the point on the line. *)
Lemma interpolate_between_returns (before after : trackpoint)
    (photo_time : instant) (max_gap_seconds : Q) :
  (time before < time after)%Z ->
  ~ raises (interpolate_between before after photo_time max_gap_seconds).
Proof.
  intros Hlt. unfold interpolate_between. cbv zeta.
  destruct (Qgt_bool _ _); [simpl; tauto|].
  assert (0 < total_seconds (time after - time before))%Q as Hpos
    by (apply total_seconds_pos; lia).
  unfold truediv. rewrite !(Qeq_bool_pos _ Hpos). simpl. tauto.
Qed.

(** Whatever the list, when the search ends strictly inside it the two
    neighbours of the insertion point enclose the query. *)
Lemma bisect_left_encloses (trackpoints : list trackpoint)
    (photo_time : instant) (i : nat) (before after : trackpoint) :
  bisect_left (time <$> trackpoints) photo_time = Return (S i) ->
  trackpoints !! i = Some before ->
  trackpoints !! S i = Some after ->
  (time before < photo_time <= time after)%Z.
Proof.
  intros Hidx Hb Ha.
  destruct (bisect_left_returns (time <$> trackpoints) photo_time)
    as (idx & Hret & _ & Hleft & Hright).
  rewrite Hidx in Hret. injection Hret as <-.
  rewrite length_fmap in Hright. split.
  - destruct Hleft as [?|(v & Hv & Hlt)]; [done|].
    simpl in Hv. rewrite Nat.sub_0_r, lookup_times, Hb in Hv.
    by injection Hv as <-.
  - destruct Hright as [Hlen|(v & Hv & Hle)].
    + apply lookup_lt_Some in Ha. lia.
    + rewrite lookup_times, Ha in Hv. by injection Hv as <-.
Qed.

(** For every list of trackpoints, sorted or not, the call returns. *)
Lemma interpolate_gps_returns (trackpoints : list trackpoint)
    (photo_time : instant) (max_gap_seconds : Q) :
  ~ raises (interpolate_gps trackpoints photo_time max_gap_seconds).
Proof.
  destruct trackpoints as [|p0 rest] eqn:Htl; [simpl; tauto|]. rewrite <- Htl.
  assert (0 < length trackpoints) as Hlen by (subst; simpl; lia).
  destruct (bisect_left_returns (time <$> trackpoints) photo_time)
    as (idx & Hret & Hidx & _ & _).
  rewrite length_fmap in Hidx.
  destruct (decide (idx = length trackpoints)) as [->|Hin].
  - assert (is_Some (last trackpoints)) as [pl Hpl].
    { rewrite last_lookup. apply lookup_lt_is_Some_2. lia. }
    rewrite (interpolate_gps_after_last _ pl) by done.
    destruct (Qle_bool _ _); simpl; tauto.
  - assert (is_Some (trackpoints !! idx)) as [after Ha]
      by (apply lookup_lt_is_Some_2; lia).
    destruct (decide (time after = photo_time)) as [Heq|Hne].
    { rewrite (interpolate_gps_exact _ _ _ idx after) by done. simpl. tauto. }
    destruct idx as [|i].
    + subst trackpoints. injection Ha as ->.
      rewrite interpolate_gps_before_first by done.
      destruct (Qle_bool _ _); simpl; tauto.
    + assert (is_Some (trackpoints !! i)) as [before Hb]
        by (apply lookup_lt_is_Some_2; lia).
      rewrite (interpolate_gps_interior _ _ _ i before after) by done.
      apply interpolate_between_returns.
      pose proof (bisect_left_encloses _ _ _ _ _ Hret Hb Ha). lia.
Qed.

(** C7. A zero-width bracket that passes the width test yields the earlier
    point's position, untouched (and none when the tolerance is negative, by
    the width test that comes first).  For every list of trackpoints and
    every query the call returns without a fault; and whenever the search
    ends strictly inside the list without an exact match, the two points
    taken as the bracket are in strictly increasing order, so the width the
    ratio is divided by is strictly positive. *)
Theorem interpolate_gps_no_zero_division (trackpoints : list trackpoint)
    (photo_time : instant) (max_gap_seconds : Q) :
  (forall before after,
     time before = time after ->
     interpolate_between before after photo_time max_gap_seconds
     = if Qle_bool 0 max_gap_seconds
       then Return (Some (position before)) else Return None)
  /\ ~ raises (interpolate_gps trackpoints photo_time max_gap_seconds)
  /\ (forall i before after,
        bisect_left (time <$> trackpoints) photo_time = Return (S i) ->
        trackpoints !! i = Some before ->
        trackpoints !! S i = Some after ->
        time after <> photo_time ->
        interpolate_gps trackpoints photo_time max_gap_seconds
        = interpolate_between before after photo_time max_gap_seconds
        /\ (time before < photo_time < time after)%Z
        /\ (0 < total_seconds (time after - time before))%Q).
Proof.
  split; [|split].
  - intros before after Heq. unfold interpolate_between. cbv zeta.
    rewrite Heq, Z.sub_diag, total_seconds_zero_le.
    by destruct (Qle_bool 0 max_gap_seconds).
  - apply interpolate_gps_returns.
  - intros i before after Hidx Hb Ha Hne.
    pose proof (bisect_left_encloses _ _ _ _ _ Hidx Hb Ha) as Henc.
    split; [by apply (interpolate_gps_interior _ _ _ i)|].
    split; [lia|]. apply total_seconds_pos. lia.
Qed.

Lemma interpolate_gps_no_zero_division_witness :
  interpolate_gps sample_timeline (T0 + seconds 500) 3600
  = interpolate_between sample_before sample_after (T0 + seconds 500) 3600
  /\ (time sample_before < T0 + seconds 500 < time sample_after)%Z
  /\ (0 < total_seconds (time sample_after - time sample_before))%Q.
Proof.
  apply (proj2 (proj2 (interpolate_gps_no_zero_division sample_timeline
                         (T0 + seconds 500) 3600)) 0).
  - reflexivity.
  - reflexivity.
  - reflexivity.
  - vm_compute. discriminate.
Defined.

(** ** The stable sort by time *)

Lemma insert_sorted_perm {A} (le : A -> A -> bool) (x : A) (l : list A) :
  insert_sorted le x l ≡ₚ x :: l.
Proof.
  induction l as [|y rest IH]; simpl; [done|].
  destruct (le x y); [done|]. rewrite IH. apply Permutation_swap.
Qed.

Lemma stable_sort_cons {A} (le : A -> A -> bool) (x : A) (l : list A) :
  stable_sort le (x :: l) = insert_sorted le x (stable_sort le l).
Proof. reflexivity. Qed.

Lemma stable_sort_perm {A} (le : A -> A -> bool) (l : list A) :
  stable_sort le l ≡ₚ l.
Proof.
  induction l as [|x rest IH]; [done|].
  by rewrite stable_sort_cons, insert_sorted_perm, IH.
Qed.

Section SortByTime.

Lemma nondecreasing_step (t u : instant) (ts : list instant) :
  nondecreasing (t :: u :: ts) = (t <=? u)%Z && nondecreasing (u :: ts).
Proof. reflexivity. Qed.

Lemma insert_sorted_step (x y : trackpoint) (l : list trackpoint) :
  insert_sorted le_time x (y :: l)
  = if (time x <=? time y)%Z then x :: y :: l
    else y :: insert_sorted le_time x l.
Proof. reflexivity. Qed.

Lemma insert_sorted_nondecreasing (x : trackpoint) (l : list trackpoint) :
  nondecreasing (time <$> l) = true ->
  nondecreasing (time <$> insert_sorted le_time x l) = true.
Proof.
  induction l as [|y rest IH]; intros Hs; [done|].
  rewrite insert_sorted_step.
  destruct (Z.leb_spec (time x) (time y)) as [Hle|Hgt].
  - rewrite !fmap_cons, nondecreasing_step. rewrite fmap_cons in Hs.
    apply andb_true_iff. split; [by apply Z.leb_le | done].
  - rewrite fmap_cons in Hs.
    destruct (nondecreasing_cons _ _ Hs) as [Hrest _].
    specialize (IH Hrest).
    destruct rest as [|z rest'].
    + cbn. rewrite andb_true_r. apply Z.leb_le. lia.
    + rewrite insert_sorted_step in IH |- *.
      rewrite fmap_cons, nondecreasing_step in Hs.
      apply andb_true_iff in Hs as [Hyz _]. apply Z.leb_le in Hyz.
      destruct (Z.leb_spec (time x) (time z)) as [Hxz|Hzx].
      * rewrite !fmap_cons, nondecreasing_step.
        rewrite !fmap_cons in IH.
        apply andb_true_iff. split; [apply Z.leb_le; lia | done].
      * rewrite fmap_cons in IH. rewrite !fmap_cons, nondecreasing_step.
        apply andb_true_iff. split; [by apply Z.leb_le | done].
Qed.

Lemma sort_by_time_nondecreasing (l : list trackpoint) :
  sorted_timeline (sort_by_time l).
Proof.
  unfold sorted_timeline, sort_by_time.
  induction l as [|x rest IH]; [done|].
  rewrite stable_sort_cons. by apply insert_sorted_nondecreasing.
Qed.

Lemma insert_sorted_at_time (t : instant) (x : trackpoint)
    (l : list trackpoint) :
  at_time t (insert_sorted le_time x l) = at_time t (x :: l).
Proof.
  unfold at_time.
  induction l as [|y rest IH]; [done|].
  rewrite insert_sorted_step.
  destruct (Z.leb_spec (time x) (time y)) as [Hle|Hgt]; [done|].
  rewrite filter_cons, IH, !filter_cons.
  repeat case_decide; try done. lia.
Qed.

(** Points that share a timestamp come out in the order they went in. *)
Lemma sort_by_time_stable (t : instant) (l : list trackpoint) :
  at_time t (sort_by_time l) = at_time t l.
Proof.
  unfold sort_by_time.
  induction l as [|x rest IH]; [done|].
  rewrite stable_sort_cons, insert_sorted_at_time.
  unfold at_time in *. by rewrite !filter_cons, IH.
Qed.
End SortByTime.

(** ** Loops that append *)

Lemma fold_left_extend {A B} (step : list B -> A -> list B) (f : A -> list B)
    (l : list A) (acc : list B) :
  (forall acc x, step acc x = acc ++ f x) ->
  fold_left step l acc = acc ++ flat_map f l.
Proof.
  intros Hstep. revert acc.
  induction l as [|x rest IH]; intros acc; simpl.
  - by rewrite app_nil_r.
  - by rewrite IH, Hstep, <- app_assoc.
Qed.

Lemma append_point_extend (trackpoints : list trackpoint)
    (point : gpxpy.point) :
  append_point trackpoints point = trackpoints ++ point_trackpoints point.
Proof.
  unfold point_trackpoints, append_point.
  destruct (gpxpy.time point); [done | by rewrite app_nil_r].
Qed.

(** The loops of [parse_gpx_files] find exactly [found_trackpoints]. *)
Lemma collect_trackpoints_found (gpx_dir : gpx_directory) :
  collect_trackpoints gpx_dir = found_trackpoints gpx_dir.
Proof.
  unfold collect_trackpoints, found_trackpoints. cbv zeta.
  rewrite (fold_left_extend _
    (fun gpx_file => match parse gpx_dir gpx_file with
                     | None => []
                     | Some gpx => file_trackpoints gpx
                     end)); [done|].
  intros acc gpx_file. destruct (parse gpx_dir gpx_file) as [gpx|].
  - rewrite (fold_left_extend _ point_trackpoints)
      by apply append_point_extend.
    unfold file_trackpoints. rewrite app_assoc. f_equal.
    apply fold_left_extend. intros acc' track.
    apply fold_left_extend. intros acc'' segment.
    apply fold_left_extend. apply append_point_extend.
  - by rewrite app_nil_r.
Qed.

(** C5. Whatever the directory holds, in whatever order the files are
    listed and the points recorded, the loader's output is non-decreasing in
    timestamp, holds exactly the points found, and keeps the points that
    share a timestamp in the order in which they were found. *)
Theorem parse_gpx_files_sorted_stable (gpx_dir : gpx_directory) :
  sorted_timeline (parse_gpx_files gpx_dir)
  /\ parse_gpx_files gpx_dir ≡ₚ found_trackpoints gpx_dir
  /\ forall t,
       at_time t (parse_gpx_files gpx_dir)
       = at_time t (found_trackpoints gpx_dir).
Proof.
  assert (parse_gpx_files gpx_dir = sort_by_time (found_trackpoints gpx_dir))
    as ->.
  { unfold parse_gpx_files. cbv zeta. rewrite collect_trackpoints_found.
    unfold found_trackpoints. by destruct (sorted (glob gpx_dir)). }
  split; [apply sort_by_time_nondecreasing|].
  split; [apply stable_sort_perm|].
  intros t. apply sort_by_time_stable.
Qed.

(** The sample directory: the later point of the segment is found first and
    comes out second; the waypoint, found last, stays behind its twin. *)
Example parse_gpx_files_sample :
  parse_gpx_files sample_directory
  = [ {| time := T0; lat := 11; lon := 21; ele := 0 |};
      {| time := T0 + seconds 60; lat := 10; lon := 20; ele := 0 |};
      {| time := T0 + seconds 60; lat := 12; lon := 22; ele := 0 |} ].
Proof. reflexivity. Qed.

(** ** The GeoJSON export *)

Lemma segment_coords_pairs (segment : gpxpy.segment) :
  segment_coords segment = lon_lat_pairs segment.
Proof.
  unfold segment_coords, lon_lat_pairs.
  rewrite (fold_left_extend _
    (fun point => [[gpxpy.longitude point; gpxpy.latitude point]]))
    by done.
  simpl. induction (gpxpy.points segment) as [|point rest IH]; [done|].
  simpl. by rewrite IH.
Qed.

Lemma lon_lat_pairs_nil (segment : gpxpy.segment) :
  lon_lat_pairs segment = [] <-> has_points segment = false.
Proof.
  unfold lon_lat_pairs, has_points.
  by destruct (gpxpy.points segment).
Qed.

Lemma flat_map_filter {A B} (keep : A -> bool) (f : A -> B) (l : list A) :
  flat_map (fun x => if keep x then [f x] else []) l
  = map f (List.filter keep l).
Proof.
  induction l as [|x rest IH]; [done|].
  simpl. destruct (keep x); simpl; by rewrite IH.
Qed.

(** The features the loops of [get_gpx_track_geojson] build. *)
Lemma get_gpx_track_geojson_features (gpx_dir : gpx_directory) :
  features (get_gpx_track_geojson gpx_dir)
  = features_per_nonempty_segment gpx_dir.
Proof.
  unfold get_gpx_track_geojson, features_per_nonempty_segment,
    features_of_segments. cbv zeta. cbn [features].
  apply (fold_left_extend _
    (fun gpx_file => match parse gpx_dir gpx_file with
                     | None => []
                     | Some gpx => _
                     end) _ []).
  intros acc gpx_file. destruct (parse gpx_dir gpx_file) as [gpx|].
  - apply fold_left_extend. intros acc' track.
    rewrite <- flat_map_filter.
    apply fold_left_extend. intros acc'' segment.
    rewrite segment_coords_pairs. unfold segment_feature.
    destruct (lon_lat_pairs segment) as [|pair pairs] eqn:Hpairs.
    + apply lon_lat_pairs_nil in Hpairs. rewrite Hpairs. by rewrite app_nil_r.
    + assert (has_points segment = true) as ->; [|done].
      destruct (has_points segment) eqn:Hp; [done|].
      apply lon_lat_pairs_nil in Hp. congruence.
  - by rewrite app_nil_r.
Qed.

(** C9, as the code has it.  The export is a FeatureCollection that holds,
    for the files that parse, in name order, one LineString feature for each
    track segment that has at least one point: its coordinates are the
    segment's points as [[longitude, latitude]] pairs in segment order, its
    name is the track's name, or the file's base name when the track has no
    name or an empty one.  A segment without points gives no feature. *)
Theorem get_gpx_track_geojson_spec (gpx_dir : gpx_directory) :
  get_gpx_track_geojson gpx_dir
  = {| collection_type := "FeatureCollection";
       features := features_per_nonempty_segment gpx_dir |}
  /\ forall f, f ∈ features (get_gpx_track_geojson gpx_dir) ->
       exists gpx_file gpx track segment,
         gpx_file ∈ glob gpx_dir /\
         parse gpx_dir gpx_file = Some gpx /\
         track ∈ gpxpy.tracks gpx /\
         segment ∈ gpxpy.segments track /\
         gpxpy.points segment <> [] /\
         feature_type f = "Feature"%string /\
         geometry_type (feature_geometry f) = "LineString"%string /\
         coordinates (feature_geometry f) = lon_lat_pairs segment /\
         name (feature_properties f)
         = match gpxpy.name track with
           | Some declared =>
             if decide (declared = EmptyString) then basename gpx_file
             else declared
           | None => basename gpx_file
           end.
Proof.
  split.
  - rewrite <- get_gpx_track_geojson_features. done.
  - intros f. rewrite get_gpx_track_geojson_features.
    unfold features_per_nonempty_segment, features_of_segments.
    rewrite list_elem_of_In, in_flat_map.
    intros (gpx_file & Hfile & Hf).
    destruct (parse gpx_dir gpx_file) as [gpx|] eqn:Hparse; [|done].
    apply in_flat_map in Hf as (track & Htrack & Hf).
    apply in_map_iff in Hf as (segment & <- & Hseg).
    apply filter_In in Hseg as [Hseg Hpts].
    exists gpx_file, gpx, track, segment.
    split.
    { apply list_elem_of_In in Hfile.
      by rewrite <- (stable_sort_perm String.leb (glob gpx_dir)). }
    split; [done|]. split; [by apply list_elem_of_In|].
    split; [by apply list_elem_of_In|].
    split.
    { unfold has_points in Hpts. by destruct (gpxpy.points segment). }
    split; [done|]. split; [done|]. split; [done|].
    simpl. unfold feature_name.
    destruct (gpxpy.name track) as [[|c declared]|]; done.
Qed.

(** C9, as the specification words it, fails on a segment without points:
    it gives no feature. *)
Lemma get_gpx_track_geojson_empty_segment :
  ~ (forall gpx_dir,
       features (get_gpx_track_geojson gpx_dir)
       = features_per_segment gpx_dir).
Proof.
  intros Hclaim. specialize (Hclaim sample_directory).
  apply (f_equal length) in Hclaim. vm_compute in Hclaim. discriminate Hclaim.
Qed.

(** The sample directory: two segments, one feature. *)
Example get_gpx_track_geojson_sample :
  get_gpx_track_geojson sample_directory
  = {| collection_type := "FeatureCollection";
       features :=
         [ {| feature_type := "Feature";
              feature_properties := {| name := "walk.gpx" |};
              feature_geometry :=
                {| geometry_type := "LineString";
                   coordinates := [[20; 10]; [21; 11]]%Q |} |} ] |}.
Proof. reflexivity. Qed.

(** ** The timestamp normalizer *)

Section NormalizerFacts.
Variable strptime : string -> string -> outcome datetime.
Variable int_of : string -> outcome Z.
Variable local_offset : Z -> Z.

Lemma try_formats_rejected (date_str : string) (formats : list string) :
  Forall (fun fmt => strptime date_str fmt = Raise ValueError) formats ->
  try_formats strptime date_str formats = Return None.
Proof.
  induction 1 as [|fmt rest Hfmt _ IH]; [done|].
  simpl. by rewrite Hfmt.
Qed.

Lemma split_head (sep : ascii) (s : string) :
  exists field fields, split sep s = field :: fields.
Proof.
  induction s as [|c rest (field & fields & IH)]; simpl; [by eauto|].
  destruct (Ascii.eqb c sep); [by eauto|]. rewrite IH. by eauto.
Qed.

Lemma parse_exiftool_datetime_unrecognized (info : gmap string json)
    (date_str : string) :
  raw_timestamp info = Some (JString date_str) ->
  unrecognized strptime date_str ->
  _parse_exiftool_datetime strptime int_of local_offset info = Return None.
Proof.
  intros Hraw [Hformats Hwhole]. unfold _parse_exiftool_datetime.
  cbv zeta. fold (raw_timestamp info). rewrite Hraw.
  destruct (negb _ || _); [done|].
  cbn [strip_of mbind outcome_bind].
  rewrite (try_formats_rejected _ _ Hformats). cbn [mbind outcome_bind].
  destruct (split_head "."%char (strip date_str))
    as (whole & fields & Hsplit).
  rewrite Hsplit in Hwhole |- *.
  change (getitem (whole :: fields) 0%Z) with (Return whole).
  cbn [mbind outcome_bind]. by rewrite (Hwhole whole eq_refl).
Qed.
End NormalizerFacts.

(** C8. Whatever [strptime], [int] and the host's time zone do: when the raw
    timestamp is absent or empty, is the all-zero date, or is a string that
    matches none of the patterns, the normalizer returns, and returns no
    instant. *)
Theorem parse_exiftool_datetime_absent
    (strptime : string -> string -> outcome datetime)
    (int_of : string -> outcome Z) (local_offset : Z -> Z)
    (info : gmap string json) :
  raw_timestamp info = None
  \/ raw_timestamp info = Some (JString EmptyString)
  \/ raw_timestamp info = Some (JString ZERO_DATE)
  \/ (exists date_str,
        raw_timestamp info = Some (JString date_str)
        /\ unrecognized strptime date_str) ->
  _parse_exiftool_datetime strptime int_of local_offset info = Return None.
Proof.
  intros [Hraw|[Hraw|[Hraw|(date_str & Hraw & Hbad)]]].
  - unfold _parse_exiftool_datetime. cbv zeta. fold (raw_timestamp info).
    by rewrite Hraw.
  - unfold _parse_exiftool_datetime. cbv zeta. fold (raw_timestamp info).
    by rewrite Hraw.
  - unfold _parse_exiftool_datetime. cbv zeta. fold (raw_timestamp info).
    by rewrite Hraw.
  - by apply (parse_exiftool_datetime_unrecognized _ _ _ _ date_str).
Qed.

Lemma parse_exiftool_datetime_absent_witness :
  _parse_exiftool_datetime sample_strptime sample_int (fun _ => 0%Z)
    garbled_info
  = Return None.
Proof.
  apply parse_exiftool_datetime_absent.
  right. right. right. exists "yesterday at noon"%string. split.
  - vm_compute. reflexivity.
  - split.
    + repeat constructor.
    + intros whole Hwhole. vm_compute in Hwhole.
      injection Hwhole as <-. reflexivity.
Defined.

(** A raw value that is a number, not a string, has no [strip]. *)
Example parse_exiftool_datetime_number :
  _parse_exiftool_datetime sample_strptime sample_int (fun _ => 0%Z)
    {[ "DateTimeOriginal"%string := JNumber 2024 ]}
  = Raise AttributeError.
Proof. vm_compute. reflexivity. Qed.

(** A timestamp the stand-in parser knows, with its offset of nine hours. *)
Example parse_exiftool_datetime_sample :
  _parse_exiftool_datetime sample_strptime sample_int (fun _ => 0%Z)
    sample_info
  = Return (Some 1714964400000000%Z).
Proof. vm_compute. reflexivity. Qed.

(** ** The matching loop *)

Ltac chain_step :=
  match goal with
  | |- _ /\ _ => split
  | |- _ <-> _ => split
  | |- forall _, _ => intro
  | H : _ /\ _ |- _ => destruct H
  | H : is_Some None |- _ => destruct H as [? H]; discriminate H
  | H : Some _ = Some _ |- _ => injection H as <-
  | H : Return _ = Return _ |- _ => injection H as <-
  | |- is_Some (Some _) => eexists; reflexivity
  end.

Lemma match_photo_classified (trackpoints : list trackpoint) (max_gap : Q)
    (photo : photo_metadata) :
  exists r,
    match_photo trackpoints max_gap photo = Return r
    /\ classified trackpoints max_gap photo r.
Proof.
  unfold match_photo, match_photo_with, classified.
  destruct (has_gps photo) eqn:Hgps.
  { eexists. split; [done|]. cbn. repeat chain_step; try done.
    unfold match_photo_with. by rewrite Hgps. }
  destruct (photo_time photo) as [t|] eqn:Htime.
  2:{ eexists. split; [done|]. cbn. repeat chain_step; done. }
  pose proof (interpolate_gps_returns trackpoints t max_gap) as Hret.
  cbn [mbind outcome_bind].
  destruct (interpolate_gps trackpoints t max_gap) as [[found|]|e] eqn:Hgo;
    [| |by destruct Hret].
  - eexists. split; [done|]. cbn. repeat chain_step; try done; try congruence.
  - eexists. split; [done|]. cbn. repeat chain_step; try done; try congruence.
Qed.

Lemma match_photos_classified (trackpoints : list trackpoint) (max_gap : Q)
    (batch : list photo_metadata) :
  exists results,
    match_photos trackpoints max_gap batch = Return results
    /\ Forall2 (classified trackpoints max_gap) batch results.
Proof.
  induction batch as [|photo rest (others & Hrest & Hall)].
  - exists []. by split.
  - destruct (match_photo_classified trackpoints max_gap photo)
      as (r & Hr & Hclass).
    exists (r :: others). cbn [match_photos]. rewrite Hr, Hrest.
    split; [done|]. by constructor.
Qed.

(** C6. The scan returns, and every photo of the batch is classified by the
    chain: with GPS already present it is [has_gps], and the interpolation
    is not consulted; else without a capture instant it is [no_time]; else
    it is [matched], with the position the interpolation returns, or
    [no_match] when it returns none.  The result carries a position if and
    only if it is [matched]. *)
Theorem async_scan_photos_classified (batch : list photo_metadata)
    (gpx_dir : option gpx_directory) (max_gap : Q) :
  exists result,
    async_scan_photos batch gpx_dir max_gap = Return result
    /\ Forall2
         (classified
            (match gpx_dir with
             | Some gpx_dir => parse_gpx_files gpx_dir
             | None => []
             end) max_gap)
         batch (photos result).
Proof.
  unfold async_scan_photos. cbv zeta.
  destruct (match_photos_classified
              (match gpx_dir with
               | Some gpx_dir => parse_gpx_files gpx_dir
               | None => []
               end) max_gap batch) as (results & Hresults & Hall).
  rewrite Hresults. cbn [mbind outcome_bind].
  eexists. split; [reflexivity|]. exact Hall.
Qed.

(** A batch with one photo of each kind. *)
Example match_photos_sample :
  (fmap (M := list) status) <$>
    match_photos sample_timeline 3600
      [photo_with_gps; photo_without_time; photo_on_track; photo_off_track]
  = Return ["has_gps"; "no_time"; "matched"; "no_match"]%string.
Proof. reflexivity. Qed.

(** A photo that has GPS is classified without any track at all. *)
Example async_scan_photos_no_track :
  (fun result => (fmap (M := list) status) (photos result)) <$>
    async_scan_photos [photo_with_gps; photo_on_track] None 3600
  = Return ["has_gps"; "no_match"]%string.
Proof. reflexivity. Qed.

(** * Further properties *)

(** ** The interpolation engine on any list *)

(** Which branch answers a query does not depend on the tolerance: the list
    is empty; or some point carries the query instant; or the query lies
    before the first point, after the last one, or strictly between two
    neighbours. *)
Lemma interpolate_gps_cases (trackpoints : list trackpoint)
    (photo_time : instant) :
  (trackpoints = [] /\
   forall g, interpolate_gps trackpoints photo_time g = Return None)
  \/ (exists p, p ∈ trackpoints /\ time p = photo_time /\
      forall g, interpolate_gps trackpoints photo_time g
                = Return (Some (position p)))
  \/ (exists p, p ∈ trackpoints /\ (photo_time < time p)%Z /\
      forall g, interpolate_gps trackpoints photo_time g
                = if Qle_bool (total_seconds (time p - photo_time)) g
                  then Return (Some (position p)) else Return None)
  \/ (exists p, p ∈ trackpoints /\ (time p < photo_time)%Z /\
      forall g, interpolate_gps trackpoints photo_time g
                = if Qle_bool (total_seconds (photo_time - time p)) g
                  then Return (Some (position p)) else Return None)
  \/ (exists before after,
        before ∈ trackpoints /\ after ∈ trackpoints /\
        (time before < photo_time < time after)%Z /\
        forall g, interpolate_gps trackpoints photo_time g
                  = interpolate_between before after photo_time g).
Proof.
  destruct trackpoints as [|p0 rest] eqn:Htl; [left; by split|].
  right. rewrite <- Htl.
  assert (0 < length trackpoints) as Hlen by (subst; simpl; lia).
  destruct (bisect_left_returns (time <$> trackpoints) photo_time)
    as (idx & Hret & Hidx & Hleft & Hright).
  rewrite length_fmap in Hidx, Hright.
  destruct (decide (idx = length trackpoints)) as [->|Hin].
  - right. right. left.
    assert (is_Some (last trackpoints)) as [pl Hpl].
    { rewrite last_lookup. apply lookup_lt_is_Some_2. lia. }
    exists pl. split; [by eapply list_elem_of_lookup_2; rewrite <- last_lookup|].
    split.
    + destruct Hleft as [?|(v & Hv & Hlt)]; [lia|].
      rewrite last_lookup in Hpl.
      replace (length trackpoints - 1) with (pred (length trackpoints)) in Hv
        by lia.
      rewrite lookup_times, Hpl in Hv. by injection Hv as <-.
    + intros g. by apply interpolate_gps_after_last.
  - assert (is_Some (trackpoints !! idx)) as [after Ha]
      by (apply lookup_lt_is_Some_2; lia).
    assert (photo_time <= time after)%Z as Hle.
    { destruct Hright as [?|(v & Hv & Hle)]; [done|].
      rewrite lookup_times, Ha in Hv. by injection Hv as <-. }
    destruct (decide (time after = photo_time)) as [Heq|Hne].
    { left. exists after. split; [by eapply list_elem_of_lookup_2|].
      split; [done|]. intros g. by apply (interpolate_gps_exact _ _ _ idx). }
    right. destruct idx as [|i].
    + left. exists after. split; [by eapply list_elem_of_lookup_2|].
      split; [lia|]. intros g. subst trackpoints. injection Ha as ->.
      by apply interpolate_gps_before_first.
    + right. right.
      assert (is_Some (trackpoints !! i)) as [before Hb]
        by (apply lookup_lt_is_Some_2; lia).
      exists before, after.
      split; [by eapply list_elem_of_lookup_2|].
      split; [by eapply list_elem_of_lookup_2|].
      pose proof (bisect_left_encloses _ _ _ _ _ Hret Hb Ha).
      split; [lia|]. intros g. by apply (interpolate_gps_interior _ _ _ i).
Qed.

(** Between two points in strictly increasing order the bracket stage gives
    nothing when they are too far apart, and else the point on the line. *)
Lemma interpolate_between_inside (before after : trackpoint)
    (photo_time : instant) (g : Q) :
  (time before < time after)%Z ->
  let total_gap := total_seconds (time after - time before) in
  let ratio := (total_seconds (photo_time - time before) / total_gap)%Q in
  interpolate_between before after photo_time g
  = if Qgt_bool total_gap g then Return None
    else Return (Some
      {| gps_lat := lat before + (lat after - lat before) * ratio;
         gps_lon := lon before + (lon after - lon before) * ratio;
         gps_ele := ele before + (ele after - ele before) * ratio |}).
Proof.
  intros Hlt total_gap ratio. unfold interpolate_between. cbv zeta.
  fold total_gap. destruct (Qgt_bool total_gap g); [done|].
  assert (0 < total_gap)%Q as Hpos by (apply total_seconds_pos; lia).
  unfold truediv. by rewrite !(Qeq_bool_pos _ Hpos).
Qed.

(** X1. Raising the tolerance never loses a match and never moves one:
    whatever the list, a position found with one tolerance is found,
    unchanged, with every larger one. *)
Theorem interpolate_gps_tolerance_monotone (trackpoints : list trackpoint)
    (photo_time : instant) (g g' : Q) (found : gps) :
  (g <= g')%Q ->
  interpolate_gps trackpoints photo_time g = Return (Some found) ->
  interpolate_gps trackpoints photo_time g' = Return (Some found).
Proof.
  intros Hg.
  destruct (interpolate_gps_cases trackpoints photo_time)
    as [[_ H]|[(p & _ & _ & H)|[(p & _ & _ & H)|[(p & _ & _ & H)
        |(before & after & _ & _ & Hq & H)]]]];
    rewrite (H g), (H g'); try done.
  - destruct (Qle_bool _ g) eqn:Hle; [|done]. intros Hres.
    apply Qle_bool_iff in Hle.
    by rewrite (proj2 (Qle_bool_iff _ g') (Qle_trans _ _ _ Hle Hg)).
  - destruct (Qle_bool _ g) eqn:Hle; [|done]. intros Hres.
    apply Qle_bool_iff in Hle.
    by rewrite (proj2 (Qle_bool_iff _ g') (Qle_trans _ _ _ Hle Hg)).
  - rewrite !interpolate_between_inside by lia. cbv zeta.
    destruct (Qgt_bool _ g) eqn:Hgt; [done|]. intros Hres.
    apply Qgt_bool_false in Hgt.
    by rewrite (proj2 (Qgt_bool_false _ g') (Qle_trans _ _ _ Hgt Hg)).
Qed.

Lemma interpolate_gps_tolerance_monotone_witness :
  interpolate_gps sample_timeline (T0 - seconds 5) 7200
  = Return (Some (position sample_before)).
Proof.
  apply (interpolate_gps_tolerance_monotone sample_timeline (T0 - seconds 5)
           3600 7200).
  - vm_compute. discriminate.
  - reflexivity.
Defined.

Lemma between_line (a b ratio : Q) :
  (0 <= ratio <= 1)%Q -> between a (a + (b - a) * ratio) b.
Proof.
  intros [H0 H1]. unfold between.
  destruct (Qlt_le_dec b a) as [Hba|Hab]; [right | left]; split; nra.
Qed.

(** X2. Whatever the list, a position returned is a trackpoint's own
    position, or lies, coordinate by coordinate, between two trackpoints
    that enclose the query in time. *)
Theorem interpolate_gps_within_track (trackpoints : list trackpoint)
    (photo_time : instant) (g : Q) (found : gps) :
  interpolate_gps trackpoints photo_time g = Return (Some found) ->
  (exists p, p ∈ trackpoints /\ found = position p)
  \/ (exists before after,
        before ∈ trackpoints /\ after ∈ trackpoints /\
        (time before < photo_time < time after)%Z /\
        within_box before after found).
Proof.
  destruct (interpolate_gps_cases trackpoints photo_time)
    as [[_ H]|[(p & Hp & _ & H)|[(p & Hp & _ & H)|[(p & Hp & _ & H)
        |(before & after & Hb & Ha & Hq & H)]]]];
    rewrite (H g); try done.
  - intros [= <-]. left. by exists p.
  - destruct (Qle_bool _ g); [|done]. intros [= <-]. left. by exists p.
  - destruct (Qle_bool _ g); [|done]. intros [= <-]. left. by exists p.
  - rewrite interpolate_between_inside by lia. cbv zeta.
    destruct (Qgt_bool _ g); [done|]. intros [= <-].
    right. exists before, after. split; [done|]. split; [done|].
    split; [done|].
    assert (0 <= total_seconds (photo_time - time before)
                 / total_seconds (time after - time before) <= 1)%Q as Hr
      by (apply ratio_bounds; lia).
    unfold within_box. cbn [gps_lat gps_lon gps_ele].
    split; [|split]; by apply between_line.
Qed.

Lemma interpolate_gps_within_track_witness :
  (exists p, p ∈ sample_timeline /\ position sample_before = position p)
  \/ (exists before after,
        before ∈ sample_timeline /\ after ∈ sample_timeline /\
        (time before < T0 - seconds 5 < time after)%Z /\
        within_box before after (position sample_before)).
Proof.
  apply (interpolate_gps_within_track sample_timeline (T0 - seconds 5) 3600).
  reflexivity.
Defined.

(** X3. With a tolerance that is not negative, whatever the list, a position
    is returned only when some trackpoint lies within the tolerance of the
    query. *)
Theorem interpolate_gps_near_track (trackpoints : list trackpoint)
    (photo_time : instant) (g : Q) (found : gps) :
  (0 <= g)%Q ->
  interpolate_gps trackpoints photo_time g = Return (Some found) ->
  exists p,
    p ∈ trackpoints
    /\ (total_seconds (Z.abs (time p - photo_time)) <= g)%Q.
Proof.
  intros Hg.
  destruct (interpolate_gps_cases trackpoints photo_time)
    as [[_ H]|[(p & Hp & Ht & H)|[(p & Hp & Ht & H)|[(p & Hp & Ht & H)
        |(before & after & Hb & Ha & Hq & H)]]]];
    rewrite (H g); try done.
  - intros _. exists p. split; [done|].
    replace (time p - photo_time)%Z with 0%Z by lia.
    unfold total_seconds, Qle in *. simpl in *. lia.
  - destruct (Qle_bool _ g) eqn:Hle; [|done]. intros _.
    apply Qle_bool_iff in Hle. exists p. split; [done|].
    by rewrite Z.abs_eq by lia.
  - destruct (Qle_bool _ g) eqn:Hle; [|done]. intros _.
    apply Qle_bool_iff in Hle. exists p. split; [done|].
    rewrite Z.abs_neq by lia.
    by replace (- (time p - photo_time))%Z with (photo_time - time p)%Z by lia.
  - rewrite interpolate_between_inside by lia. cbv zeta.
    destruct (Qgt_bool _ g) eqn:Hgt; [done|]. intros _.
    apply Qgt_bool_false in Hgt. exists before. split; [done|].
    rewrite Z.abs_neq by lia.
    eapply Qle_trans; [|exact Hgt]. apply total_seconds_le. lia.
Qed.

Lemma interpolate_gps_near_track_witness :
  exists p,
    p ∈ sample_timeline
    /\ (total_seconds (Z.abs (time p - (T0 + seconds 500))) <= 3600)%Q.
Proof.
  eapply (interpolate_gps_near_track sample_timeline (T0 + seconds 500) 3600).
  - vm_compute. discriminate.
  - vm_compute. reflexivity.
Defined.

(** ** The loader and the engine together *)

Lemma parse_gpx_files_sort (gpx_dir : gpx_directory) :
  parse_gpx_files gpx_dir = sort_by_time (found_trackpoints gpx_dir).
Proof.
  unfold parse_gpx_files. cbv zeta. rewrite collect_trackpoints_found.
  unfold found_trackpoints. by destruct (sorted (glob gpx_dir)).
Qed.

Lemma at_time_head (t : instant) (l : list trackpoint) (j : nat)
    (first : trackpoint) :
  l !! j = Some first -> time first = t ->
  (forall k pk, k < j -> l !! k = Some pk -> time pk <> t) ->
  head (at_time t l) = Some first.
Proof.
  unfold at_time. revert j. induction l as [|x rest IH]; intros j Hj Ht Hmin.
  - by rewrite lookup_nil in Hj.
  - rewrite filter_cons. destruct j as [|j]; simpl in Hj.
    + injection Hj as ->. by rewrite decide_True.
    + rewrite decide_False by (apply (Hmin 0 x); [lia | done]).
      apply (IH j); [done | done |].
      intros k pk Hk Hpk. apply (Hmin (S k) pk); [lia | done].
Qed.

(** X4. A photo taken at the very instant of a point the loader found gets
    a position whatever the tolerance: that of the point found first among
    those that carry this instant. *)
Theorem parse_gpx_files_then_interpolate (gpx_dir : gpx_directory) (g : Q)
    (p : trackpoint) :
  p ∈ found_trackpoints gpx_dir ->
  exists first,
    head (at_time (time p) (found_trackpoints gpx_dir)) = Some first
    /\ interpolate_gps (parse_gpx_files gpx_dir) (time p) g
       = Return (Some (position first)).
Proof.
  intros Hp. rewrite parse_gpx_files_sort.
  set (tl := sort_by_time (found_trackpoints gpx_dir)).
  assert (p ∈ tl) as Hin.
  { unfold tl, sort_by_time. by rewrite stable_sort_perm. }
  apply list_elem_of_lookup in Hin as [i Hi].
  destruct (first_with_time tl (time p) i p Hi eq_refl)
    as (j & first & _ & Hj & Ht & Hmin).
  exists first. split.
  - rewrite <- (sort_by_time_stable (time p) (found_trackpoints gpx_dir)).
    by apply (at_time_head _ _ j).
  - apply (interpolate_gps_first_match _ _ _ j); [|done..].
    apply sort_by_time_nondecreasing.
Qed.

Lemma parse_gpx_files_then_interpolate_witness :
  exists first,
    head (at_time (T0 + seconds 60) (found_trackpoints sample_directory))
    = Some first
    /\ interpolate_gps (parse_gpx_files sample_directory) (T0 + seconds 60) 0
       = Return (Some (position first)).
Proof.
  apply (parse_gpx_files_then_interpolate sample_directory 0
           {| time := T0 + seconds 60; lat := 12; lon := 22; ele := 0 |}).
  vm_compute. apply list_elem_of_In. right. right. left. reflexivity.
Defined.

(** ** The order of the listing does not matter *)

Lemma string_leb_trans (s1 s2 s3 : string) :
  String.leb s1 s2 = true -> String.leb s2 s3 = true ->
  String.leb s1 s3 = true.
Proof.
  unfold String.leb. revert s2 s3.
  induction s1 as [|c1 s1 IH]; intros [|c2 s2] [|c3 s3]; simpl; try done.
  unfold Ascii.compare.
  destruct (N.compare_spec (N_of_ascii c1) (N_of_ascii c2)) as [H12|H12|H12];
    destruct (N.compare_spec (N_of_ascii c2) (N_of_ascii c3)) as [H23|H23|H23];
    destruct (N.compare_spec (N_of_ascii c1) (N_of_ascii c3)) as [H13|H13|H13];
    try done; try lia.
  apply IH.
Qed.

Section SortedStrings.
Let R (s1 s2 : string) : Prop := String.leb s1 s2 = true.

Local Instance string_leb_transitive : Transitive R.
Proof. intros s1 s2 s3. apply string_leb_trans. Qed.

Local Instance string_leb_antisymm : AntiSymm eq R.
Proof. intros s1 s2. apply String.leb_antisym. Qed.

Lemma insert_sorted_Sorted (x : string) (l : list string) :
  Sorted R l -> Sorted R (insert_sorted String.leb x l).
Proof.
  induction 1 as [|y rest Hrest IH Hhd]; simpl.
  - by repeat constructor.
  - destruct (String.leb x y) eqn:Hxy.
    + constructor; [by constructor|]. by constructor.
    + constructor; [done|].
      assert (R y x) as Hyx.
      { destruct (String.leb_total x y) as [Hle|Hle]; [congruence | done]. }
      destruct rest as [|z rest']; simpl; [by constructor|].
      destruct (String.leb x z); constructor; [done|].
      by inversion Hhd.
Qed.

Lemma sorted_Sorted (paths : list string) : Sorted R (sorted paths).
Proof.
  unfold sorted. induction paths as [|x rest IH]; [constructor|].
  rewrite stable_sort_cons. by apply insert_sorted_Sorted.
Qed.

(** [sorted] gives one and the same list for every order of its input. *)
Lemma sorted_perm (paths paths' : list string) :
  paths ≡ₚ paths' -> sorted paths = sorted paths'.
Proof.
  intros Hperm. apply (Sorted_unique R); [apply sorted_Sorted..|].
  unfold sorted. by rewrite !stable_sort_perm.
Qed.
End SortedStrings.

(** X5. The order in which the file system lists the track files does not
    matter: two listings of the same files give the same timeline and the
    same GeoJSON export. *)
Theorem loader_listing_order (listing listing' : list string)
    (read : string -> option gpxpy.gpx) :
  listing ≡ₚ listing' ->
  parse_gpx_files {| glob := listing; parse := read |}
  = parse_gpx_files {| glob := listing'; parse := read |}
  /\ get_gpx_track_geojson {| glob := listing; parse := read |}
     = get_gpx_track_geojson {| glob := listing'; parse := read |}.
Proof.
  intros Hperm. pose proof (sorted_perm _ _ Hperm) as Hsorted.
  unfold parse_gpx_files, collect_trackpoints, get_gpx_track_geojson.
  cbn [glob parse]. by rewrite Hsorted.
Qed.

Lemma loader_listing_order_witness :
  parse_gpx_files
    {| glob := ["/photos/gpx/walk.gpx"; "/photos/gpx/broken.gpx"]%string;
       parse := parse sample_directory |}
  = parse_gpx_files
      {| glob := ["/photos/gpx/broken.gpx"; "/photos/gpx/walk.gpx"]%string;
         parse := parse sample_directory |}
  /\ get_gpx_track_geojson
       {| glob := ["/photos/gpx/walk.gpx"; "/photos/gpx/broken.gpx"]%string;
          parse := parse sample_directory |}
     = get_gpx_track_geojson
         {| glob := ["/photos/gpx/broken.gpx"; "/photos/gpx/walk.gpx"]%string;
            parse := parse sample_directory |}.
Proof.
  apply loader_listing_order. apply Permutation_swap.
Defined.

(** ** Names, extensions and case *)

Lemma lower_char_dot (d : ascii) :
  Ascii.eqb (lower_char d) "."%char = Ascii.eqb d "."%char.
Proof. destruct d as [[] [] [] [] [] [] [] []]; reflexivity. Qed.

Lemma lower_char_slash (d : ascii) :
  Ascii.eqb (lower_char d) "/"%char = Ascii.eqb d "/"%char.
Proof. destruct d as [[] [] [] [] [] [] [] []]; reflexivity. Qed.

Lemma rfind_from_lower (c : ascii) (s : string) (i last : Z) :
  (forall d, Ascii.eqb (lower_char d) c = Ascii.eqb d c) ->
  rfind_from c (lower s) i last = rfind_from c s i last.
Proof.
  intros Hc. revert i last.
  induction s as [|d rest IH]; intros i last; simpl; [done|].
  by rewrite Hc, IH.
Qed.

Lemma length_lower (s : string) : String.length (lower s) = String.length s.
Proof. induction s as [|c rest IH]; simpl; [done | by rewrite IH]. Qed.

Lemma slice_from_lower (i : nat) (s : string) :
  slice_from i (lower s) = lower (slice_from i s).
Proof.
  revert s. induction i as [|i IH]; intros [|c rest]; simpl; done.
Qed.

Lemma slice_to_lower (i : nat) (s : string) :
  slice_to i (lower s) = lower (slice_to i s).
Proof.
  revert s. induction i as [|i IH]; intros [|c rest]; simpl; try done.
  by rewrite IH.
Qed.

Lemma is_dot_lower (s : string) :
  String.eqb (lower s) "." = String.eqb s ".".
Proof.
  destruct s as [|c [|c' rest]]; simpl; try done.
  - by rewrite lower_char_dot.
  - rewrite lower_char_dot. by destruct (Ascii.eqb c "."%char).
Qed.

Lemma splitext_loop_lower (p : string) (fuel : nat) (i dotIndex : Z) :
  splitext_loop (lower p) fuel i dotIndex
  = ((lower (splitext_loop p fuel i dotIndex).1),
     (lower (splitext_loop p fuel i dotIndex).2)).
Proof.
  revert i. induction fuel as [|fuel IH]; intros i; cbn [splitext_loop];
    [done|].
  destruct (i <? dotIndex)%Z; [|done].
  rewrite slice_from_lower, slice_to_lower, is_dot_lower.
  destruct (negb _); [|apply IH].
  by rewrite slice_from_lower, slice_to_lower.
Qed.

(** Lower-casing a path and splitting off its extension can be done in
    either order: the split falls at the same place whatever the case of the
    letters. *)
Lemma splitext_lower (p : string) :
  splitext (lower p) = (lower (splitext p).1, lower (splitext p).2).
Proof.
  unfold splitext, rfind. cbv zeta.
  rewrite !rfind_from_lower by (apply lower_char_slash || apply lower_char_dot).
  rewrite length_lower.
  destruct (_ <? _)%Z; [apply splitext_loop_lower | done].
Qed.

Lemma has_image_extension_lower (entry : string) :
  has_image_extension entry
  = bool_decide ((splitext (lower entry)).2 ∈ IMAGE_EXTENSIONS).
Proof. unfold has_image_extension. by rewrite splitext_lower. Qed.

(** None of the names the loop passes over has an image extension, however
    its letters are cased. *)
Lemma skipped_name_no_image (entry : string) :
  lower entry ∈ SKIPPED_NAMES -> has_image_extension entry = false.
Proof.
  intros Hskip. rewrite has_image_extension_lower.
  unfold SKIPPED_NAMES in Hskip.
  repeat (apply elem_of_cons in Hskip as [->|Hskip]; [by vm_compute|]).
  by apply elem_of_nil in Hskip.
Qed.

(** X6. [find_image_files] returns, in the order of their names, the paths
    of exactly the directory entries that are regular files and whose
    extension, letters lower-cased, is an image extension.  The list of
    names the loop passes over changes nothing: none of them has such an
    extension. *)
Theorem find_image_files_spec (photo_dir : string) (fs : photo_directory) :
  find_image_files photo_dir fs
  = map (join photo_dir)
        (List.filter
           (fun entry => isfile fs (join photo_dir entry)
                         && has_image_extension entry)
           (sorted (listdir fs))).
Proof.
  unfold find_image_files. rewrite <- flat_map_filter.
  apply (fold_left_extend _ _ _ []).
  intros acc entry. cbv zeta. fold (has_image_extension entry).
  case_bool_decide as Hskip.
  - rewrite (skipped_name_no_image _ Hskip), andb_false_r.
    by rewrite app_nil_r.
  - destruct (isfile fs (join photo_dir entry)); simpl.
    + by destruct (has_image_extension entry); [|rewrite app_nil_r].
    + by rewrite app_nil_r.
Qed.

(** A directory with a text file, a sub-directory with an image name, a
    hidden file and two images. *)
Example find_image_files_sample :
  find_image_files "/photos" sample_photo_directory
  = ["/photos/a.jpg"; "/photos/b.HEIC"]%string.
Proof. vm_compute. reflexivity. Qed.

(** ** Writing a position *)

Lemma Qabs_sign (x : Q) :
  (Qle_bool 0 x = true /\ (x == Qabs x)%Q)
  \/ (Qle_bool 0 x = false /\ (x < 0)%Q /\ (x == - Qabs x)%Q).
Proof.
  destruct (Qle_bool 0 x) eqn:Hx.
  - left. split; [done|]. apply Qle_bool_iff in Hx.
    by rewrite Qabs_pos.
  - right. split; [done|]. apply Qle_bool_false in Hx. split; [done|].
    rewrite Qabs_neg by (by apply Qlt_le_weak). by rewrite Qopp_involutive.
Qed.

(** X7. The command line that writes a position carries each coordinate as
    a magnitude that is not negative and a reference, and the two give the
    coordinate back: N, E and 0 for a value that is zero or above, S, W and
    1, with the sign flipped, for a value below zero. *)
Theorem write_gps_args_round_trip (format_float : Q -> string)
    (filepath : string) (lat lon ele : Q) :
  exists lat_ref lon_ref ele_ref : string,
    write_gps_args format_float filepath lat lon ele
    = [ "exiftool"; "-overwrite_original";
        "-GPSLatitude=" ++ format_float (Qabs lat);
        "-GPSLatitudeRef=" ++ lat_ref;
        "-GPSLongitude=" ++ format_float (Qabs lon);
        "-GPSLongitudeRef=" ++ lon_ref;
        "-GPSAltitude=" ++ format_float (Qabs ele);
        "-GPSAltitudeRef=" ++ ele_ref;
        filepath ]%string
    /\ (0 <= Qabs lat /\ 0 <= Qabs lon /\ 0 <= Qabs ele)%Q
    /\ ((lat_ref = "N"%string /\ (lat == Qabs lat)%Q)
        \/ (lat_ref = "S"%string /\ (lat < 0)%Q /\ (lat == - Qabs lat)%Q))
    /\ ((lon_ref = "E"%string /\ (lon == Qabs lon)%Q)
        \/ (lon_ref = "W"%string /\ (lon < 0)%Q /\ (lon == - Qabs lon)%Q))
    /\ ((ele_ref = "0"%string /\ (ele == Qabs ele)%Q)
        \/ (ele_ref = "1"%string /\ (ele < 0)%Q /\ (ele == - Qabs ele)%Q)).
Proof.
  unfold write_gps_args. cbv zeta.
  eexists _, _, _. split; [reflexivity|].
  split; [repeat split; apply Qabs_nonneg|].
  split; [|split].
  - destruct (Qabs_sign lat) as [[-> ?]|[-> ?]]; [by left | by right].
  - destruct (Qabs_sign lon) as [[-> ?]|[-> ?]]; [by left | by right].
  - destruct (Qabs_sign ele) as [[-> ?]|[-> ?]]; [by left | by right].
Qed.

(** X8. The command line tool and the web service write a position with the
    same exiftool command and report the same outcome. *)
Theorem async_write_gps_same (exiftool : list string -> outcome (Z * string))
    (format_float : Q -> string) (filepath : string) (lat lon ele : Q) :
  async_write_gps exiftool format_float filepath lat lon ele
  = write_gps_with_exiftool exiftool format_float filepath lat lon ele.
Proof.
  unfold async_write_gps, write_gps_with_exiftool.
  assert (async_write_gps_args format_float filepath lat lon ele
          = write_gps_args format_float filepath lat lon ele) as ->; [|done].
  unfold async_write_gps_args, write_gps_args. cbv zeta.
  by destruct (Qle_bool 0 ele).
Qed.

(** ** Reading the metadata of a photo *)

Section GatewayFacts.
Variable exiftool : list string -> outcome (Z * string).
Variable json_loads : string -> outcome (list (gmap string json)).
Variable float_of_str : string -> outcome Q.
Variable format_float : Q -> string.
Variable strptime : string -> string -> outcome datetime.
Variable int_of : string -> outcome Z.
Variable local_offset : Z -> Z.

Lemma fill_time_keeps (r : photo_metadata) (info : gmap string json) :
  let r' := fill_time strptime int_of local_offset r info in
  filename r' = filename r /\ filepath r' = filepath r /\
  has_gps r' = has_gps r /\ photo_lat r' = photo_lat r /\
  photo_lon r' = photo_lon r /\
  (photo_time r = None ->
   photo_time r' = None
   \/ exists t,
        _parse_exiftool_datetime strptime int_of local_offset info
        = Return (Some t) /\ photo_time r' = Some t).
Proof.
  unfold fill_time.
  destruct (_parse_exiftool_datetime _ _ _ info) as [[t|]|e]; cbn;
    repeat split; try done; intros Hnone; try by left.
  right. by exists t.
Qed.

Lemma fill_metadata_coherent (fp : string) (info : gmap string json) :
  coherent_metadata fp
    (fill_metadata float_of_str strptime int_of local_offset
       (empty_metadata fp) info).
Proof.
  unfold fill_metadata, coherent_metadata. cbv zeta.
  destruct (info !! "GPSLatitude"%string) as [gps_lat|];
    [destruct (info !! "GPSLongitude"%string) as [gps_lon|]|].
  - destruct (float_of float_of_str gps_lat) as [la|e].
    2:{ cbn. repeat split; try done; by intros [? ?]. }
    destruct (float_of float_of_str gps_lon) as [lo|e].
    2:{ cbn. repeat split; try done; by intros [? ?]. }
    match goal with |- context [fill_time _ _ _ ?r info] =>
      destruct (fill_time_keeps r info) as (-> & -> & -> & -> & -> & _) end.
    cbn. repeat split; by eauto.
  - match goal with |- context [fill_time _ _ _ ?r info] =>
      destruct (fill_time_keeps r info) as (-> & -> & -> & -> & -> & _) end.
    cbn. repeat split; try done; by intros [? ?].
  - match goal with |- context [fill_time _ _ _ ?r info] =>
      destruct (fill_time_keeps r info) as (-> & -> & -> & -> & -> & _) end.
    cbn. repeat split; try done; by intros [? ?].
Qed.

Lemma empty_metadata_coherent (fp : string) :
  coherent_metadata fp (empty_metadata fp).
Proof.
  unfold coherent_metadata, empty_metadata. cbn.
  repeat split; try done; by intros [? ?].
Qed.

(** X9. Reading the metadata of a photo never fails and runs exiftool once,
    to read.  The record returned is coherent in every case, also when the
    tool or a conversion fails half-way.  When the tool succeeds, [has_gps]
    says whether both GPS tags are present in the first record of its
    output. *)
Theorem get_photo_metadata_coherent (fp : string) :
  exists r,
    get_photo_metadata exiftool json_loads float_of_str strptime int_of
      local_offset fp
    = (Return r, [metadata_args fp])
    /\ coherent_metadata fp r
    /\ forall stdout info others,
         exiftool (metadata_args fp) = Return (0%Z, stdout) ->
         json_loads stdout = Return (info :: others) ->
         has_gps r
         = bool_decide (is_Some (info !! "GPSLatitude"%string)
                        /\ is_Some (info !! "GPSLongitude"%string)).
Proof.
  unfold get_photo_metadata. cbv zeta. eexists. split; [reflexivity|].
  destruct (exiftool (metadata_args fp)) as [[returncode stdout]|e].
  2:{ split; [apply empty_metadata_coherent | done]. }
  destruct (Z.eqb_spec returncode 0) as [->|Hrc]; cbn [negb].
  2:{ split; [apply empty_metadata_coherent|]. intros ? ? ? [= ? ?]. lia. }
  destruct (json_loads stdout) as [[|info others]|e] eqn:Hloads.
  - split; [apply empty_metadata_coherent|].
    intros ? ? ? [= <-] Hl. by rewrite Hloads in Hl.
  - split; [apply fill_metadata_coherent|].
    intros ? info' ? [= <-] Hl. rewrite Hloads in Hl.
    injection Hl as <- <-.
    unfold fill_metadata. cbv zeta.
    destruct (info !! "GPSLatitude"%string) as [gps_lat|];
      [destruct (info !! "GPSLongitude"%string) as [gps_lon|]|].
    + rewrite bool_decide_eq_true_2 by (split; by eexists).
      destruct (float_of float_of_str gps_lat) as [la|]; [|done].
      destruct (float_of float_of_str gps_lon) as [lo|]; [|done].
      by match goal with |- context [fill_time _ _ _ ?r info] =>
        destruct (fill_time_keeps r info) as (_ & _ & -> & _) end.
    + rewrite bool_decide_eq_false_2 by (by intros [_ [? ?]]).
      by match goal with |- context [fill_time _ _ _ ?r info] =>
        destruct (fill_time_keeps r info) as (_ & _ & -> & _) end.
    + rewrite bool_decide_eq_false_2 by (by intros [[? ?] _]).
      by match goal with |- context [fill_time _ _ _ ?r info] =>
        destruct (fill_time_keeps r info) as (_ & _ & -> & _) end.
  - split; [apply empty_metadata_coherent|].
    intros ? ? ? [= <-] Hl. by rewrite Hloads in Hl.
Qed.

End GatewayFacts.

(** ** Sequences of commands *)

Lemma io_bind_fst {A B} (m : io A) (f : A -> io B) :
  (m ≫= f).1
  = match m.1 with
    | Return a => (f a).1
    | Raise e => Raise e
    end.
Proof. unfold mbind, io_bind. by destruct (m.1). Qed.

Lemma io_bind_snd {A B} (m : io A) (f : A -> io B) :
  (m ≫= f).2
  = match m.1 with
    | Return a => m.2 ++ (f a).2
    | Raise e => m.2
    end.
Proof. unfold mbind, io_bind. by destruct (m.1). Qed.

(** ** The command line tool *)

Section CommandLineFacts.
Variable exiftool : list string -> outcome (Z * string).
Variable json_loads : string -> outcome (list (gmap string json)).
Variable float_of_str : string -> outcome Q.
Variable format_float : Q -> string.
Variable strptime : string -> string -> outcome datetime.
Variable int_of : string -> outcome Z.
Variable local_offset : Z -> Z.

Local Abbreviation metadata :=
  (metadata_of exiftool json_loads float_of_str strptime int_of local_offset).
Local Abbreviation tag :=
  (tag_one exiftool json_loads float_of_str format_float strptime int_of
     local_offset).
Local Abbreviation planned :=
  (to_write exiftool json_loads float_of_str strptime int_of local_offset).
Local Abbreviation main :=
  (main_tag_photos exiftool json_loads float_of_str format_float strptime
     int_of local_offset).
Local Abbreviation loop_command :=
  (loop_command exiftool json_loads float_of_str format_float strptime
     int_of local_offset).

Lemma get_photo_metadata_of (fp : string) :
  get_photo_metadata exiftool json_loads float_of_str strptime int_of
    local_offset fp
  = (Return (metadata fp), [metadata_args fp]).
Proof. reflexivity. Qed.

(** One turn of the loop, in full. *)
Lemma tag_one_run (trackpoints : list trackpoint) (max_gap : Z)
    (dry_run : bool) (t : tagging) (fp : string) :
  tag trackpoints max_gap dry_run t fp
  = if has_gps (metadata fp)
    then (Return (count_already_gps t), [metadata_args fp])
    else match photo_time (metadata fp) with
         | None => (Return (count_no_datetime t fp), [metadata_args fp])
         | Some _ =>
           match planned trackpoints max_gap fp with
           | None => (Return (count_no_match t fp), [metadata_args fp])
           | Some found =>
             if dry_run
             then (Return (count_tagged t), [metadata_args fp])
             else
               let args := write_gps_args format_float fp (gps_lat found)
                             (gps_lon found) (gps_ele found) in
               (match exiftool args with
                | Return completed =>
                  Return (if (completed.1 =? 0)%Z then count_tagged t
                          else count_errors t)
                | Raise e => Raise e
                end, [metadata_args fp; args])
           end
         end.
Proof.
  unfold tag_one, to_write. rewrite get_photo_metadata_of.
  cbn [mbind io_bind fst snd]. fold (metadata fp).
  destruct (has_gps (metadata fp)); [done|].
  destruct (photo_time (metadata fp)) as [pt|]; [|done].
  pose proof (interpolate_gps_returns trackpoints pt (inject_Z max_gap))
    as Hret.
  destruct (interpolate_gps trackpoints pt (inject_Z max_gap))
    as [[found|]|e]; [| |by destruct Hret]; cbn; [|done].
  destruct dry_run; [done|].
  unfold write_gps_with_exiftool, run. cbn.
  destruct (exiftool _) as [completed|e]; cbn; [|done].
  by destruct (completed.1 =? 0)%Z.
Qed.

Lemma tag_one_counts (trackpoints : list trackpoint) (max_gap : Z)
    (dry_run : bool) (t t' : tagging) (fp : string) :
  (tag trackpoints max_gap dry_run t fp).1 = Return t' ->
  handled (counts t') = S (handled (counts t))
  /\ total (counts t') = total (counts t)
  /\ length (no_gps_files t') + (no_datetime (counts t) + no_match (counts t))
     = length (no_gps_files t)
       + (no_datetime (counts t') + no_match (counts t')).
Proof.
  rewrite tag_one_run. unfold handled.
  destruct (has_gps (metadata fp)); [intros [= <-]; cbn; lia|].
  destruct (photo_time (metadata fp));
    [|intros [= <-]; cbn; rewrite length_app; cbn; lia].
  destruct (planned trackpoints max_gap fp) as [found|];
    [|intros [= <-]; cbn; rewrite length_app; cbn; lia].
  destruct dry_run; [intros [= <-]; cbn; lia|].
  cbn. destruct (exiftool _) as [completed|]; [|done].
  destruct (completed.1 =? 0)%Z; intros [= <-]; cbn; lia.
Qed.

Lemma for_each_tag_counts (trackpoints : list trackpoint) (max_gap : Z)
    (dry_run : bool) (image_files : list string) (t t' : tagging) :
  (for_each (tag trackpoints max_gap dry_run) image_files t).1 = Return t' ->
  handled (counts t') = length image_files + handled (counts t)
  /\ total (counts t') = total (counts t)
  /\ length (no_gps_files t') + (no_datetime (counts t) + no_match (counts t))
     = length (no_gps_files t)
       + (no_datetime (counts t') + no_match (counts t')).
Proof.
  revert t. induction image_files as [|fp rest IH]; intros t.
  - intros [= <-]. cbn. lia.
  - cbn [for_each]. rewrite io_bind_fst.
    destruct ((tag trackpoints max_gap dry_run t fp).1) as [t1|e] eqn:Hone;
      [|done].
    intros Hrest.
    destruct (tag_one_counts _ _ _ _ _ _ Hone) as (H1 & H2 & H3).
    destruct (IH _ Hrest) as (H4 & H5 & H6). cbn [length]. lia.
Qed.

(** X10. When the command line tool has gone through the images, its tally
    is complete: every image counts in exactly one of the five outcomes,
    the total is the number of images, and the photos set aside are as many
    as those without capture time or without match. *)
Theorem main_tally (photo_dir : string) (image_files : list string)
    (trackpoints : list trackpoint) (max_gap : Z) (dry_run : bool)
    (r : report) :
  (main photo_dir image_files trackpoints max_gap dry_run).1 = Return r ->
  let c := counts (final r) in
  already_gps c + tagged c + no_datetime c + no_match c + errors c
  = length image_files
  /\ total c = length image_files
  /\ length (no_gps_files (final r)) = no_datetime c + no_match c.
Proof.
  unfold main_tag_photos. cbv zeta. rewrite io_bind_fst.
  destruct ((for_each _ image_files _).1) as [t|e] eqn:Hloop; [|done].
  cbn [fst mret io_ret]. intros [= <-]. cbn [final].
  destruct (for_each_tag_counts _ _ _ _ _ _ Hloop) as (H1 & H2 & H3).
  unfold handled in *. cbn in *. lia.
Qed.

Lemma to_write_Some (trackpoints : list trackpoint) (max_gap : Z)
    (fp : string) (found : gps) :
  planned trackpoints max_gap fp = Some found ->
  has_gps (metadata fp) = false
  /\ exists t,
       photo_time (metadata fp) = Some t
       /\ interpolate_gps trackpoints t (inject_Z max_gap)
          = Return (Some found).
Proof.
  unfold to_write. destruct (has_gps (metadata fp)); [done|].
  destruct (photo_time (metadata fp)) as [t|]; [|done].
  destruct (interpolate_gps trackpoints t (inject_Z max_gap))
    as [[found'|]|e] eqn:Hfound; try done.
  intros [= ->]. split; [done|]. by exists t.
Qed.

(** A dry run of the loop: one read for each image, and the same count of
    write failures as at the start. *)
Lemma for_each_tag_dry (trackpoints : list trackpoint) (max_gap : Z)
    (image_files : list string) (t : tagging) :
  exists t',
    for_each (tag trackpoints max_gap true) image_files t
    = (Return t', map metadata_args image_files)
    /\ errors (counts t') = errors (counts t).
Proof.
  revert t. induction image_files as [|fp rest IH]; intros t.
  - by exists t.
  - cbn [for_each map].
    assert (exists t1,
              tag trackpoints max_gap true t fp
              = (Return t1, [metadata_args fp])
              /\ errors (counts t1) = errors (counts t))
      as (t1 & -> & Herr).
    { rewrite tag_one_run.
      destruct (has_gps (metadata fp)); [by eexists|].
      destruct (photo_time (metadata fp)); [|by eexists].
      destruct (planned trackpoints max_gap fp); by eexists. }
    destruct (IH t1) as (t' & Hrest & Herr').
    exists t'. split; [|congruence].
    unfold mbind, io_bind. cbn [fst snd]. by rewrite Hrest.
Qed.

(** X11. A dry run changes nothing: for every list of images it runs
    exiftool once per image, to read its metadata, and never to write; it
    moves no file; it counts no write failure; and it always comes to its
    end. *)
Theorem main_dry_run (photo_dir : string) (image_files : list string)
    (trackpoints : list trackpoint) (max_gap : Z) :
  exists r,
    main photo_dir image_files trackpoints max_gap true
    = (Return r, map metadata_args image_files)
    /\ moves r = []
    /\ errors (counts (final r)) = 0.
Proof.
  unfold main_tag_photos. cbv zeta.
  match goal with |- context [for_each _ _ ?start] =>
    destruct (for_each_tag_dry trackpoints max_gap image_files start)
      as (t & -> & Herr) end.
  eexists. split; [|split].
  - unfold mbind, io_bind, mret, io_ret. cbn [fst snd].
    by rewrite app_nil_r.
  - done.
  - exact Herr.
Qed.

Lemma for_each_tag_foretold (trackpoints : list trackpoint) (max_gap : Z)
    (image_files : list string) (dry real real' : tagging) :
  foretold dry real ->
  (for_each (tag trackpoints max_gap false) image_files real).1
  = Return real' ->
  exists dry',
    (for_each (tag trackpoints max_gap true) image_files dry).1 = Return dry'
    /\ foretold dry' real'.
Proof.
  revert dry real. induction image_files as [|fp rest IH]; intros dry real.
  - intros Hrel [= <-]. by exists dry.
  - cbn [for_each]. rewrite !io_bind_fst, !tag_one_run.
    intros (H1 & H2 & H3 & H4 & H5 & H6).
    destruct (has_gps (metadata fp)).
    { cbn [fst]. apply IH. unfold foretold. cbn. rewrite H5.
      repeat split; first [done | lia]. }
    destruct (photo_time (metadata fp)).
    2:{ cbn [fst]. apply IH. unfold foretold. cbn. rewrite H5.
        repeat split; first [done | lia]. }
    destruct (planned trackpoints max_gap fp) as [found|].
    2:{ cbn [fst]. apply IH. unfold foretold. cbn. rewrite H5.
        repeat split; first [done | lia]. }
    cbn [fst]. destruct (exiftool _) as [completed|e]; [|done].
    destruct (completed.1 =? 0)%Z; apply IH; unfold foretold; cbn;
      rewrite H5; repeat split; first [done | lia].
Qed.

(** X12. A dry run foretells the real run: when the real run comes to its
    end, the dry run over the same images sets aside the same photos, for
    the same reasons, and counts the same photos with a position already,
    without capture time and without match; what it counts as tagged is
    what the real run counts as tagged or as failed to write. *)
Theorem main_dry_run_foretells (photo_dir : string)
    (image_files : list string) (trackpoints : list trackpoint)
    (max_gap : Z) (real : report) :
  (main photo_dir image_files trackpoints max_gap false).1 = Return real ->
  exists dry,
    (main photo_dir image_files trackpoints max_gap true).1 = Return dry
    /\ no_gps_files (final dry) = no_gps_files (final real)
    /\ already_gps (counts (final dry)) = already_gps (counts (final real))
    /\ no_datetime (counts (final dry)) = no_datetime (counts (final real))
    /\ no_match (counts (final dry)) = no_match (counts (final real))
    /\ tagged (counts (final dry))
       = tagged (counts (final real)) + errors (counts (final real)).
Proof.
  unfold main_tag_photos. cbv zeta. rewrite !io_bind_fst.
  match goal with |- context [for_each _ _ ?start] => set (s0 := start) end.
  destruct ((for_each (tag trackpoints max_gap false) image_files s0).1)
    as [t|e] eqn:Hreal; [|done].
  cbn [fst mret io_ret]. intros [= <-].
  destruct (for_each_tag_foretold trackpoints max_gap image_files s0 s0 t)
    as (dry & Hdry & (H1 & H2 & H3 & H4 & H5 & H6));
    [by repeat split | done |].
  rewrite Hdry. eexists. split; [reflexivity|]. cbn [final].
  destruct (for_each_tag_dry trackpoints max_gap image_files s0)
    as (dry' & Hdry' & Herr).
  rewrite Hdry' in Hdry. injection Hdry as ->.
  cbn in Herr. repeat split; try done. lia.
Qed.

Lemma loop_command_weaken (trackpoints : list trackpoint) (max_gap : Z)
    (dry_run : bool) (fp : string) (rest : list string)
    (cmd : list string) :
  loop_command trackpoints max_gap dry_run rest cmd ->
  loop_command trackpoints max_gap dry_run (fp :: rest) cmd.
Proof.
  intros (fp' & Hin & Hcmd). exists fp'. split; [|done].
  by apply elem_of_cons; right.
Qed.

Lemma tag_one_commands (trackpoints : list trackpoint) (max_gap : Z)
    (dry_run : bool) (t : tagging) (fp : string) (rest : list string) :
  Forall (loop_command trackpoints max_gap dry_run (fp :: rest))
         (tag trackpoints max_gap dry_run t fp).2.
Proof.
  assert (loop_command trackpoints max_gap dry_run (fp :: rest)
            (metadata_args fp)) as Hread.
  { exists fp. split; [apply elem_of_cons; by left | by left]. }
  rewrite tag_one_run.
  destruct (has_gps (metadata fp)) eqn:Hgps; [by repeat constructor|].
  destruct (photo_time (metadata fp)) as [t0|] eqn:Htime;
    [|by repeat constructor].
  destruct (planned trackpoints max_gap fp) as [found|] eqn:Hplan;
    [|by repeat constructor].
  destruct dry_run; [by repeat constructor|].
  cbn [snd]. constructor; [done|]. constructor; [|constructor].
  exists fp. split; [apply elem_of_cons; by left|]. right.
  destruct (to_write_Some _ _ _ _ Hplan) as (_ & t1 & Ht1 & Hfound).
  split; [done|]. split; [done|]. by exists t1, found.
Qed.

Lemma for_each_tag_commands (trackpoints : list trackpoint) (max_gap : Z)
    (dry_run : bool) (image_files : list string) (t : tagging) :
  Forall (loop_command trackpoints max_gap dry_run image_files)
         (for_each (tag trackpoints max_gap dry_run) image_files t).2.
Proof.
  revert t. induction image_files as [|fp rest IH]; intros t.
  - constructor.
  - cbn [for_each]. rewrite io_bind_snd.
    pose proof (tag_one_commands trackpoints max_gap dry_run t fp rest)
      as Hone.
    destruct ((tag trackpoints max_gap dry_run t fp).1) as [t1|e]; [|done].
    apply Forall_app. split; [done|].
    eapply Forall_impl; [apply IH|]. intros cmd.
    apply loop_command_weaken.
Qed.


End CommandLineFacts.

Local Abbreviation sample_main :=
  (main_tag_photos sample_exiftool sample_json_loads sample_float_of_str
     sample_format_float sample_strptime sample_int (fun _ => 0%Z)).

Lemma main_tally_witness :
  exists r,
    (sample_main "/photos" sample_images may_timeline 3600 false).1 = Return r
    /\ let c := counts (final r) in
       already_gps c + tagged c + no_datetime c + no_match c + errors c
       = length sample_images
       /\ total c = length sample_images
       /\ length (no_gps_files (final r)) = no_datetime c + no_match c.
Proof.
  eexists. split.
  - vm_compute. reflexivity.
  - apply (main_tally sample_exiftool sample_json_loads sample_float_of_str
             sample_format_float sample_strptime sample_int (fun _ => 0%Z)
             "/photos" sample_images may_timeline 3600 false).
    vm_compute. reflexivity.
Defined.

Lemma main_dry_run_foretells_witness :
  exists real dry,
    (sample_main "/photos" sample_images may_timeline 3600 false).1
    = Return real
    /\ (sample_main "/photos" sample_images may_timeline 3600 true).1
       = Return dry
    /\ no_gps_files (final dry) = no_gps_files (final real)
    /\ tagged (counts (final dry))
       = tagged (counts (final real)) + errors (counts (final real)).
Proof.
  eexists.
  destruct (main_dry_run_foretells sample_exiftool sample_json_loads
              sample_float_of_str sample_format_float sample_strptime
              sample_int (fun _ => 0%Z)
              "/photos" sample_images may_timeline 3600 _
              ltac:(vm_compute; reflexivity))
    as (dry & Hdry & Hfiles & _ & _ & _ & Htagged).
  exists dry. split; [vm_compute; reflexivity|]. by repeat split.
Defined.

(** The sample installation: the photo with a position is left alone, the
    photo without tags is set aside, the third one is written to. *)
Example main_tag_photos_sample :
  exists r,
    (sample_main "/photos" sample_images may_timeline 3600 false).1 = Return r
    /\ counts (final r)
       = {| total := 3; already_gps := 1; tagged := 1; no_datetime := 1;
            no_match := 0; errors := 0 |}
    /\ moves r = [("/photos/b.jpg", "/photos/no_gps/b.jpg")]%string
    /\ length (sample_main "/photos" sample_images may_timeline 3600 false).2
       = 4.
Proof. eexists. split; [vm_compute; reflexivity|]. by vm_compute. Qed.

(** ** The web service *)

Section WebFacts.
Variable exiftool : list string -> outcome (Z * string).
Variable json_loads : string -> outcome (list (gmap string json)).
Variable float_of_str : string -> outcome Q.
Variable format_float : Q -> string.
Variable strptime : string -> string -> outcome datetime.
Variable int_of : string -> outcome Z.
Variable local_offset : Z -> Z.
Variable PHOTO_DIR : string.
Variable exists_file : string -> bool.

Local Abbreviation metadata :=
  (metadata_of exiftool json_loads float_of_str strptime int_of local_offset).
Local Abbreviation planned :=
  (to_write exiftool json_loads float_of_str strptime int_of local_offset).
Local Abbreviation one :=
  (process_one exiftool json_loads float_of_str format_float strptime int_of
     local_offset PHOTO_DIR exists_file).
Local Abbreviation auto :=
  (api_auto_geotag exiftool json_loads float_of_str format_float strptime
     int_of local_offset PHOTO_DIR exists_file).

Lemma async_write_gps_args_same (fp : string) (lat lon ele : Q) :
  async_write_gps_args format_float fp lat lon ele
  = write_gps_args format_float fp lat lon ele.
Proof.
  unfold async_write_gps_args, write_gps_args. cbv zeta.
  by destruct (Qle_bool 0 ele).
Qed.

(** One task of the automatic tagging, in full. *)
Lemma process_one_run (trackpoints : list trackpoint) (max_gap : Z)
    (filename : string) :
  let fp := join PHOTO_DIR filename in
  one trackpoints max_gap filename
  = if negb (exists_file fp) then (Return (FileMissing filename), [])
    else if has_gps (metadata fp)
    then (Return (AlreadyTagged filename (photo_lat (metadata fp))
                                (photo_lon (metadata fp))),
          [metadata_args fp])
    else match photo_time (metadata fp) with
         | None => (Return (NoTime filename), [metadata_args fp])
         | Some _ =>
           match planned trackpoints max_gap fp with
           | None => (Return (NoMatch filename), [metadata_args fp])
           | Some found =>
             let args := write_gps_args format_float fp (gps_lat found)
                           (gps_lon found) (gps_ele found) in
             (match exiftool args with
              | Return proc =>
                Return (Written filename (proc.1 =? 0)%Z (gps_lat found)
                          (gps_lon found) (gps_ele found))
              | Raise e => Raise e
              end, [metadata_args fp; args])
           end
         end.
Proof.
  intros fp. unfold process_one, to_write. cbv zeta. fold fp.
  destruct (negb (exists_file fp)); [done|].
  change (async_get_photo_metadata exiftool json_loads float_of_str strptime
            int_of local_offset fp)
    with (Return (metadata fp), [metadata_args fp] : list (list string)).
  cbn [mbind io_bind fst snd].
  destruct (has_gps (metadata fp)); [done|].
  destruct (photo_time (metadata fp)) as [pt|]; [|done].
  pose proof (interpolate_gps_returns trackpoints pt (inject_Z max_gap))
    as Hret.
  destruct (interpolate_gps trackpoints pt (inject_Z max_gap))
    as [[found|]|e]; [| |by destruct Hret]; cbn; [|done].
  unfold async_write_gps, run. rewrite async_write_gps_args_same. cbn.
  by destruct (exiftool _) as [proc|e].
Qed.

(** X14. A task of the automatic tagging answers for the file it was given.
    It reports success only when the file exists, had no position, and
    exiftool has written, with exit status 0, the position interpolated at
    its capture time; success goes with the one reason that says so.  For a
    missing file it runs no command, and for a photo that already has a
    position it runs the metadata read only. *)
Theorem process_one_outcome (trackpoints : list trackpoint) (max_gap : Z)
    (filename : string) (r : auto_result) :
  let fp := join PHOTO_DIR filename in
  (one trackpoints max_gap filename).1 = Return r ->
  result_filename r = filename
  /\ (success r = true <-> reason r = "GPS 기록 완료"%string)
  /\ (success r = true ->
      exists_file fp = true /\ has_gps (metadata fp) = false /\
      exists found stdout,
        planned trackpoints max_gap fp = Some found
        /\ exiftool (write_gps_args format_float fp (gps_lat found)
                       (gps_lon found) (gps_ele found))
           = Return (0%Z, stdout)
        /\ r = Written filename true (gps_lat found) (gps_lon found)
                 (gps_ele found))
  /\ (exists_file fp = false -> (one trackpoints max_gap filename).2 = [])
  /\ (has_gps (metadata fp) = true ->
      forall cmd, cmd ∈ (one trackpoints max_gap filename).2 ->
                  cmd = metadata_args fp).
Proof.
  intros fp. rewrite process_one_run. cbv zeta. fold fp.
  destruct (exists_file fp) eqn:Hfile; cbn [negb].
  2:{ intros [= <-]. cbn. repeat split; try done. intros _ cmd Hcmd.
      by apply elem_of_nil in Hcmd. }
  destruct (has_gps (metadata fp)) eqn:Hgps.
  { intros [= <-]. cbn. repeat split; try done. intros _ cmd Hcmd.
    by apply list_elem_of_singleton in Hcmd. }
  destruct (photo_time (metadata fp)) as [pt|].
  2:{ intros [= <-]. cbn. repeat split; done. }
  destruct (planned trackpoints max_gap fp) as [found|].
  2:{ intros [= <-]. cbn. repeat split; done. }
  cbn [fst snd].
  destruct (exiftool _) as [[rc stdout]|e] eqn:Hrun; [|done].
  intros [= <-]. cbn.
  destruct (Z.eqb_spec rc 0) as [->|Hrc]; cbn.
  - split; [done|]. split; [done|]. split; [|done].
    intros _. split; [done|]. split; [done|]. by exists found, stdout.
  - repeat split; done.
Qed.

Lemma process_one_filename (trackpoints : list trackpoint) (max_gap : Z)
    (filename : string) (r : auto_result) :
  (one trackpoints max_gap filename).1 = Return r ->
  result_filename r = filename.
Proof.
  rewrite process_one_run. cbv zeta.
  destruct (negb _); [by intros [= <-]|].
  destruct (has_gps _); [by intros [= <-]|].
  destruct (photo_time _); [|by intros [= <-]].
  destruct (planned _ _ _); [|by intros [= <-]].
  cbn [fst]. destruct (exiftool _); [|done]. by intros [= <-].
Qed.

Lemma for_all_filenames (trackpoints : list trackpoint) (max_gap : Z)
    (filenames : list string) (results : list auto_result) :
  (for_all (one trackpoints max_gap) filenames).1 = Return results ->
  map result_filename results = filenames.
Proof.
  revert results. induction filenames as [|f rest IH]; intros results.
  - by intros [= <-].
  - cbn [for_all]. rewrite io_bind_fst.
    destruct ((one trackpoints max_gap f).1) as [r|e] eqn:Hone; [|done].
    rewrite io_bind_fst.
    destruct ((for_all (one trackpoints max_gap) rest).1) as [rs|e] eqn:Hrest;
      [|done].
    cbn. intros [= <-]. cbn.
    by rewrite (process_one_filename _ _ _ _ Hone), (IH rs).
Qed.

(** X15. The automatic tagging of the web service stops before it touches
    anything when there is no track directory or no trackpoint with a time:
    the answer is an error 400 and no command is run.  When it answers with
    results, there is one result for each filename of the request, in the
    order of the request. *)
Theorem api_auto_geotag_outcome (gpx_dir : option gpx_directory)
    (filenames : list string) (max_gap : Z) :
  (match gpx_dir with
   | None => True
   | Some gpx_dir => parse_gpx_files gpx_dir = []
   end ->
   exists message,
     auto gpx_dir filenames max_gap = (Return (Error 400 message), []))
  /\ (forall results,
        (auto gpx_dir filenames max_gap).1 = Return (Ok results) ->
        map result_filename results = filenames).
Proof.
  unfold api_auto_geotag. split.
  - destruct gpx_dir as [d|]; [|by eexists].
    intros ->. by eexists.
  - intros results. destruct gpx_dir as [d|]; [|done].
    destruct (parse_gpx_files d) as [|p tl] eqn:Htl; [done|].
    rewrite io_bind_fst.
    destruct ((for_all _ filenames).1) as [rs|e] eqn:Hall; [|done].
    cbn. intros [= <-]. by apply (for_all_filenames (p :: tl) max_gap).
Qed.

End WebFacts.

Lemma api_auto_geotag_outcome_witness :
  exists message,
    api_auto_geotag sample_exiftool sample_json_loads sample_float_of_str
      sample_format_float sample_strptime sample_int (fun _ => 0%Z)
      "/photos" (fun _ => true) None sample_images 3600
    = (Return (Error 400 message), []).
Proof.
  apply (proj1 (api_auto_geotag_outcome sample_exiftool sample_json_loads
                  sample_float_of_str sample_format_float sample_strptime
                  sample_int (fun _ => 0%Z) "/photos" (fun _ => true)
                  None sample_images 3600)).
  exact I.
Defined.

Lemma process_one_outcome_witness :
  exists r,
    (process_one sample_exiftool sample_json_loads sample_float_of_str
       sample_format_float sample_strptime sample_int (fun _ => 0%Z)
       "/photos" (fun _ => true) may_timeline 3600 "c.jpg").1 = Return r
    /\ result_filename r = "c.jpg"%string
    /\ success r = true.
Proof.
  eexists. split; [vm_compute; reflexivity|].
  split.
  - eapply (process_one_outcome sample_exiftool sample_json_loads
              sample_float_of_str sample_format_float sample_strptime
              sample_int (fun _ => 0%Z) "/photos" (fun _ => true)
              may_timeline 3600 "c.jpg").
    vm_compute. reflexivity.
  - reflexivity.
Defined.

(** ** Time zones in the normalizer *)

Section TimeZoneFacts.
Variable strptime : string -> string -> outcome datetime.
Variable int_of : string -> outcome Z.

Lemma localize_with_offset (local_offset : Z -> Z) (t : datetime)
    (tag : json) (offset : Z) :
  truthy tag = true ->
  offset_of int_of tag = Return offset ->
  localize int_of local_offset t (Some tag)
  = Return (match tzinfo t with
            | Some own => wall t - own
            | None => wall t - offset
            end)%Z.
Proof.
  intros Htruthy Hoffset. unfold localize.
  destruct t as [w [own|]]; cbn; [done|].
  by rewrite Htruthy, Hoffset.
Qed.

(** X16. When the offset tag of a photo can be read, the host's time zone
    plays no part in the capture instant: the normalizer gives the same
    result on every host, and a timestamp read without a zone of its own is
    the wall-clock reading less the offset of the tag. *)
Theorem parse_exiftool_datetime_offset (info : gmap string json)
    (tag : json) (offset : Z) (local1 local2 : Z -> Z) :
  offset_tag info = Some tag ->
  truthy tag = true ->
  offset_of int_of tag = Return offset ->
  _parse_exiftool_datetime strptime int_of local1 info
  = _parse_exiftool_datetime strptime int_of local2 info
  /\ forall date_str t,
       raw_timestamp info = Some (JString date_str) ->
       date_str <> EmptyString -> date_str <> ZERO_DATE ->
       try_formats strptime (strip date_str) FORMATS = Return (Some t) ->
       tzinfo t = None ->
       _parse_exiftool_datetime strptime int_of local1 info
       = Return (Some (wall t - offset)%Z).
Proof.
  intros Htag Htruthy Hoffset.
  assert (forall loc t,
            localize int_of loc t (Some tag)
            = Return (match tzinfo t with
                      | Some own => wall t - own
                      | None => wall t - offset
                      end)%Z) as Hloc
    by (intros; by apply localize_with_offset).
  split.
  - unfold _parse_exiftool_datetime. cbv zeta. fold (offset_tag info).
    rewrite Htag.
    destruct (or_else _ _) as [date_str|]; [|done].
    destruct (negb _ || _); [done|].
    destruct (strip_of date_str) as [stripped|e]; [|done].
    cbn [mbind outcome_bind].
    destruct (try_formats strptime stripped FORMATS) as [[t|]|e];
      cbn [mbind outcome_bind]; [by rewrite !Hloc | | done].
    destruct (getitem _ 0%Z) as [whole|e]; cbn [mbind outcome_bind]; [|done].
    destruct (strptime whole _) as [t|e]; [by rewrite !Hloc | done].
  - intros date_str t Hraw Hne Hnz Hparse Hnaive.
    unfold _parse_exiftool_datetime. cbv zeta.
    fold (offset_tag info) (raw_timestamp info). rewrite Htag, Hraw.
    assert (negb (truthy (JString date_str))
            || equals_str (JString date_str) ZERO_DATE = false) as ->.
    { apply orb_false_iff. split.
      - by destruct date_str.
      - cbn. by apply String.eqb_neq. }
    cbn [strip_of mbind outcome_bind]. rewrite Hparse.
    cbn [mbind outcome_bind]. rewrite Hloc, Hnaive. done.
Qed.

End TimeZoneFacts.

Lemma parse_exiftool_datetime_offset_witness :
  _parse_exiftool_datetime sample_strptime sample_int (fun _ => 0%Z)
    sample_info
  = _parse_exiftool_datetime sample_strptime sample_int
      (fun _ => 3600000000%Z) sample_info
  /\ forall date_str t,
       raw_timestamp sample_info = Some (JString date_str) ->
       date_str <> EmptyString -> date_str <> ZERO_DATE ->
       try_formats sample_strptime (strip date_str) FORMATS
       = Return (Some t) ->
       tzinfo t = None ->
       _parse_exiftool_datetime sample_strptime sample_int (fun _ => 0%Z)
         sample_info
       = Return (Some (wall t - 32400000000)%Z).
Proof.
  apply (parse_exiftool_datetime_offset sample_strptime sample_int
           sample_info (JString "+09:00") 32400000000).
  - vm_compute. reflexivity.
  - reflexivity.
  - vm_compute. reflexivity.
Defined.

(** ** Reading an offset *)

Lemma rstrip_plain (s : string) :
  all_chars (fun c => negb (isspace c)) s = true -> rstrip s = s.
Proof.
  induction s as [|c rest IH]; [done|]. cbn [all_chars rstrip].
  intros [Hc Hrest]%andb_true_iff. rewrite (IH Hrest).
  apply negb_true_iff in Hc. rewrite Hc. by destruct rest.
Qed.

Lemma split_plain (sep : ascii) (s : string) :
  all_chars (fun c => negb (Ascii.eqb c sep)) s = true -> split sep s = [s].
Proof.
  induction s as [|c rest IH]; [done|]. cbn [all_chars split].
  intros [Hc Hrest]%andb_true_iff. apply negb_true_iff in Hc.
  by rewrite Hc, (IH Hrest).
Qed.

Lemma split_app (sep : ascii) (s rest : string) :
  all_chars (fun c => negb (Ascii.eqb c sep)) s = true ->
  split sep (s ++ String sep rest) = s :: split sep rest.
Proof.
  induction s as [|c s' IH]; simpl.
  - intros _. by rewrite Ascii.eqb_refl.
  - intros [Hc Hrest]%andb_true_iff. apply negb_true_iff in Hc.
    by rewrite Hc, (IH Hrest).
Qed.

Lemma all_chars_impl (ok ok' : ascii -> bool) (s : string) :
  (forall c, ok c = true -> ok' c = true) ->
  all_chars ok s = true -> all_chars ok' s = true.
Proof.
  intros Himpl. induction s as [|c rest IH]; [done|]. cbn [all_chars].
  intros [Hc Hrest]%andb_true_iff. by rewrite (Himpl c Hc), (IH Hrest).
Qed.

Lemma all_chars_app (ok : ascii -> bool) (s s' : string) :
  all_chars ok (s ++ s') = all_chars ok s && all_chars ok s'.
Proof.
  induction s as [|c rest IH]; [done|]. simpl.
  by rewrite IH, andb_assoc.
Qed.

Lemma plain_field_no_space (s : string) :
  plain_field s = true -> all_chars (fun c => negb (isspace c)) s = true.
Proof.
  apply all_chars_impl. by intros c [? _]%andb_true_iff.
Qed.

Lemma plain_field_no_colon (s : string) :
  plain_field s = true ->
  all_chars (fun c => negb (Ascii.eqb c ":"%char)) s = true.
Proof.
  apply all_chars_impl. by intros c [_ ?]%andb_true_iff.
Qed.

Lemma timezone_of_small (hours minutes : Z) :
  (-86400 < hours * 3600 + minutes * 60 < 86400)%Z ->
  timezone_of hours minutes
  = Return ((hours * 3600 + minutes * 60) * 1000000)%Z.
Proof.
  intros Hsmall. unfold timezone_of. cbv zeta.
  set (offset := ((hours * 3600 + minutes * 60) * 1000000)%Z).
  assert (-86400000000 < offset < 86400000000)%Z as Hoff
    by (unfold offset; lia).
  assert (-1 <= offset / 86400000000 <= 0)%Z as Hdays.
  { split.
    - apply Z.div_le_lower_bound; lia.
    - apply Z.lt_succ_r. apply Z.div_lt_upper_bound; lia. }
  rewrite (proj2 (Z.ltb_ge _ _)) by lia.
  rewrite (proj2 (Z.ltb_ge _ _)) by lia. cbn [orb].
  rewrite (proj2 (Z.ltb_lt _ _)) by lia.
  by rewrite (proj2 (Z.ltb_lt _ _)) by lia.
Qed.

(** X17. An offset tag written as a sign, the hours, a colon and the
    minutes is read as that many hours and minutes, east of Greenwich after
    a plus sign and west of it after any other first character: the sign
    applies to the minutes as to the hours.  The amount must stay below 24
    hours. *)
Theorem offset_of_hours_minutes (int_of : string -> outcome Z)
    (c : ascii) (hh mm : string) (h m : Z) :
  isspace c = false ->
  plain_field hh = true -> plain_field mm = true ->
  int_of hh = Return h -> int_of mm = Return m ->
  (-86400 < h * 3600 + m * 60 < 86400)%Z ->
  offset_of int_of (JString (String c (hh ++ String ":" mm)))
  = Return (sign_of c * ((h * 3600 + m * 60) * 1000000))%Z.
Proof.
  intros Hc Hhh Hmm Hh Hm Hsmall. unfold offset_of, strip_of, strip.
  assert (lstrip (String c (hh ++ String ":" mm))
          = String c (hh ++ String ":" mm)) as ->
    by (cbn [lstrip]; by rewrite Hc).
  rewrite rstrip_plain.
  2:{ cbn [all_chars]. rewrite Hc. cbn [negb andb].
      rewrite all_chars_app. cbn [all_chars].
      by rewrite (plain_field_no_space _ Hhh), (plain_field_no_space _ Hmm). }
  cbn [mbind outcome_bind first_char from_second].
  rewrite split_app by (by apply plain_field_no_colon).
  rewrite split_plain by (by apply plain_field_no_colon).
  change (getitem [hh; mm] 0%Z) with (Return hh).
  change (getitem [hh; mm] 1%Z) with (Return mm).
  cbn [mbind outcome_bind length Nat.ltb Nat.leb]. rewrite Hh.
  cbn [mbind outcome_bind]. rewrite Hm. cbn [mbind outcome_bind].
  fold (sign_of c).
  rewrite timezone_of_small by (unfold sign_of; destruct (Ascii.eqb c "+"); lia).
  f_equal. lia.
Qed.

Lemma offset_of_hours_minutes_witness :
  offset_of sample_int (JString (String "+" ("09" ++ String ":" "00")))
  = Return (sign_of "+" * ((9 * 3600 + 0 * 60) * 1000000))%Z.
Proof.
  apply (offset_of_hours_minutes sample_int "+"%char "09" "00" 9 0).
  - reflexivity.
  - reflexivity.
  - reflexivity.
  - reflexivity.
  - reflexivity.
  - lia.
Defined.

(** ** Paths put together and taken apart *)

Lemma basename_plain (entry : string) :
  has_slash entry = false -> basename entry = entry.
Proof.
  destruct entry as [|c rest]; [done|]. cbn [has_slash basename].
  by intros ->.
Qed.

Lemma has_slash_app (a b : string) :
  has_slash (a ++ b) = has_slash a || has_slash b.
Proof.
  induction a as [|c rest IH]; [done|]. simpl. by rewrite IH, orb_assoc.
Qed.

Lemma basename_after_slash (a entry : string) :
  has_slash entry = false -> basename (a ++ String "/" entry) = entry.
Proof.
  intros Hentry. induction a as [|c rest IH]; simpl.
  - by apply basename_plain.
  - assert (has_slash (rest ++ String "/" entry) = true) as ->.
    { rewrite has_slash_app. apply orb_true_iff. by right. }
    by rewrite orb_true_r.
Qed.

Lemma ends_with_slash_split (a : string) :
  ends_with_slash a = true -> exists b, a = (b ++ "/")%string.
Proof.
  induction a as [|c rest IH]; [done|]. cbn [ends_with_slash].
  destruct rest as [|c' rest'].
  - intros ->%Ascii.eqb_eq. by exists EmptyString.
  - intros [b ->]%IH. by exists (String c b).
Qed.

Lemma join_relative (photo_dir entry : string) :
  has_slash entry = false ->
  join photo_dir entry
  = match photo_dir with
    | EmptyString => entry
    | String _ _ =>
      if ends_with_slash photo_dir then (photo_dir ++ entry)%string
      else (photo_dir ++ String "/" entry)%string
    end.
Proof.
  unfold join. destruct entry as [|c rest]; [done|].
  cbn [has_slash]. intros [Hc _]%orb_false_iff.
  destruct c as [[] [] [] [] [] [] [] []]; try reflexivity. by cbn in Hc.
Qed.

Lemma string_app_assoc (a b c : string) :
  ((a ++ b) ++ c = a ++ (b ++ c))%string.
Proof.
  induction a as [|x a IH]; [done|].
  change (String x ((a ++ b) ++ c) = String x (a ++ (b ++ c)))%string.
  by rewrite IH.
Qed.

(** The last component of a path put together by [join] is the name that
    was joined, when this name holds no slash. *)
Lemma basename_join (photo_dir entry : string) :
  has_slash entry = false -> basename (join photo_dir entry) = entry.
Proof.
  intros Hentry. rewrite join_relative by done.
  destruct photo_dir as [|d dir] eqn:Hdir; [by apply basename_plain|].
  rewrite <- Hdir. clear Hdir.
  destruct (ends_with_slash photo_dir) eqn:Hend.
  - apply ends_with_slash_split in Hend as [b ->].
    rewrite string_app_assoc. by apply basename_after_slash.
  - by apply basename_after_slash.
Qed.

Lemma has_slash_basename (path : string) : has_slash (basename path) = false.
Proof.
  induction path as [|c rest IH]; [done|]. cbn [basename].
  destruct (Ascii.eqb c "/" || has_slash rest) eqn:Hc; [done|].
  exact Hc.
Qed.

(** ** What a run of several tasks returns *)

Lemma for_all_returns {A B} (f : A -> io B) (l : list A) (results : list B) :
  (for_all f l).1 = Return results ->
  Forall2 (fun x r => (f x).1 = Return r) l results
  /\ (for_all f l).2 = concat (map (fun x => (f x).2) l).
Proof.
  revert results. induction l as [|x rest IH]; intros results.
  - intros [= <-]. by split.
  - cbn [for_all map concat]. rewrite io_bind_fst, io_bind_snd.
    destruct ((f x).1) as [r|e] eqn:Hone; [|done].
    rewrite io_bind_fst, io_bind_snd.
    destruct ((for_all f rest).1) as [rs|e] eqn:Hrest; [|done].
    cbn. intros [= <-]. destruct (IH rs eq_refl) as [Hall Hcmds].
    split; [by constructor|]. by rewrite app_nil_r, Hcmds.
Qed.

Lemma elem_of_concat {A} (x : A) (ls : list (list A)) :
  x ∈ concat ls <-> exists l, x ∈ l /\ l ∈ ls.
Proof.
  induction ls as [|l0 ls IH]; cbn [concat].
  - split; [by intros ?%elem_of_nil|]. by intros (l & _ & ?%elem_of_nil).
  - rewrite elem_of_app, IH. split.
    + intros [Hx|(l & Hx & Hl)].
      * exists l0. split; [done|]. by left.
      * exists l. split; [done|]. by right.
    + intros (l & Hx & [->|Hl]%elem_of_cons); [by left|].
      right. by exists l.
Qed.

(** ** The tasks of the web service, side by side *)

Section WebAgreement.
Variable exiftool : list string -> outcome (Z * string).
Variable json_loads : string -> outcome (list (gmap string json)).
Variable float_of_str : string -> outcome Q.
Variable format_float : Q -> string.
Variable strptime : string -> string -> outcome datetime.
Variable int_of : string -> outcome Z.
Variable local_offset : Z -> Z.
Variable PHOTO_DIR : string.
Variable exists_file : string -> bool.

Local Abbreviation metadata :=
  (metadata_of exiftool json_loads float_of_str strptime int_of local_offset).
Local Abbreviation one :=
  (process_one exiftool json_loads float_of_str format_float strptime int_of
     local_offset PHOTO_DIR exists_file).
Local Abbreviation manual :=
  (api_manual_geotag exiftool format_float PHOTO_DIR exists_file).
Local Abbreviation batch_one :=
  (batch_process_one exiftool format_float PHOTO_DIR exists_file).
Local Abbreviation batch :=
  (api_batch_manual_geotag exiftool format_float PHOTO_DIR exists_file).

(** X18. What the scan shows is what the automatic tagging does.  For a
    file that exists, a photo the scan reports as matched is written with
    exactly the position the scan shows, after one read of its metadata;
    a photo the scan reports otherwise is only read, and the answer carries
    no success and the reason that goes with the status of the scan. *)
Theorem scan_foretells_auto_geotag (trackpoints : list trackpoint)
    (max_gap : Z) (filename : string) (s : scanned_photo) :
  let fp := join PHOTO_DIR filename in
  exists_file fp = true ->
  match_photo trackpoints (inject_Z max_gap) (metadata fp) = Return s ->
  (status s = "matched"%string ->
   exists lat lon ele,
     matched_lat s = Some lat /\ matched_lon s = Some lon
     /\ matched_ele s = Some ele
     /\ (one trackpoints max_gap filename).2
        = [metadata_args fp; write_gps_args format_float fp lat lon ele]
     /\ forall r, (one trackpoints max_gap filename).1 = Return r ->
                  exists ok, r = Written filename ok lat lon ele)
  /\ (status s <> "matched"%string ->
      exists r,
        one trackpoints max_gap filename = (Return r, [metadata_args fp])
        /\ success r = false
        /\ (status s = "has_gps"%string -> reason r = "GPS 이미 존재"%string)
        /\ (status s = "no_time"%string -> reason r = "촬영 시각 없음"%string)
        /\ (status s = "no_match"%string ->
            reason r = "GPX 매칭 실패"%string)).
Proof.
  intros fp Hfile. rewrite process_one_run. cbv zeta. fold fp.
  rewrite Hfile. cbn [negb].
  unfold match_photo, match_photo_with, to_write.
  destruct (has_gps (metadata fp)).
  { intros [= <-]. cbn. split; [done|]. intros _. eexists.
    split; [reflexivity|]. by repeat split. }
  destruct (photo_time (metadata fp)) as [pt|].
  2:{ intros [= <-]. cbn. split; [done|]. intros _. eexists.
      split; [reflexivity|]. by repeat split. }
  cbn [mbind outcome_bind].
  destruct (interpolate_gps trackpoints pt (inject_Z max_gap))
    as [[found|]|e]; [| |done].
  - intros [= <-]. cbn. split; [|done]. intros _.
    exists (gps_lat found), (gps_lon found), (gps_ele found).
    repeat split. intros r. destruct (exiftool _) as [proc|e]; [|done].
    intros [= <-]. by eexists.
  - intros [= <-]. cbn. split; [done|]. intros _. eexists.
    split; [reflexivity|]. by repeat split.
Qed.

(** One manual request, and one item of a batch, in full. *)
Lemma api_manual_geotag_run (filename : string) (lat lon ele : Q) :
  let fp := join PHOTO_DIR filename in
  manual filename lat lon ele
  = if negb (exists_file fp) then (Return (Error 404 "파일 없음"), [])
    else (match exiftool (async_write_gps_args format_float fp lat lon ele)
          with
          | Return proc =>
            Return (if (proc.1 =? 0)%Z then Ok (filename, lat, lon)
                    else Error 500 "GPS 기록 실패")
          | Raise e => Raise e
          end, [async_write_gps_args format_float fp lat lon ele]).
Proof.
  intros fp. unfold api_manual_geotag. cbv zeta. fold fp.
  destruct (negb (exists_file fp)); [done|].
  unfold async_write_gps, run. cbn.
  destruct (exiftool _) as [proc|e]; [|done]. cbn.
  by destruct (proc.1 =? 0)%Z.
Qed.

Lemma batch_process_one_run (item : web.ManualGeotagRequest) :
  let fp := join PHOTO_DIR (web.filename item) in
  let args := async_write_gps_args format_float fp (web.lat item)
                (web.lon item) (web.ele item) in
  batch_one item
  = if negb (exists_file fp)
    then (Return (ItemMissing (web.filename item)), [])
    else (match exiftool args with
          | Return proc =>
            Return (ItemWritten (web.filename item) (proc.1 =? 0)%Z
                      (web.lat item) (web.lon item))
          | Raise e => Raise e
          end, [args]).
Proof.
  intros fp args. unfold batch_process_one. cbv zeta. fold fp.
  destruct (negb (exists_file fp)); [done|].
  unfold async_write_gps, run. fold args. cbn.
  by destruct (exiftool args) as [proc|e].
Qed.

(** X19. A batch of manual requests does, item by item, what the single
    request does: when the batch returns, it has one result for each item,
    for the file of that item, and the result reports success exactly when
    the single request for the same file and position would be answered
    with the success body.  The commands run are the writes of the items
    whose file exists, and nothing else. *)
Theorem api_batch_manual_geotag_agrees
    (items : list web.ManualGeotagRequest) (results : list manual_result) :
  (batch items).1 = Return results ->
  Forall2
    (fun item r =>
       manual_filename r = web.filename item
       /\ (manual_success r = true <->
           (manual (web.filename item) (web.lat item) (web.lon item)
              (web.ele item)).1
           = Return (Ok (web.filename item, web.lat item, web.lon item))))
    items results
  /\ forall cmd,
       cmd ∈ (batch items).2 <->
       exists item,
         item ∈ items
         /\ exists_file (join PHOTO_DIR (web.filename item)) = true
         /\ cmd = async_write_gps_args format_float
                    (join PHOTO_DIR (web.filename item))
                    (web.lat item) (web.lon item) (web.ele item).
Proof.
  unfold api_batch_manual_geotag. intros Hall.
  apply for_all_returns in Hall as [Hall ->]. split.
  - eapply Forall2_impl; [exact Hall|]. intros item r. cbv beta.
    rewrite batch_process_one_run, api_manual_geotag_run. cbv zeta.
    destruct (negb (exists_file _)).
    { intros [= <-]. cbn. split; [done|]. by split. }
    cbn [fst]. destruct (exiftool _) as [proc|e]; [|done].
    intros [= <-]. cbn. split; [done|].
    destruct (proc.1 =? 0)%Z; by split.
  - intros cmd. rewrite elem_of_concat. split.
    + intros (cmds & Hcmd & (item & <- & Hitem%list_elem_of_In)
                            %list_elem_of_In%in_map_iff).
      rewrite batch_process_one_run in Hcmd. cbv zeta in Hcmd.
      destruct (exists_file _) eqn:Hfile; cbn in Hcmd.
      * apply list_elem_of_singleton in Hcmd as ->. by exists item.
      * by apply elem_of_nil in Hcmd.
    + intros (item & Hitem & Hfile & ->). exists (batch_one item).2.
      split.
      * rewrite batch_process_one_run. cbv zeta. rewrite Hfile. cbn.
        by apply list_elem_of_singleton.
      * apply list_elem_of_In, in_map_iff. exists item.
        split; [done|]. by apply list_elem_of_In.
Qed.

End WebAgreement.

Lemma scan_foretells_auto_geotag_witness :
  exists lat lon ele,
    (process_one sample_exiftool sample_json_loads sample_float_of_str
       sample_format_float sample_strptime sample_int (fun _ => 0%Z)
       "/photos" (fun _ => true) may_timeline 3600 "c.jpg").2
    = [metadata_args "/photos/c.jpg";
       write_gps_args sample_format_float "/photos/c.jpg" lat lon ele].
Proof.
  destruct (proj1 (scan_foretells_auto_geotag sample_exiftool
                     sample_json_loads sample_float_of_str
                     sample_format_float sample_strptime sample_int
                     (fun _ => 0%Z) "/photos" (fun _ => true)
                     may_timeline 3600 "c.jpg" _ eq_refl
                     ltac:(vm_compute; reflexivity)) eq_refl)
    as (la & lo & el & _ & _ & _ & Hcmds & _).
  exists la, lo, el. exact Hcmds.
Defined.

(** A batch of two: the file of the first item exists, the file of the
    second does not. *)
Lemma api_batch_manual_geotag_agrees_witness :
  exists results,
    (api_batch_manual_geotag sample_exiftool sample_format_float "/photos"
       only_c sample_items).1 = Return results
    /\ Forall2
         (fun item r =>
            manual_filename r = web.filename item
            /\ (manual_success r = true <->
                (api_manual_geotag sample_exiftool sample_format_float
                   "/photos" only_c
                   (web.filename item) (web.lat item) (web.lon item)
                   (web.ele item)).1
                = Return (Ok (web.filename item, web.lat item,
                              web.lon item))))
         sample_items results.
Proof.
  eexists. split; [vm_compute; reflexivity|].
  apply (proj1 (api_batch_manual_geotag_agrees sample_exiftool
                  sample_format_float "/photos" only_c sample_items
                  _ ltac:(vm_compute; reflexivity))).
Defined.

(** ** From the directory to the web service and back *)

Lemma find_image_files_elem (photo_dir : string) (fs : photo_directory)
    (fp : string) :
  fp ∈ find_image_files photo_dir fs ->
  exists entry,
    entry ∈ listdir fs /\ fp = join photo_dir entry
    /\ isfile fs fp = true /\ has_image_extension entry = true.
Proof.
  unfold find_image_files.
  rewrite (fold_left_extend _
             (fun entry => if isfile fs (join photo_dir entry)
                              && has_image_extension entry
                           then [join photo_dir entry] else [])).
  - cbn [app]. intros (entry & Hentry & Hfp)%list_elem_of_In%in_flat_map.
    destruct (isfile fs (join photo_dir entry)) eqn:Hfile; [|done].
    destruct (has_image_extension entry) eqn:Hext; [|done].
    destruct Hfp as [<-|[]]. exists entry. repeat split; try done.
    apply list_elem_of_In.
    eapply Permutation_in; [apply stable_sort_perm|exact Hentry].
  - intros acc entry. cbv zeta. fold (has_image_extension entry).
    case_bool_decide as Hskip.
    + rewrite (skipped_name_no_image _ Hskip), andb_false_r.
      by rewrite app_nil_r.
    + destruct (isfile fs (join photo_dir entry)); simpl.
      * by destruct (has_image_extension entry); [|rewrite app_nil_r].
      * by rewrite app_nil_r.
Qed.

Section RoundTrip.
Variable exiftool : list string -> outcome (Z * string).
Variable json_loads : string -> outcome (list (gmap string json)).
Variable float_of_str : string -> outcome Q.
Variable format_float : Q -> string.
Variable strptime : string -> string -> outcome datetime.
Variable int_of : string -> outcome Z.
Variable local_offset : Z -> Z.

Local Abbreviation metadata :=
  (metadata_of exiftool json_loads float_of_str strptime int_of local_offset).
Local Abbreviation one :=
  (process_one exiftool json_loads float_of_str format_float strptime int_of
     local_offset).
Local Abbreviation tag :=
  (tag_one exiftool json_loads float_of_str format_float strptime int_of
     local_offset).
Local Abbreviation planned :=
  (to_write exiftool json_loads float_of_str strptime int_of local_offset).
Local Abbreviation aside :=
  (set_aside exiftool json_loads float_of_str strptime int_of local_offset).
Local Abbreviation main :=
  (main_tag_photos exiftool json_loads float_of_str format_float strptime
     int_of local_offset).

Lemma metadata_of_coherent (fp : string) : coherent_metadata fp (metadata fp).
Proof.
  unfold metadata_of, get_photo_metadata. cbv zeta. cbn [fst].
  destruct (exiftool (metadata_args fp)) as [[returncode stdout]|e];
    [|apply empty_metadata_coherent].
  destruct (negb (returncode =? 0)%Z); [apply empty_metadata_coherent|].
  destruct (json_loads stdout) as [[|info others]|e];
    [apply empty_metadata_coherent | | apply empty_metadata_coherent].
  apply fill_metadata_coherent.
Qed.

(** X20. The name under which a photo is shown leads back to the photo.
    When no entry of the directory holds a slash, every path that
    [find_image_files] returns is read to a record whose [filename] is an
    entry of the directory with an image extension; joined to the directory
    again, it is the path it came from, and a regular file.  A task of the
    automatic tagging that is given this name therefore never answers that
    the file is missing. *)
Theorem scanned_filename_round_trip (photo_dir : string)
    (fs : photo_directory) (fp : string) :
  Forall (fun entry => has_slash entry = false) (listdir fs) ->
  fp ∈ find_image_files photo_dir fs ->
  let name := filename (metadata fp) in
  name ∈ listdir fs
  /\ has_image_extension name = true
  /\ join photo_dir name = fp
  /\ isfile fs (join photo_dir name) = true
  /\ forall trackpoints max_gap r,
       (one photo_dir (isfile fs) trackpoints max_gap name).1 = Return r ->
       reason r <> "파일 없음"%string.
Proof.
  intros Hplain (entry & Hentry & -> & Hfile & Hext)%find_image_files_elem.
  destruct (metadata_of_coherent (join photo_dir entry)) as (Hname & _).
  cbv zeta. rewrite Hname.
  rewrite basename_join
    by (rewrite Forall_forall in Hplain; by apply Hplain).
  split; [done|]. split; [done|]. split; [done|]. split; [done|].
  intros trackpoints max_gap r. rewrite process_one_run. cbv zeta.
  rewrite Hfile. cbn [negb].
  destruct (has_gps _); [by intros [= <-]|].
  destruct (photo_time _); [|by intros [= <-]].
  destruct (to_write _ _ _ _ _ _ _ _ _); [|by intros [= <-]].
  cbn [fst]. destruct (exiftool _) as [proc|e]; [|done].
  intros [= <-]. cbn. by destruct (proc.1 =? 0)%Z.
Qed.

(** ** The photos set aside *)

Lemma tag_one_set_aside (trackpoints : list trackpoint) (max_gap : Z)
    (dry_run : bool) (t t1 : tagging) (fp : string) :
  (tag trackpoints max_gap dry_run t fp).1 = Return t1 ->
  map fst (no_gps_files t1)
  = map fst (no_gps_files t)
    ++ (if aside trackpoints max_gap fp then [fp] else []).
Proof.
  rewrite tag_one_run. unfold set_aside.
  destruct (has_gps (metadata fp)) eqn:Hgps.
  { intros [= <-]. cbn. by rewrite app_nil_r. }
  cbn [negb andb].
  destruct (photo_time (metadata fp)) as [pt|] eqn:Htime.
  2:{ intros [= <-]. unfold to_write. rewrite Hgps, Htime. cbn.
      by rewrite map_app. }
  destruct (planned trackpoints max_gap fp) as [found|].
  2:{ intros [= <-]. cbn. by rewrite map_app. }
  destruct dry_run.
  { intros [= <-]. cbn. by rewrite app_nil_r. }
  cbv zeta. cbn [fst].
  destruct (exiftool _) as [completed|e]; [|done].
  intros [= <-]. rewrite app_nil_r. by destruct (completed.1 =? 0)%Z.
Qed.

Lemma for_each_tag_set_aside (trackpoints : list trackpoint) (max_gap : Z)
    (dry_run : bool) (image_files : list string) (t t' : tagging) :
  (for_each (tag trackpoints max_gap dry_run) image_files t).1 = Return t' ->
  map fst (no_gps_files t')
  = map fst (no_gps_files t)
    ++ List.filter (aside trackpoints max_gap) image_files.
Proof.
  revert t. induction image_files as [|fp rest IH]; intros t.
  - intros [= <-]. by rewrite app_nil_r.
  - cbn [for_each List.filter]. rewrite io_bind_fst.
    destruct ((tag trackpoints max_gap dry_run t fp).1) as [t1|e] eqn:Hone;
      [|done].
    intros Hrest. rewrite (IH _ Hrest), (tag_one_set_aside _ _ _ _ _ _ Hone).
    rewrite <- app_assoc. by destruct (aside trackpoints max_gap fp).
Qed.

(** X21. When a real run of the command line tool comes to its end, the
    files it moves are, in the order of the images, exactly the images
    that have no position and for which none was found on the track; an
    image that has a position, or that was to be written, stays where it
    is.  Each file goes into the [no_gps] directory of the photo directory
    under its own name. *)
Theorem main_moves (photo_dir : string) (image_files : list string)
    (trackpoints : list trackpoint) (max_gap : Z) (r : report) :
  (main photo_dir image_files trackpoints max_gap false).1 = Return r ->
  map fst (moves r) = List.filter (aside trackpoints max_gap) image_files
  /\ Forall (fun move : string * string =>
               move.2 = join (join photo_dir "no_gps") (basename move.1)
               /\ basename move.2 = basename move.1)
            (moves r).
Proof.
  unfold main_tag_photos. cbv zeta. rewrite io_bind_fst.
  destruct ((for_each _ image_files _).1) as [t|e] eqn:Hloop; [|done].
  cbn [fst mret io_ret]. intros [= <-]. cbn [moves].
  apply for_each_tag_set_aside in Hloop. cbn in Hloop. split.
  - rewrite <- Hloop, map_map. by apply map_ext.
  - apply Forall_forall. intros move (item & <- & _)%list_elem_of_In%in_map_iff.
    cbn [fst snd]. split; [done|].
    apply basename_join, has_slash_basename.
Qed.

End RoundTrip.

Lemma scanned_filename_round_trip_witness :
  join "/photos"
    (filename (metadata_of sample_exiftool sample_json_loads
                 sample_float_of_str sample_strptime sample_int
                 (fun _ => 0%Z) "/photos/a.jpg"))
  = "/photos/a.jpg"%string.
Proof.
  apply (scanned_filename_round_trip sample_exiftool sample_json_loads
           sample_float_of_str sample_format_float sample_strptime
           sample_int (fun _ => 0%Z) "/photos" sample_photo_directory
           "/photos/a.jpg").
  - repeat constructor.
  - apply list_elem_of_In. vm_compute. left. reflexivity.
Defined.

Lemma main_moves_witness :
  exists r,
    (main_tag_photos sample_exiftool sample_json_loads sample_float_of_str
       sample_format_float sample_strptime sample_int (fun _ => 0%Z)
       "/photos" sample_images may_timeline 3600 false).1 = Return r
    /\ map fst (moves r)
       = List.filter
           (set_aside sample_exiftool sample_json_loads sample_float_of_str
              sample_strptime sample_int (fun _ => 0%Z) may_timeline 3600)
           sample_images.
Proof.
  eexists. split; [vm_compute; reflexivity|].
  apply (main_moves sample_exiftool sample_json_loads sample_float_of_str
           sample_format_float sample_strptime sample_int (fun _ => 0%Z)
           "/photos" sample_images may_timeline 3600).
  vm_compute. reflexivity.
Defined.

(** ** Offsets that cannot be read *)

Section BadOffsetFacts.
Variable strptime : string -> string -> outcome datetime.
Variable int_of : string -> outcome Z.

Lemma localize_without_offset (local_offset : Z -> Z) (t : datetime)
    (tag : json) :
  truthy tag = false
  \/ offset_of int_of tag = Raise ValueError
  \/ offset_of int_of tag = Raise IndexError ->
  localize int_of local_offset t (Some tag)
  = localize int_of local_offset t None.
Proof.
  unfold localize. destruct (tzinfo t); [done|].
  intros [Hfalsy|[Hbad|Hbad]].
  - by rewrite Hfalsy.
  - rewrite Hbad. by destruct (truthy tag).
  - rewrite Hbad. by destruct (truthy tag).
Qed.

(** X22. An offset tag that cannot be read counts as no tag at all.  When
    the tag is empty, or reading it ends in a [ValueError] or an
    [IndexError], the normalizer gives what it gives for the same record
    with both offset tags taken out: the timestamp is read in the host's
    time zone. *)
Theorem parse_exiftool_datetime_bad_offset (info : gmap string json)
    (tag : json) (local_offset : Z -> Z) :
  offset_tag info = Some tag ->
  truthy tag = false
  \/ offset_of int_of tag = Raise ValueError
  \/ offset_of int_of tag = Raise IndexError ->
  _parse_exiftool_datetime strptime int_of local_offset info
  = _parse_exiftool_datetime strptime int_of local_offset
      (without_offset info).
Proof.
  intros Htag Hbad.
  assert (forall t, localize int_of local_offset t (Some tag)
                    = localize int_of local_offset t None) as Hloc
    by (intros; by apply localize_without_offset).
  unfold _parse_exiftool_datetime, without_offset. cbv zeta.
  fold (offset_tag info). rewrite Htag.
  rewrite (lookup_delete_eq (delete "OffsetTime"%string info)
             "OffsetTimeOriginal"%string).
  rewrite !(lookup_delete_ne (delete "OffsetTime"%string info)
              "OffsetTimeOriginal"%string) by done.
  rewrite (lookup_delete_eq info "OffsetTime"%string).
  rewrite !(lookup_delete_ne info "OffsetTime"%string) by done.
  cbn [or_else].
  destruct (or_else _ _) as [date_str|]; [|done].
  destruct (negb _ || _); [done|].
  destruct (strip_of date_str) as [stripped|e]; [|done].
  cbn [mbind outcome_bind].
  destruct (try_formats strptime stripped FORMATS) as [[t|]|e];
    cbn [mbind outcome_bind]; [by rewrite Hloc | | done].
  destruct (getitem _ 0%Z) as [whole|e]; cbn [mbind outcome_bind]; [|done].
  destruct (strptime whole _) as [t|e]; [by rewrite Hloc | done].
Qed.

End BadOffsetFacts.

Lemma parse_exiftool_datetime_bad_offset_witness :
  _parse_exiftool_datetime sample_strptime sample_int
    (fun _ => 3600000000%Z) junk_offset_info
  = _parse_exiftool_datetime sample_strptime sample_int
      (fun _ => 3600000000%Z) (without_offset junk_offset_info).
Proof.
  apply (parse_exiftool_datetime_bad_offset sample_strptime sample_int
           junk_offset_info (JString "junk")).
  - reflexivity.
  - right. left. reflexivity.
Defined.

(** ** A scan without a track *)

Lemma match_photos_no_track (max_gap : Q) (batch : list photo_metadata) :
  match_photos [] max_gap batch
  = Return (map (fun photo =>
                   with_status photo
                     (if has_gps photo then "has_gps"
                      else match photo_time photo with
                           | None => "no_time"
                           | Some _ => "no_match"
                           end)) batch).
Proof.
  induction batch as [|photo rest IH]; [done|].
  cbn [match_photos map]. rewrite IH.
  unfold match_photo, match_photo_with.
  destruct (has_gps photo); [done|].
  by destruct (photo_time photo).
Qed.

(** X23. Without a track nothing is matched.  When there is no track
    directory, or when its files hold no trackpoint with a time, the scan
    returns; it counts no trackpoint; every photo keeps its record and gets
    no position; and its status says only whether it has a position
    already, has no capture time, or has a time that could not be
    matched. *)
Theorem async_scan_photos_without_track (batch : list photo_metadata)
    (gpx_dir : option gpx_directory) (max_gap : Q) :
  match gpx_dir with
  | None => True
  | Some gpx_dir => parse_gpx_files gpx_dir = []
  end ->
  exists result,
    async_scan_photos batch gpx_dir max_gap = Return result
    /\ trackpoint_count result = 0
    /\ map metadata (photos result) = batch
    /\ map status (photos result)
       = map (fun photo =>
                if has_gps photo then "has_gps"
                else match photo_time photo with
                     | None => "no_time"
                     | Some _ => "no_match"
                     end)%string batch
    /\ Forall (fun scanned =>
                 matched_lat scanned = None /\ matched_lon scanned = None
                 /\ matched_ele scanned = None)
              (photos result).
Proof.
  intros Hempty. unfold async_scan_photos. cbv zeta.
  assert (match gpx_dir with
          | Some gpx_dir => parse_gpx_files gpx_dir
          | None => []
          end = []) as -> by (by destruct gpx_dir).
  rewrite match_photos_no_track. cbn [mbind outcome_bind].
  eexists. split; [reflexivity|]. cbn [trackpoint_count photos length].
  split; [done|]. rewrite !map_map. cbn [metadata status with_status].
  split; [by rewrite map_id|]. split; [done|].
  apply Forall_forall. by intros scanned (photo & <- & _)%list_elem_of_In%in_map_iff.
Qed.

Lemma async_scan_photos_without_track_witness :
  exists result,
    async_scan_photos [photo_with_gps; photo_on_track] None 3600
    = Return result
    /\ trackpoint_count result = 0
    /\ map status (photos result) = ["has_gps"; "no_match"]%string.
Proof.
  destruct (async_scan_photos_without_track [photo_with_gps; photo_on_track]
              None 3600 I) as (result & Hscan & Hcount & _ & Hstatus & _).
  exists result. split; [exact Hscan|]. split; [exact Hcount|].
  exact Hstatus.
Defined.
